(** * InkTrust: a shallow embedding of the verification engine

    The development follows the repository's modules:
    - [JS]          the JavaScript primitives the code relies on (truthiness,
                    string helpers, doubles and their rendering as text,
                    IEEE division by zero);
    - [Automation]  utils/automation-detector (detectAutomation and its checks);
    - [Sha256]      the digest behind [CryptoJS.SHA256];
    - [Fingerprint] utils/fingerprint-analyzer (analyzeFingerprint, the hash);
    - [Network]     utils/network-analyzer (analyzeNetwork);
    - [Behavior]    utils/behavior-analyzer (analyzeBehavior and sub-analyses);
    - [Verify]      api/verify.js (the session store and its four routes,
                    cleanupSessions, verifySession, analyzeRequestPattern);
    - [Demo]        concrete requests, snapshots and event lists;
    - [Sdk]         public/sdk.js (the plugin list and the string hash);
    - [Legacy]      the first version of the router;
    - [Path], [Inv] the predicates that the further properties are stated
                    and proved with; [Scenario], further concrete inputs.
    The properties come last: those of the specification first, then
    further properties of the code.

    Conventions.
    - A value that may be [undefined] or [null] is an [option]; where the
      code tells the two apart ([navigator = {}]), a [jsopt].
    - The numbers of the snapshot (colour depth, pixel ratio, time zone
      offset, hardware counts, touch points) are doubles, [JS.Num]: they
      are compared as doubles and written by [JSON.stringify] as
      [Number::toString] writes them.  The numbers of the events
      (coordinates, timestamps) and of the [navigator] object are integers,
      [Z]; scores that are halved are rationals, [Q]; the statistics of the
      behaviour analyser (square roots, standard deviations) are reals,
      [R], with the IEEE results of a division by zero made explicit.
    - Strings are byte strings (UTF-8); [length] and [toLowerCase] are those
      of the bytes, which agrees with JavaScript on ASCII text; [trim]
      removes the white space of ECMAScript, Unicode white space
      included.
    - A function that can throw returns an [option], [None] standing for the
      exception; a route that catches it answers with its error response.
    - [Date.now()] and [uuidv4()] are arguments ([now], [sessionId]).
    - Third-party packages (bowser, device-detector-js, ua-parser-js,
      geoip-lite, ipaddr.js, ml-pca) are not part of the repository: their
      entry points are the fields of the record [Libs], over which the
      definitions are parameterised.  The metrics objects of the behaviour
      analyser, which no decision reads, are left out. *)

From Stdlib Require Import ZArith QArith Qminmax Reals Lra Lia List String Ascii.
From Stdlib Require Import SpecFloat.
From Stdlib Require Import DecimalString DecimalZ Psatz.
From stdpp Require Import gmap strings list fin_maps.

#[local] Open Scope string_scope.
#[local] Open Scope Z_scope.

(* ===================================================================== *)
(** ** JavaScript primitives *)
(* ===================================================================== *)
Module JS.

(** A property that may be [undefined], [null] or an object. *)
Inductive jsopt (A : Type) : Type :=
| Undefined
| Null
| Obj (a : A).
Arguments Undefined {A}.
Arguments Null {A}.
Arguments Obj {A} a.

(** [x = {}] default of a destructuring pattern: only [undefined] is replaced. *)
Definition withDefault {A} (d : A) (x : jsopt A) : option A :=
  match x with
  | Undefined => Some d
  | Null => None
  | Obj a => Some a
  end.

(** Truthiness of an optional string: [undefined], [null] and [''] are falsy. *)
Definition truthyS (s : option string) : bool :=
  match s with
  | Some (String _ _) => true
  | _ => false
  end.

(** [x || null] on a string. *)
Definition orNullS (s : option string) : option string :=
  if truthyS s then s else None.

(** [String.prototype.includes]. *)
Fixpoint includes (s sub : string) : bool :=
  String.prefix sub s ||
  match s with
  | EmptyString => false
  | String _ s' => includes s' sub
  end.

(** [Array.prototype.includes] on an array of strings. *)
Definition arrIncludes (l : list string) (s : string) : bool :=
  existsb (String.eqb s) l.

Definition lowerAscii (c : ascii) : ascii :=
  let n := nat_of_ascii c in
  if ((65 <=? n) && (n <=? 90))%nat then ascii_of_nat (n + 32) else c.

(** [String.prototype.toLowerCase] (on the ASCII letters). *)
Fixpoint toLowerCase (s : string) : string :=
  match s with
  | EmptyString => EmptyString
  | String c s' => String (lowerAscii c) (toLowerCase s')
  end.

(** [s.split(sep)] for a one-character separator; never the empty array. *)
Fixpoint split (sep : ascii) (s : string) : list string :=
  match s with
  | EmptyString => [EmptyString]
  | String c s' =>
      if Ascii.eqb c sep then EmptyString :: split sep s'
      else match split sep s' with
           | x :: xs => String c x :: xs
           | [] => [String c EmptyString]
           end
  end.

(** The white space and the line terminators of ECMAScript, as UTF-8
    sequences: the ASCII ones (tab, LF, VT, FF, CR, space), U+00A0, and on
    three bytes U+1680, U+2000 to U+200A, U+2028, U+2029, U+202F, U+205F,
    U+3000 and U+FEFF. *)
Definition isSpace (c : ascii) : bool :=
  let n := nat_of_ascii c in
  ((n =? 32) || ((9 <=? n) && (n <=? 13)))%nat.

Definition isSpace2 (a b : ascii) : bool :=
  ((nat_of_ascii a =? 194) && (nat_of_ascii b =? 160))%nat.

Definition isSpace3 (a b c : ascii) : bool :=
  let x := nat_of_ascii a in
  let y := nat_of_ascii b in
  let z := nat_of_ascii c in
  (((x =? 225) && (y =? 154) && (z =? 128))
   || ((x =? 226) && (y =? 128)
       && (((128 <=? z) && (z <=? 138)) || (z =? 168) || (z =? 169) || (z =? 175)))
   || ((x =? 226) && (y =? 129) && (z =? 159))
   || ((x =? 227) && (y =? 128) && (z =? 128))
   || ((x =? 239) && (y =? 187) && (z =? 191)))%nat.

(** The text without the white space at its head; with [back], the bytes
    of [s] come last byte first. *)
Fixpoint trimHead (back : bool) (s : string) : string :=
  match s with
  | EmptyString => EmptyString
  | String a s1 =>
      if isSpace a then trimHead back s1
      else
        match s1 with
        | EmptyString => s
        | String b s2 =>
            if (if back then isSpace2 b a else isSpace2 a b) then trimHead back s2
            else
              match s2 with
              | EmptyString => s
              | String c s3 =>
                  if (if back then isSpace3 c b a else isSpace3 a b c)
                  then trimHead back s3 else s
              end
        end
  end.

Definition trimStart (s : string) : string := trimHead false s.

Fixpoint revS (acc s : string) : string :=
  match s with
  | EmptyString => acc
  | String c s' => revS (String c acc) s'
  end.

(** [String.prototype.trim]. *)
Definition trim (s : string) : string :=
  revS EmptyString (trimHead true (revS EmptyString (trimStart s))).

(** [Array.prototype.join]. *)
Fixpoint join (sep : string) (l : list string) : string :=
  match l with
  | [] => EmptyString
  | [x] => x
  | x :: xs => x ++ sep ++ join sep xs
  end.

Definition digitVal (c : ascii) : option Z :=
  let n := nat_of_ascii c in
  if ((48 <=? n) && (n <=? 57))%nat then Some (Z.of_nat n - 48) else None.

Fixpoint digitsVal (acc : Z) (s : string) : option Z :=
  match s with
  | EmptyString => Some acc
  | String c s' =>
      match digitVal c with
      | Some d => digitsVal (10 * acc + d) s'
      | None => None
      end
  end.

(** [Number(s)] on a string: the empty (or blank) string is 0, a decimal
    integer literal with an optional sign is its value, anything else is
    read as [NaN] ([None]). *)
Definition Number (s : string) : option Z :=
  match trim s with
  | EmptyString => Some 0
  | String "-" (String c r) => option_map Z.opp (digitsVal 0 (String c r))
  | String "+" (String c r) => digitsVal 0 (String c r)
  | t => digitsVal 0 t
  end.

(** The value of a division of two finite numbers in IEEE arithmetic. *)
Inductive quot : Type :=
| Fin (q : Q)
| PosInf
| NegInf
| NaN.

Definition div (a b : Z) : quot :=
  if b =? 0 then
    (if a =? 0 then NaN else if 0 <? a then PosInf else NegInf)
  else Fin (Qmake a 1 / Qmake b 1).

(** [x < c] and [x > c] for a finite [c]; every comparison with NaN is false. *)
Definition qlt (x : quot) (c : Q) : bool :=
  match x with
  | Fin q => match Qcompare q c with Lt => true | _ => false end
  | NegInf => true
  | PosInf | NaN => false
  end.

Definition qgt (x : quot) (c : Q) : bool :=
  match x with
  | Fin q => match Qcompare q c with Gt => true | _ => false end
  | PosInf => true
  | NegInf | NaN => false
  end.

(** Comparisons of a possibly-NaN integer with a constant. *)
Definition nlt (x : option Z) (c : Z) : bool :=
  match x with Some v => v <? c | None => false end.
Definition nge (x : option Z) (c : Z) : bool :=
  match x with Some v => c <=? v | None => false end.

(** *** Numbers

    A number of the snapshot is a double: [spec_float] of the standard
    library, read with 53 bits of precision and exponents up to 1024. *)
Definition Num : Type := spec_float.


(** The double of an integer, and of [m * 2^e]. *)
Definition ofZ (z : Z) : Num := binary_normalize 53 1024 z 0 false.
Definition dyadic (m e : Z) : Num := binary_normalize 53 1024 m e false.

Definition isFinite (x : Num) : bool :=
  match x with
  | S754_zero _ | S754_finite _ _ _ => true
  | _ => false
  end.

(** Truthiness of an optional number: [undefined], [null], [0], [-0] and
    [NaN] are falsy. *)
Definition truthyN (n : option Num) : bool :=
  match n with
  | Some (S754_finite _ _ _) | Some (S754_infinity _) => true
  | _ => false
  end.

(** [x || null] and [x || 0] on a number. *)
Definition orNullN (n : option Num) : option Num :=
  if truthyN n then n else None.
Definition orZeroN (n : option Num) : Num :=
  match orNullN n with Some x => x | None => S754_zero false end.

(** [x < y], [x <= y], [x === y], [x - y] and [Math.abs(x)]. *)
Definition ltN (x y : Num) : bool := SFltb x y.
Definition leN (x y : Num) : bool := SFleb x y.
Definition eqN (x y : Num) : bool := SFeqb x y.
Definition subN (x y : Num) : Num := SFsub 53 1024 x y.
Definition absN (x : Num) : Num := SFabs x.

(** The same double. *)
Definition sameN (x y : Num) : bool :=
  match x, y with
  | S754_zero a, S754_zero b => Bool.eqb a b
  | S754_infinity a, S754_infinity b => Bool.eqb a b
  | S754_nan, S754_nan => true
  | S754_finite a m e, S754_finite b m' e' => Bool.eqb a b && Pos.eqb m m' && Z.eqb e e'
  | _, _ => false
  end.

(** [a / b] rounded to the nearest integer, a tie to the even one. *)
Definition nearestEven (a b : Z) : Z :=
  let m := a / b in
  match 2 * (a mod b) ?= b with
  | Lt => m
  | Gt => m + 1
  | Eq => if Z.even m then m else m + 1
  end.

(** The double nearest to [p / q], for [p, q > 0].  The fraction is first
    scaled by [2^k], with [k] large enough for its integer part to hold 54
    bits, and at most 1074; the mantissa is then the fraction counted in
    units of [2^(sh - k)], where [sh] leaves it 53 bits, or fewer below the
    normal range. *)
Definition roundPos (p q : Z) : Num :=
  let k := Z.min 1074 (Z.max 0 (54 + Z.log2 q - Z.log2 p)) in
  let P := p * 2 ^ k in
  let sh := Z.max (Z.log2 (P / q) - 52) 0 in
  let m := nearestEven P (q * 2 ^ sh) in
  let '(m, sh) := if m =? 2 ^ 53 then (2 ^ 52, sh + 1) else (m, sh) in
  match m with
  | Zpos mp =>
      if sh - k <=? 971 then S754_finite false mp (sh - k) else S754_infinity false
  | _ => S754_zero false
  end.

(** The double of a fraction that is not negative. *)
Definition roundQ (v : Q) : Num :=
  let w := Qred v in
  if Qnum w <=? 0 then S754_zero false else roundPos (Qnum w) (Zpos (Qden w)).

(** The decimal [s * 10^j]. *)
Definition decQ (s j : Z) : Q :=
  if 0 <=? j then (s * 10 ^ j) # 1 else s # Z.to_pos (10 ^ (- j)).

Definition strlen (s : string) : Z := Z.of_nat (String.length s).

Definition digitChar (d : Z) : ascii := ascii_of_nat (Z.to_nat (48 + d)).

Fixpoint digitsFrom (fuel : nat) (n : Z) (acc : string) : string :=
  match fuel with
  | O => acc
  | S f =>
      let acc' := String (digitChar (n mod 10)) acc in
      if n / 10 =? 0 then acc' else digitsFrom f (n / 10) acc'
  end.

(** The decimal digits of [n >= 0]. *)
Definition digitsZ (n : Z) : string :=
  digitsFrom (S (Z.to_nat (Z.log2 n))) n EmptyString.

Fixpoint zeros (n : nat) : string :=
  match n with
  | O => EmptyString
  | S n' => String "0" (zeros n')
  end.

Fixpoint takeS (n : nat) (s : string) : string :=
  match n, s with
  | S n', String c r => String c (takeS n' r)
  | _, _ => EmptyString
  end.

Fixpoint dropS (n : nat) (s : string) : string :=
  match n, s with
  | S n', String _ r => dropS n' r
  | _, _ => s
  end.

(** The text of [s * 10^j] as [Number::toString] lays it out, with [k] the
    number of digits of [s] and [n = k + j]: plain digits up to 21 of
    them, a decimal point inside or after [0.] down to six zeros, the
    exponent form otherwise. *)
Definition fmt (s j : Z) : string :=
  let ds := digitsZ s in
  let k := strlen ds in
  let n := k + j in
  if (k <=? n) && (n <=? 21) then ds ++ zeros (Z.to_nat (n - k))
  else if (0 <? n) && (n <=? 21) then
    takeS (Z.to_nat n) ds ++ "." ++ dropS (Z.to_nat n) ds
  else if (-6 <? n) && (n <=? 0) then "0." ++ zeros (Z.to_nat (- n)) ++ ds
  else
    let e := n - 1 in
    let mant := match ds with
                | String d (String c r) => String d ("." ++ String c r)
                | _ => ds
                end in
    mant ++ "e" ++ (if e <? 0 then "-" else "+") ++ digitsZ (Z.abs e).

Fixpoint stripZeros (fuel : nat) (s j : Z) : Z * Z :=
  match fuel with
  | O => (s, j)
  | S f =>
      if (s mod 10 =? 0) && negb (s =? 0) then stripZeros f (s / 10) (j + 1) else (s, j)
  end.

(** [(p / q) * 10^t] as a fraction. *)
Definition scale10 (p q t : Z) : Z * Z :=
  if 0 <=? t then (p * 10 ^ t, q) else (p, q * 10 ^ (- t)).

(** Of the two decimals [lo * 10^j] and [hi * 10^j] around [x], one whose
    double is [x]: the nearer one when both are ([half] compares the
    distance to [lo] with half a unit), the even one at equal distance. *)
Definition pick (x : Num) (lo hi j : Z) (half : comparison) : option (Z * Z) :=
  let okLo := sameN (roundQ (decQ lo j)) x in
  let okHi := sameN (roundQ (decQ hi j)) x in
  if okLo && okHi then
    Some (match half with
          | Lt => lo
          | Gt => hi
          | Eq => if Z.even lo then lo else hi
          end, j)
  else if okLo then Some (lo, j)
  else if okHi then Some (hi, j)
  else None.

(** The decimal with the fewest digits [k] whose double is [x = p / q],
    [10^(n-1) <= x < 10^n]. *)
Fixpoint shortest (fuel : nat) (x : Num) (p q n k : Z) : option (Z * Z) :=
  match fuel with
  | O => None
  | S f =>
      let j := n - k in
      let '(a, b) := scale10 p q (- j) in
      match pick x (a / b) (a / b + 1) j (2 * (a mod b) ?= b) with
      | Some r => Some r
      | None => shortest f x p q n (k + 1)
      end
  end.

(** [m * 2^e] written out in full. *)
Definition exactDec (m : positive) (e : Z) : Z * Z :=
  if 0 <=? e then (Zpos m * 2 ^ e, 0) else (Zpos m * 5 ^ (- e), e).

(** The digits [s] and the exponent [j] that [Number::toString] chooses
    for the double [m * 2^e].  Seventeen digits are enough for a double;
    past them the number is written out in full. *)
Definition digitsOf (m : positive) (e : Z) : Z * Z :=
  let '(p, q) := if 0 <=? e then (Zpos m * 2 ^ e, 1) else (Zpos m, 2 ^ (- e)) in
  let n := if q <=? p then strlen (digitsZ (p / q))
           else strlen (digitsZ ((p * 10 ^ 324) / q)) - 324 in
  let '(s, j) := match shortest 17 (S754_finite false m e) p q n 1 with
                 | Some r => r
                 | None => exactDec m e
                 end in
  stripZeros (Z.to_nat (Z.log2 s)) s j.

(** [Number::toString(x)]. *)
Definition toStringN (x : Num) : string :=
  match x with
  | S754_nan => "NaN"
  | S754_zero _ => "0"
  | S754_infinity s => if s then "-Infinity" else "Infinity"
  | S754_finite s m e =>
      let '(d, j) := digitsOf m e in
      if s then String "-" (fmt d j) else fmt d j
  end.

(** A number in [JSON.stringify]: a number that is not finite is [null]. *)
Definition jsonN (x : Num) : string :=
  if isFinite x then toStringN x else "null".


(** *** Reading a rendered number back *)








(** Request headers: Node lower-cases the names; enumeration order is kept. *)
Definition Headers : Type := list (string * string).

Fixpoint hget (h : Headers) (k : string) : option string :=
  match h with
  | [] => None
  | (k', v) :: h' => if String.eqb k' k then Some v else hget h' k
  end.

End JS.
Export JS.

(* ===================================================================== *)
(** ** Third-party packages *)
(* ===================================================================== *)

(** The part of [Bowser.parse(ua)] that is read: [browser] and [os], each
    absent, or an object whose [name] may be undefined. *)
Record BowserResult : Type := {
  bw_browser : option (option string);
  bw_os : option (option string)
}.

(** The part of [deviceDetector.parse(ua)] that is read. *)
Record DeviceInfo : Type := {
  dd_client : option (option string);
  dd_os : option (option string)
}.

(** The part of [new UAParser(ua).getResult()] that is read: whether
    [browser] and [os] are truthy. *)
Record UAResult : Type := {
  ua_browser : bool;
  ua_os : bool
}.

(** [geoip.lookup(ip)]: only [country] is read. *)
Record GeoData : Type := { country : string }.

(** The entry points of the packages; [None] stands for a thrown exception
    (for [geoip_lookup], for the [null] result).  [pca_explained] is
    [new PCA(new Matrix(points), {scale: true}).getExplainedVariance()], an
    entry [None] of its array being NaN. *)
Record Libs : Type := {
  IpAddr : Type;
  bowser_parse : string -> option BowserResult;
  device_parse : string -> option DeviceInfo;
  uaparser_result : option string -> option UAResult;
  geoip_lookup : string -> option GeoData;
  ipaddr_parse : string -> option IpAddr;
  ipaddr_range : IpAddr -> string;
  ipaddr_kind : IpAddr -> string;
  ipaddr_compare : IpAddr -> IpAddr -> option Z;
  pca_explained : list (Z * Z) -> option (list (option R))
}.

(* ===================================================================== *)
(** ** Telemetry snapshot as the server keeps it *)
(* ===================================================================== *)

Module Client.

(** The [navigator] object as far as the detector reads it. *)
Record Navigator : Type := {
  nav_webdriver : bool;                       (* navigator.webdriver === true *)
  nav_props : list string;                    (* names [p] with [p in navigator] *)
  nav_plugins : option (list string);
  nav_languages : option (list string);
  nav_platform : option string;
  nav_language : option string;
  nav_hardwareConcurrency : option Z;
  nav_permissionsQuery : bool                 (* permissions.query is a function *)
}.

(** The [window] object as far as the detector reads it. *)
Record Window : Type := {
  win_props : list string;                    (* names [p] with [p in window] *)
  win_chrome : option (bool * bool);          (* chrome: (app truthy, runtime truthy) *)
  win_cdc : bool;                             (* document.$cdc_... !== undefined *)
  win_WebGLRenderingContext : bool
}.

(** The empty object literal, as a navigator and as a window. *)
Definition emptyNavigator : Navigator :=
  {| nav_webdriver := false; nav_props := []; nav_plugins := None;
     nav_languages := None; nav_platform := None; nav_language := None;
     nav_hardwareConcurrency := None; nav_permissionsQuery := false |}.

Definition emptyWindow : Window :=
  {| win_props := []; win_chrome := None; win_cdc := false;
     win_WebGLRenderingContext := false |}.

(** [plugins] is a comma-separated string or an array of names. *)
Inductive Plugins : Type :=
| PStr (s : string)
| PArr (l : list string).

(** [clientInfo], the object built by the init route. *)
Record ClientInfo : Type := {
  ip : option string;
  userAgent : option string;
  parsedUserAgent : option UAResult;
  headers : Headers;
  fingerprint : option string;
  canvasFingerprint : option string;
  webglFingerprint : option string;
  webglVendor : option string;
  webglRenderer : option string;
  audioFingerprint : option string;
  screenResolution : option string;
  colorDepth : option Num;
  pixelRatio : option Num;
  timezone : option string;
  timezoneOffset : option Num;
  language : option string;
  platform : option string;
  hardwareConcurrency : option Num;
  deviceMemory : option Num;
  plugins : option Plugins;
  fonts : option (list string);
  touchSupport : bool;
  maxTouchPoints : Num;
  cookiesEnabled : bool;
  localStorage : bool;
  sessionStorage : bool;
  indexedDB : bool;
  doNotTrack : option string;
  adBlocker : bool;
  webdriver : bool;
  automationFlags : option (list string);
  connectionType : option string;
  connectionSpeed : option Num;
  navigator : jsopt Navigator;
  window : jsopt Window
}.

End Client.
Export Client.

(* ===================================================================== *)
(** ** utils/automation-detector *)
(* ===================================================================== *)
Module Automation.

Record Result : Type := {
  isAutomated : bool;
  automationScore : Z;
  detectedTools : list string;
  reasons : list string
}.

(** The result object of the per-tool detectors. *)
Record Detect : Type := {
  detected : bool;
  score : Z;
  dreasons : list string
}.

Definition noDetect : Detect := {| detected := false; score := 0; dreasons := [] |}.

(** [result.detected = true; result.score += d; result.reasons.push(msg)]. *)
Definition hit (d : Z) (msg : string) (r : Detect) : Detect :=
  {| detected := true; score := score r + d; dreasons := (dreasons r ++ [msg])%list |}.

(** [result.score += d; result.reasons.push(...msgs)], [detected] untouched. *)
Definition bump (d : Z) (msgs : list string) (r : Detect) : Detect :=
  {| detected := detected r; score := score r + d; dreasons := (dreasons r ++ msgs)%list |}.

(** [if (result.score >= 30) result.detected = true]. *)
Definition detectAt30 (r : Detect) : Detect :=
  if 30 <=? score r then
    {| detected := true; score := score r; dreasons := dreasons r |}
  else r.

Definition seleniumProps : list string :=
  [ "__webdriver_evaluate"; "__selenium_evaluate"; "__webdriver_script_function";
    "__webdriver_script_func"; "__webdriver_script_fn"; "__fxdriver_evaluate";
    "__driver_unwrapped"; "__webdriver_unwrapped"; "__driver_evaluate";
    "__selenium_unwrapped"; "__fxdriver_unwrapped"; "_Selenium_IDE_Recorder";
    "_selenium"; "calledSelenium"; "_WEBDRIVER_ELEM_CACHE" ].

Definition detectWebDriver (nav : option Navigator) : bool :=
  match nav with
  | None => false
  | Some n =>
      if nav_webdriver n then true
      else existsb (fun p => arrIncludes (nav_props n) p) seleniumProps
  end.

Definition seleniumWindowProps : list string :=
  [ "SeleniumWebDriverRequest"; "_selenium"; "selenium"; "Selenium";
    "_Selenium_IDE_Recorder"; "callSelenium" ].

(** The first listed property present in [window], if any (the loop breaks). *)
Definition firstProp (w : Window) : option string :=
  List.find (fun p => arrIncludes (win_props w) p) seleniumWindowProps.

Definition detectSelenium (ua : option string) (nav : option Navigator)
    (win : option Window) : Detect :=
  match ua, nav, win with
  | Some u, Some n, Some w =>
      if negb (truthyS ua) then noDetect else
      let r1 := if includes u "Selenium" || includes u "selenium"
                then hit 25 "用户代理中包含Selenium关键词" noDetect else noDetect in
      let r2 := match firstProp w with
                | Some p => hit 20 ("检测到Selenium窗口属性: " ++ p) r1
                | None => r1
                end in
      if win_cdc w then hit 25 "检测到Chrome WebDriver特征" r2 else r2
  | _, _, _ => noDetect
  end.

Definition detectPuppeteer (ua : option string) (nav : option Navigator)
    (win : option Window) : Detect :=
  match ua, nav, win with
  | Some u, Some n, Some w =>
      if negb (truthyS ua) then noDetect else
      let r1 := if includes u "HeadlessChrome"
                then hit 30 "用户代理中包含HeadlessChrome" noDetect else noDetect in
      let r2 := match nav_plugins n with
                | Some [] => bump 10 ["浏览器插件数量为0"] r1
                | _ => r1
                end in
      let r3 := match win_chrome w with
                | Some (app, runtime) =>
                    if negb app || negb runtime
                    then bump 15 ["Chrome对象不完整"] r2 else r2
                | None => r2
                end in
      let r4 := match nav_languages n with
                | Some [] => bump 10 ["语言列表为空"] r3
                | _ => r3
                end in
      detectAt30 r4
  | _, _, _ => noDetect
  end.

Definition detectPlaywright (ua : option string) (nav : option Navigator)
    (win : option Window) : Detect :=
  match ua, nav, win with
  | Some u, Some n, Some w =>
      if negb (truthyS ua) then noDetect else
      let r1 := if nav_permissionsQuery n then bump 10 [] noDetect else noDetect in
      let r2 := if includes u "Playwright"
                then hit 30 "用户代理中包含Playwright" r1 else r1 in
      let r3 := if win_WebGLRenderingContext w then bump 5 [] r2 else r2 in
      detectAt30 r3
  | _, _, _ => noDetect
  end.

Definition getPlatformOS (platform : string) : option string :=
  let p := toLowerCase platform in
  if includes p "win" then Some "Windows"
  else if includes p "mac" then Some "macOS"
  else if includes p "linux" || includes p "x11" then Some "Linux"
  else if includes p "android" then Some "Android"
  else if includes p "iphone" || includes p "ipad" then Some "iOS"
  else None.

(** [a !== b] on two possibly-undefined strings. *)
Definition neqOS (a b : option string) : bool :=
  match a, b with
  | Some x, Some y => negb (String.eqb x y)
  | None, None => false
  | _, _ => true
  end.

(** The [catch] block: the result as mutated so far, plus 5. *)
Definition parseError (r : Detect) : Detect :=
  bump 5 ["用户代理解析错误"] r.

(** First element of [s.split(sep)]. *)
Definition splitHead (sep : ascii) (s : string) : string :=
  match split sep s with
  | x :: _ => x
  | [] => EmptyString
  end.

(** Browser and OS names of the two parsers against each other. *)
Definition namesStep (parsedUA : BowserResult) (deviceInfo : DeviceInfo) : Detect :=
  let r1 := match bw_browser parsedUA, dd_client deviceInfo with
            | Some bn, Some cn =>
                if neqOS bn cn then hit 15 "浏览器名称不一致" noDetect else noDetect
            | _, _ => noDetect
            end in
  match bw_os parsedUA, dd_os deviceInfo with
  | Some bo, Some co =>
      if neqOS bo co then hit 15 "操作系统信息不一致" r1 else r1
  | _, _ => r1
  end.

(** [navigator.platform] against the parsed OS; [None] when
    [parsedUA.os.name.toLowerCase()] throws on an undefined name. *)
Definition platformStep (parsedUA : BowserResult) (n : Navigator) (r : Detect)
    : option Detect :=
  match nav_platform n with
  | Some (String a b) =>
      match bw_os parsedUA, getPlatformOS (String a b) with
      | Some oname, Some platformOS =>
          match oname with
          | None => None
          | Some on =>
              if negb (String.eqb (toLowerCase on) (toLowerCase platformOS))
              then Some (hit 20 "平台与用户代理操作系统不一致" r)
              else Some r
          end
      | _, _ => Some r
      end
  | _ => Some r
  end.

(** The first Accept-Language tag against [navigator.language]. *)
Definition languageStep (hs : Headers) (n : Navigator) (r : Detect) : Detect :=
  match hget hs "accept-language", nav_language n with
  | Some (String a b), Some (String c d) =>
      let headerLang := splitHead "-" (trim (splitHead "," (String a b))) in
      let navLang := splitHead "-" (String c d) in
      if negb (String.eqb headerLang navLang)
      then hit 10 "Accept-Language与navigator.language不一致" r
      else r
  | _, _ => r
  end.

Section WithLibs.
Context (L : Libs).

Definition detectBrowserInconsistency (ua : option string) (hs : Headers)
    (nav : option Navigator) : Detect :=
  match ua, nav with
  | Some u, Some n =>
      if negb (truthyS ua) then noDetect else
      match bowser_parse L u with
      | None => parseError noDetect
      | Some parsedUA =>
      match device_parse L u with
      | None => parseError noDetect
      | Some deviceInfo =>
          let r2 := namesStep parsedUA deviceInfo in
          match platformStep parsedUA n r2 with
          | None => parseError r2
          | Some r3 => languageStep hs n r3
          end
      end
      end
  | _, _ => noDetect
  end.

End WithLibs.

Definition commonAutomatedSizes : list string :=
  [ "800x600"; "1024x768"; "1280x800"; "1366x768"; "1920x1080" ].

(** [const [width, height] = s.split('x').map(Number)]. *)
Definition parseResolution (s : string) : option Z * option Z :=
  match split "x" s with
  | w :: h :: _ => (Number w, Number h)
  | [w] => (Number w, None)
  | [] => (None, None)
  end.

Definition detectAbnormalScreenSize (ci : ClientInfo) : bool :=
  if negb (truthyS (screenResolution ci)) then false else
  match screenResolution ci with
  | None => false
  | Some res =>
      let '(width, height) := parseResolution res in
      if arrIncludes commonAutomatedSizes res then true
      else
        let ratio := match width, height with
                     | Some w, Some h => JS.div w h
                     | _, _ => NaN
                     end in
        if qlt ratio 1 || qgt ratio 3 then true
        else if nlt width 500 || nlt height 500 then true
        else false
  end.

Definition commonAutomatedTimezones : list string :=
  [ "UTC"; "GMT"; "Etc/GMT"; "Etc/UTC" ].

Definition detectAbnormalTimezone (ci : ClientInfo) : bool :=
  if negb (truthyS (timezone ci)) then false else
  match timezone ci with
  | Some tz => arrIncludes commonAutomatedTimezones tz
  | None => false
  end.

Definition detectAbnormalPluginCount (nav : option Navigator) : bool :=
  match nav with
  | Some n =>
      match nav_plugins n with
      | Some ps => (length ps =? 0)%nat || (length ps <? 2)%nat
      | None => false
      end
  | None => false
  end.

Definition detectAbnormalHardwareConcurrency (nav : option Navigator) : bool :=
  match nav with
  | Some n =>
      match nav_hardwareConcurrency n with
      | Some c => c <=? 2
      | None => false
      end
  | None => false
  end.

Definition detectAbnormalLanguage (nav : option Navigator) (hs : Headers) : bool :=
  match nav with
  | None => false
  | Some n =>
      match nav_languages n with
      | Some [] => true
      | _ => negb (truthyS (hget hs "accept-language"))
      end
  end.

(** [checkUserAgentConsistency(userAgent, headers).consistent]. *)
Definition checkUserAgentConsistency (ua : option string) (hs : Headers) : bool :=
  if negb (truthyS ua) then true
  else if truthyS (hget hs "user-agent")
          && negb (bool_decide (hget hs "user-agent" = ua))
       then false else true.

Definition init : Result :=
  {| isAutomated := false; automationScore := 0; detectedTools := []; reasons := [] |}.

(** A tool detection: flag, score, tool name and reasons. *)
Definition flagTool (tool : string) (d : Z) (msgs : list string) (r : Result) : Result :=
  {| isAutomated := true;
     automationScore := automationScore r + d;
     detectedTools := (detectedTools r ++ [tool])%list;
     reasons := (reasons r ++ msgs)%list |}.

(** A score-only signal. *)
Definition addScore (d : Z) (msgs : list string) (r : Result) : Result :=
  {| isAutomated := isAutomated r;
     automationScore := automationScore r + d;
     detectedTools := detectedTools r;
     reasons := (reasons r ++ msgs)%list |}.

Definition when (b : bool) (f : Result -> Result) (r : Result) : Result :=
  if b then f r else r.

(** [if (score >= 50 && !isAutomated) { isAutomated = true; push 'Unknown Automation' }]. *)
Definition thresholdStep (r : Result) : Result :=
  if (50 <=? automationScore r) && negb (isAutomated r) then
    {| isAutomated := true;
       automationScore := automationScore r;
       detectedTools := (detectedTools r ++ ["Unknown Automation"])%list;
       reasons := reasons r |}
  else r.

(** [result.automationScore = Math.min(result.automationScore, 100)]. *)
Definition capStep (r : Result) : Result :=
  {| isAutomated := isAutomated r;
     automationScore := Z.min (automationScore r) 100;
     detectedTools := detectedTools r;
     reasons := reasons r |}.

Section WithLibs.
Context (L : Libs).

(** The result after the four tool detectors. *)
Definition toolSteps (ci : ClientInfo) : Result :=
  let ua := userAgent ci in
  let nav := withDefault emptyNavigator (navigator ci) in
  let win := withDefault emptyWindow (window ci) in
  let r1 := when (detectWebDriver nav)
              (flagTool "WebDriver" 30 ["检测到WebDriver API"]) init in
  let sel := detectSelenium ua nav win in
  let r2 := when (detected sel) (flagTool "Selenium" (score sel) (dreasons sel)) r1 in
  let pup := detectPuppeteer ua nav win in
  let r3 := when (detected pup) (flagTool "Puppeteer" (score pup) (dreasons pup)) r2 in
  let pw := detectPlaywright ua nav win in
  when (detected pw) (flagTool "Playwright" (score pw) (dreasons pw)) r3.

(** The result after the score-only signals, before the threshold. *)
Definition signalSteps (ci : ClientInfo) : Result :=
  let ua := userAgent ci in
  let hs := headers ci in
  let nav := withDefault emptyNavigator (navigator ci) in
  let r4 := toolSteps ci in
  let inc := detectBrowserInconsistency L ua hs nav in
  let r5 := when (detected inc) (addScore (score inc) (dreasons inc)) r4 in
  let r6 := when (detectAbnormalScreenSize ci) (addScore 10 ["异常的屏幕尺寸"]) r5 in
  let r7 := when (detectAbnormalTimezone ci) (addScore 10 ["异常的时区设置"]) r6 in
  let r8 := when (detectAbnormalPluginCount nav) (addScore 15 ["浏览器插件数量异常"]) r7 in
  let r9 := when (detectAbnormalHardwareConcurrency nav)
              (addScore 10 ["硬件并发数异常"]) r8 in
  let r10 := when (detectAbnormalLanguage nav hs) (addScore 5 ["语言设置异常"]) r9 in
  when (negb (checkUserAgentConsistency ua hs)) (addScore 20 ["用户代理不一致"]) r10.

Definition detectAutomation (ci : ClientInfo) : Result :=
  capStep (thresholdStep (signalSteps ci)).

End WithLibs.

(** Tools are named whenever the flag is set. *)
Definition named (r : Result) : Prop :=
  isAutomated r = true -> detectedTools r <> [].

End Automation.

(* ===================================================================== *)
(** ** SHA-256 (FIPS 180-4), as [CryptoJS.SHA256(s).toString()] computes it
       on the UTF-8 bytes of [s] *)
(* ===================================================================== *)
Module Sha256.

Definition w32 (x : Z) : Z := Z.land x 0xFFFFFFFF.
Definition add32 (x y : Z) : Z := w32 (x + y).
Definition rotr (n x : Z) : Z := Z.lor (Z.shiftr x n) (w32 (Z.shiftl x (32 - n))).
Definition not32 (x : Z) : Z := Z.lxor x 0xFFFFFFFF.

Definition Ch (x y z : Z) : Z := Z.lxor (Z.land x y) (Z.land (not32 x) z).
Definition Maj (x y z : Z) : Z :=
  Z.lxor (Z.lxor (Z.land x y) (Z.land x z)) (Z.land y z).
Definition Sigma0 (x : Z) : Z := Z.lxor (Z.lxor (rotr 2 x) (rotr 13 x)) (rotr 22 x).
Definition Sigma1 (x : Z) : Z := Z.lxor (Z.lxor (rotr 6 x) (rotr 11 x)) (rotr 25 x).
Definition sigma0 (x : Z) : Z := Z.lxor (Z.lxor (rotr 7 x) (rotr 18 x)) (Z.shiftr x 3).
Definition sigma1 (x : Z) : Z := Z.lxor (Z.lxor (rotr 17 x) (rotr 19 x)) (Z.shiftr x 10).

(** The round constants (the first 32 bits of the fractional parts of the
    cube roots of the first 64 primes), in decimal. *)
Definition K : list Z :=
  [
    1116352408; 1899447441; 3049323471; 3921009573; 961987163; 1508970993;
    2453635748; 2870763221; 3624381080; 310598401; 607225278; 1426881987;
    1925078388; 2162078206; 2614888103; 3248222580; 3835390401; 4022224774;
    264347078; 604807628; 770255983; 1249150122; 1555081692; 1996064986;
    2554220882; 2821834349; 2952996808; 3210313671; 3336571891; 3584528711;
    113926993; 338241895; 666307205; 773529912; 1294757372; 1396182291;
    1695183700; 1986661051; 2177026350; 2456956037; 2730485921; 2820302411;
    3259730800; 3345764771; 3516065817; 3600352804; 4094571909; 275423344;
    430227734; 506948616; 659060556; 883997877; 958139571; 1322822218;
    1537002063; 1747873779; 1955562222; 2024104815; 2227730452; 2361852424;
    2428436474; 2756734187; 3204031479; 3329325298 ].

Fixpoint bytesOf (s : string) : list Z :=
  match s with
  | EmptyString => []
  | String c s' => Z.of_nat (nat_of_ascii c) :: bytesOf s'
  end.

(** Big-endian bytes of [x], [n] of them. *)
Fixpoint beBytes (n : nat) (x : Z) : list Z :=
  match n with
  | O => []
  | S n' => Z.land (Z.shiftr x (8 * Z.of_nat n')) 0xFF :: beBytes n' x
  end.

(** Message, then 0x80, zeros up to 56 mod 64, and the bit length on 8 bytes. *)
Definition pad (msg : list Z) : list Z :=
  let len := Z.of_nat (length msg) in
  let zeros := Z.to_nat ((55 - len) mod 64) in
  (msg ++ [0x80] ++ repeat 0 zeros ++ beBytes 8 (8 * len))%list.

Fixpoint wordsOf (fuel : nat) (bs : list Z) : list Z :=
  match fuel, bs with
  | S f, b0 :: b1 :: b2 :: b3 :: r =>
      (Z.shiftl b0 24 + Z.shiftl b1 16 + Z.shiftl b2 8 + b3) :: wordsOf f r
  | _, _ => []
  end.

(** The schedule, newest word first: [ws] holds W[t-1], W[t-2], ... *)
Fixpoint extend (n : nat) (ws : list Z) : list Z :=
  match n with
  | O => ws
  | S n' =>
      let w := add32 (add32 (sigma1 (nth 1 ws 0)) (nth 6 ws 0))
                     (add32 (sigma0 (nth 14 ws 0)) (nth 15 ws 0)) in
      extend n' (w :: ws)
  end.

Definition schedule (block : list Z) : list Z :=
  rev (extend 48 (rev block)).

Definition state : Type := (Z * Z * Z * Z * Z * Z * Z * Z)%type.

Definition round (st : state) (kw : Z * Z) : state :=
  let '(a, b, c, d, e, f, g, h) := st in
  let t1 := add32 (add32 (add32 h (Sigma1 e)) (add32 (Ch e f g) (fst kw))) (snd kw) in
  let t2 := add32 (Sigma0 a) (Maj a b c) in
  (add32 t1 t2, a, b, c, add32 d t1, e, f, g).

Definition compress (st : state) (block : list Z) : state :=
  let '(a, b, c, d, e, f, g, h) := st in
  let '(a', b', c', d', e', f', g', h') :=
    fold_left round (combine K (schedule block)) st in
  (add32 a a', add32 b b', add32 c c', add32 d d',
   add32 e e', add32 f f', add32 g g', add32 h h').

Fixpoint blocks (fuel : nat) (ws : list Z) : list (list Z) :=
  match fuel, ws with
  | S f, _ :: _ => firstn 16 ws :: blocks f (skipn 16 ws)
  | _, _ => []
  end.

Definition hexDigit (d : Z) : ascii :=
  ascii_of_nat (Z.to_nat (if d <? 10 then 48 + d else 87 + d)).

Fixpoint hexOf (n : nat) (x : Z) : string :=
  match n with
  | O => EmptyString
  | S n' => String (hexDigit (Z.land (Z.shiftr x (4 * Z.of_nat n')) 0xF)) (hexOf n' x)
  end.

Definition initState : state :=
  (1779033703, 3144134277, 1013904242, 2773480762,
   1359893119, 2600822924, 528734635, 1541459225).

(** The digest as 64 lower-case hexadecimal digits. *)
Definition SHA256 (s : string) : string :=
  let bs := pad (bytesOf s) in
  let ws := wordsOf (length bs) bs in
  let '(a, b, c, d, e, f, g, h) :=
    fold_left compress (blocks (length ws) ws) initState in
  (hexOf 8 a ++ hexOf 8 b ++ hexOf 8 c ++ hexOf 8 d ++
   hexOf 8 e ++ hexOf 8 f ++ hexOf 8 g ++ hexOf 8 h)%string.

End Sha256.

(* ===================================================================== *)
(** ** utils/fingerprint-analyzer *)
(* ===================================================================== *)
Module Fingerprint.

(** The object built by [extractFingerprintComponents], field by field.
    A numeric field defaulted with [|| ''] or [|| null] is [None] when the
    default applies, and a double otherwise. *)
Record Components : Type := {
  c_userAgent : string;
  c_language : string;
  c_colorDepth : option Num;            (* number, or '' *)
  c_screenResolution : string;
  c_timezone : string;
  c_timezoneOffset : option Num;        (* number, or null *)
  c_platform : string;
  c_plugins : Plugins;                  (* string or array; '' by default *)
  c_canvasFingerprint : option string;  (* string, or null *)
  c_webglFingerprint : option string;
  c_webglVendor : string;
  c_webglRenderer : string;
  c_audioFingerprint : option string;
  c_fonts : list string;
  c_touchSupport : bool;
  c_maxTouchPoints : Num;
  c_hardwareConcurrency : option Num;
  c_deviceMemory : option Num;
  c_pixelRatio : option Num
}.

(** [s || ''] *)
Definition orEmpty (s : option string) : string :=
  match s with Some x => x | None => EmptyString end.

(** [p || ''] for the plugin value. *)
Definition orEmptyP (p : option Plugins) : Plugins :=
  match p with
  | Some q => q
  | None => PStr EmptyString
  end.

Definition extractFingerprintComponents (ci : ClientInfo) : Components :=
  {| c_userAgent := orEmpty (userAgent ci);
     c_language := orEmpty (language ci);
     c_colorDepth := orNullN (colorDepth ci);
     c_screenResolution := orEmpty (screenResolution ci);
     c_timezone := orEmpty (timezone ci);
     c_timezoneOffset := orNullN (timezoneOffset ci);
     c_platform := orEmpty (platform ci);
     c_plugins := orEmptyP (plugins ci);
     c_canvasFingerprint := orNullS (canvasFingerprint ci);
     c_webglFingerprint := orNullS (webglFingerprint ci);
     c_webglVendor := orEmpty (webglVendor ci);
     c_webglRenderer := orEmpty (webglRenderer ci);
     c_audioFingerprint := orNullS (audioFingerprint ci);
     c_fonts := match fonts ci with Some l => l | None => [] end;
     c_touchSupport := touchSupport ci;
     c_maxTouchPoints := orZeroN (Some (maxTouchPoints ci));
     c_hardwareConcurrency := orNullN (hardwareConcurrency ci);
     c_deviceMemory := orNullN (deviceMemory ci);
     c_pixelRatio := orNullN (pixelRatio ci) |}.

(** *** JSON.stringify on the component object *)

Definition dquote : ascii := "034"%char.
Definition bslash : ascii := "092"%char.

Definition escapeChar (c : ascii) : string :=
  let n := nat_of_ascii c in
  if (n =? 34)%nat then String bslash (String dquote EmptyString)
  else if (n =? 92)%nat then String bslash (String bslash EmptyString)
  else if (n =? 8)%nat then String bslash "b"
  else if (n =? 12)%nat then String bslash "f"
  else if (n =? 10)%nat then String bslash "n"
  else if (n =? 13)%nat then String bslash "r"
  else if (n =? 9)%nat then String bslash "t"
  else if (n <? 32)%nat then String bslash ("u00" ++ Sha256.hexOf 2 (Z.of_nat n))
  else String c EmptyString.

Definition hexVal (c : ascii) : nat :=
  let n := nat_of_ascii c in
  if (n <? 58)%nat then (n - 48)%nat else (n - 87)%nat.

(** One character read back from its escaped form, with the rest; [None]
    at a closing quote. *)
Definition decode1 (s : string) : option (ascii * string) :=
  match s with
  | EmptyString => None
  | String c r =>
      if Ascii.eqb c dquote then None
      else if Ascii.eqb c bslash then
        match r with
        | String "u" (String _ (String _ (String h1 (String h2 r')))) =>
            Some (ascii_of_nat (16 * hexVal h1 + hexVal h2), r')
        | String "b" r' => Some ("008"%char, r')
        | String "f" r' => Some ("012"%char, r')
        | String "n" r' => Some ("010"%char, r')
        | String "r" r' => Some ("013"%char, r')
        | String "t" r' => Some ("009"%char, r')
        | String e r' => Some (e, r')
        | EmptyString => None
        end
      else Some (c, r)
  end.

Fixpoint escape (s : string) : string :=
  match s with
  | EmptyString => EmptyString
  | String c s' => escapeChar c ++ escape s'
  end.

Definition quoteS (s : string) : string :=
  String dquote (escape s ++ String dquote EmptyString).

(** A number member: [Number::toString], or [null] when not finite. *)
Definition numS (x : Num) : string := jsonN x.

Definition boolS (b : bool) : string := if b then "true" else "false".

Definition arrS (l : list string) : string :=
  "[" ++ join "," (List.map quoteS l) ++ "]".

(** A number, or the fallback text when the field holds its default. *)
Definition numOr (dflt : string) (n : option Num) : string :=
  match n with Some z => numS z | None => dflt end.

Definition strOrNull (s : option string) : string :=
  match s with Some x => quoteS x | None => "null" end.

Definition pluginsS (p : Plugins) : string :=
  match p with
  | PStr s => quoteS s
  | PArr l => arrS l
  end.

Definition member (k v : string) : string := quoteS k ++ ":" ++ v.

Definition stringify (c : Components) : string :=
  "{" ++ join ","
    [ member "userAgent" (quoteS (c_userAgent c));
      member "language" (quoteS (c_language c));
      member "colorDepth" (numOr (quoteS EmptyString) (c_colorDepth c));
      member "screenResolution" (quoteS (c_screenResolution c));
      member "timezone" (quoteS (c_timezone c));
      member "timezoneOffset" (numOr "null" (c_timezoneOffset c));
      member "platform" (quoteS (c_platform c));
      member "plugins" (pluginsS (c_plugins c));
      member "canvasFingerprint" (strOrNull (c_canvasFingerprint c));
      member "webglFingerprint" (strOrNull (c_webglFingerprint c));
      member "webglVendor" (quoteS (c_webglVendor c));
      member "webglRenderer" (quoteS (c_webglRenderer c));
      member "audioFingerprint" (strOrNull (c_audioFingerprint c));
      member "fonts" (arrS (c_fonts c));
      member "touchSupport" (boolS (c_touchSupport c));
      member "maxTouchPoints" (numS (c_maxTouchPoints c));
      member "hardwareConcurrency" (numOr "null" (c_hardwareConcurrency c));
      member "deviceMemory" (numOr "null" (c_deviceMemory c));
      member "pixelRatio" (numOr "null" (c_pixelRatio c)) ] ++ "}".

Definition generateFingerprintHash (c : Components) : string :=
  Sha256.SHA256 (stringify c).





(** *** Reading the serialisation back

    The characters of a rendered number (digits, sign, point and [e]),
    texts that are made of them, texts that start with another character,
    and the elements of an array after the first one. *)





(** *** The per-component checks *)

Record Sub : Type := {
  sscore : Z;
  sanomalies : list string
}.

Definition sub0 : Sub := {| sscore := 0; sanomalies := [] |}.

(** [result.anomalies.push(msg); result.score += d]. *)
Definition bad (msg : string) (d : Z) (r : Sub) : Sub :=
  {| sscore := sscore r + d; sanomalies := (sanomalies r ++ [msg])%list |}.

(** [result.score += d]. *)
Definition good (d : Z) (r : Sub) : Sub :=
  {| sscore := sscore r + d; sanomalies := sanomalies r |}.

Definition knownAutomatedCanvasFingerprints : list string :=
  [ "0000000000000000000000000000000000000000";
    "f995d7d9444e4ee6a1f4063baae68d9d1a12b5f0" ].

Definition analyzeCanvasFingerprint (fp : option string) : Sub :=
  match fp with
  | Some (String a b) =>
      let s := String a b in
      let r1 := if strlen s <? 50 then bad "Canvas指纹长度异常" (-10) sub0
                else good 10 sub0 in
      if arrIncludes knownAutomatedCanvasFingerprints s
      then bad "检测到已知的自动化工具Canvas指纹" (-20) r1 else r1
  | _ => bad "缺少Canvas指纹" 0 sub0
  end.

Definition automatedWebGLVendors : list string :=
  [ "Brian Paul"; "Mesa"; "Google Inc."; "Google SwiftShader" ].

Definition automatedWebGLRenderers : list string :=
  [ "Mesa OffScreen"; "Google SwiftShader"; "llvmpipe"; "Software Rasterizer"; "ANGLE" ].

Definition analyzeWebGLFingerprint (fp : option string) (vendor renderer : string) : Sub :=
  match fp with
  | Some (String a b) =>
      let s := String a b in
      let r1 := if strlen s <? 50 then bad "WebGL指纹长度异常" (-10) sub0
                else good 10 sub0 in
      if truthyS (Some vendor) && truthyS (Some renderer) then
        let r2 := if existsb (includes vendor) automatedWebGLVendors
                  then bad ("检测到可疑的WebGL供应商: " ++ vendor) (-15) r1 else r1 in
        if existsb (includes renderer) automatedWebGLRenderers
        then bad ("检测到可疑的WebGL渲染器: " ++ renderer) (-15) r2 else r2
      else bad "缺少WebGL供应商或渲染器信息" (-10) r1
  | _ => bad "缺少WebGL指纹" 0 sub0
  end.

Definition knownAutomatedAudioFingerprints : list string :=
  [ "0000000000"; "1234567890" ].

Definition analyzeAudioFingerprint (fp : option string) : Sub :=
  match fp with
  | Some (String a b) =>
      let s := String a b in
      let r1 := if strlen s <? 10 then bad "音频指纹长度异常" (-5) sub0
                else good 5 sub0 in
      if arrIncludes knownAutomatedAudioFingerprints s
      then bad "检测到已知的自动化工具音频指纹" (-10) r1 else r1
  | _ => bad "缺少音频指纹" 0 sub0
  end.

Definition commonFonts : list string :=
  [ "Arial"; "Times New Roman"; "Courier New"; "Verdana"; "Georgia" ].

Definition analyzeFonts (fs : list string) : Sub :=
  match fs with
  | [] => bad "缺少字体信息" 0 sub0
  | _ =>
      let n := Z.of_nat (length fs) in
      let r1 := if n <? 5 then bad "字体数量异常少" (-10) sub0
                else if (5 <? n) && (n <? 20) then good 5 sub0
                else if 20 <=? n then good 10 sub0
                else sub0 in
      let hasCommonFonts :=
        existsb (fun font =>
          existsb (fun f => includes (toLowerCase f) (toLowerCase font)) fs)
          commonFonts in
      if negb hasCommonFonts then bad "缺少常见字体" (-5) r1 else good 5 r1
  end.

(** [plugins.split(',').map(p => p.trim()).filter(p => p)] for a string. *)
Definition pluginArray (p : Plugins) : list string :=
  match p with
  | PStr s => List.filter (fun x => truthyS (Some x)) (List.map trim (split "," s))
  | PArr l => l
  end.

Definition analyzePlugins (p : Plugins) : Sub :=
  match p with
  | PStr EmptyString => bad "缺少插件信息" 0 sub0
  | pl =>
      let n := Z.of_nat (length (pluginArray pl)) in
      if n =? 0 then bad "没有浏览器插件" (-10) sub0
      else if n <? 3 then bad "插件数量异常少" (-5) sub0
      else good 5 sub0
  end.

Definition analyzeScreenInfo (res : string) (colorDepth pixelRatio : option Num) : Sub :=
  match res with
  | EmptyString => bad "缺少屏幕分辨率信息" 0 sub0
  | _ =>
      let '(width, height) := Automation.parseResolution res in
      let r1 := if nlt width 320 || nlt height 240 then bad "屏幕尺寸异常小" (-10) sub0
                else if nge width 320 && nge height 240 then good 5 sub0
                else sub0 in
      let r2 := match orNullN colorDepth with
                | None => bad "缺少色彩深度信息" 0 r1
                | Some d => if ltN d (ofZ 24) then bad "色彩深度异常低" (-5) r1
                            else good 5 r1
                end in
      match orNullN pixelRatio with
      | None => bad "缺少像素比信息" 0 r2
      | Some p => if ltN p (ofZ 1) || ltN (ofZ 5) p then bad "像素比异常" (-5) r2
                  else good 5 r2
      end
  end.

Definition analyzeHardwareInfo (hc dm : option Num) : Sub :=
  let r1 := match hc with
            | None => bad "缺少硬件并发数信息" 0 sub0
            | Some c =>
                if ltN c (ofZ 2) then bad "硬件并发数异常低" (-5) sub0
                else if leN (ofZ 2) c && leN c (ofZ 16) then good 5 sub0
                else if ltN (ofZ 16) c then bad "硬件并发数异常高" (-5) sub0
                else sub0
            end in
  match dm with
  | None => bad "缺少设备内存信息" 0 r1
  | Some m =>
      if ltN m (ofZ 2) then bad "设备内存异常低" (-5) r1
      else if leN (ofZ 2) m && leN m (ofZ 32) then good 5 r1
      else if ltN (ofZ 32) m then bad "设备内存异常高" (-5) r1
      else r1
  end.

Definition timezoneOffsets : list (string * Z) :=
  [ ("America/New_York", -300); ("America/Chicago", -360);
    ("America/Denver", -420); ("America/Los_Angeles", -480);
    ("Europe/London", 0); ("Europe/Berlin", 60); ("Europe/Moscow", 180);
    ("Asia/Tokyo", 540); ("Asia/Shanghai", 480); ("Australia/Sydney", 600) ].

Fixpoint getExpectedTimezoneOffset_in (tbl : list (string * Z)) (tz : string) : option Z :=
  match tbl with
  | [] => None
  | (k, v) :: t => if String.eqb k tz then Some v else getExpectedTimezoneOffset_in t tz
  end.

Definition getExpectedTimezoneOffset (tz : string) : option Z :=
  getExpectedTimezoneOffset_in timezoneOffsets tz.

Definition analyzeTimezone (tz : string) (offset : option Num) : Sub :=
  match tz with
  | EmptyString => bad "缺少时区信息" 0 sub0
  | _ =>
      let r1 := if String.eqb tz "UTC" || String.eqb tz "GMT" || String.prefix "Etc/GMT" tz
                then bad "使用通用时区" (-5) sub0 else good 5 sub0 in
      match offset with
      | None => bad "缺少时区偏移量信息" 0 r1
      | Some off =>
          match getExpectedTimezoneOffset tz with
          | Some expected =>
              if ltN (ofZ 60) (absN (subN off (ofZ expected)))
              then bad "时区与偏移量不匹配" (-10) r1 else good 5 r1
          | None => good 5 r1
          end
      end
  end.

Definition analyzeTouchSupport (touch : bool) (maxTouchPoints : Num) : Sub :=
  if touch && eqN maxTouchPoints (ofZ 0)
  then bad "触摸支持与最大触摸点数不一致" (-5) sub0
  else if negb touch && ltN (ofZ 0) maxTouchPoints
  then bad "触摸支持与最大触摸点数不一致" (-5) sub0
  else good 5 sub0.

(** *** analyzeFingerprint *)

Record Result : Type := {
  score : Z;
  reasons : list string;
  fingerprint : option string;
  fingerprintComponents : option Components;
  anomalies : list string
}.

(** The running [result]: score, reasons and anomalies. *)
Record Acc : Type := {
  a_score : Z;
  a_reasons : list string;
  a_anomalies : list string
}.

(** [result.score += sub.score], and when the check reports anomalies they
    are appended and [reason] is pushed. *)
Definition merge (reason : string) (s : Sub) (a : Acc) : Acc :=
  {| a_score := a_score a + sscore s;
     a_reasons := match sanomalies s with
                  | [] => a_reasons a
                  | _ => (a_reasons a ++ [reason])%list
                  end;
     a_anomalies := (a_anomalies a ++ sanomalies s)%list |}.

(** A missing component: anomaly, optional reason, penalty. *)
Definition missing (msg : string) (withReason : bool) (d : Z) (a : Acc) : Acc :=
  {| a_score := a_score a + d;
     a_reasons := if withReason then (a_reasons a ++ [msg])%list else a_reasons a;
     a_anomalies := (a_anomalies a ++ [msg])%list |}.

(** The sum of the component checks, before the base score and the clamp. *)
Definition checks (c : Components) : Acc :=
  let a0 := {| a_score := 0; a_reasons := []; a_anomalies := [] |} in
  let a1 := if truthyS (c_canvasFingerprint c)
            then merge "Canvas指纹异常" (analyzeCanvasFingerprint (c_canvasFingerprint c)) a0
            else missing "缺少Canvas指纹" true (-15) a0 in
  let a2 := if truthyS (c_webglFingerprint c)
            then merge "WebGL指纹异常"
                   (analyzeWebGLFingerprint (c_webglFingerprint c)
                      (c_webglVendor c) (c_webglRenderer c)) a1
            else missing "缺少WebGL指纹" true (-15) a1 in
  let a3 := if truthyS (c_audioFingerprint c)
            then merge "音频指纹异常" (analyzeAudioFingerprint (c_audioFingerprint c)) a2
            else a2 in
  let a4 := if (0 <? Z.of_nat (length (c_fonts c)))
            then merge "字体列表异常" (analyzeFonts (c_fonts c)) a3
            else missing "缺少字体信息" false (-10) a3 in
  let a5 := match c_plugins c with
            | PStr EmptyString => missing "缺少插件信息" false (-10) a4
            | _ => merge "插件列表异常" (analyzePlugins (c_plugins c)) a4
            end in
  let a6 := if truthyS (Some (c_screenResolution c))
            then merge "屏幕信息异常"
                   (analyzeScreenInfo (c_screenResolution c) (c_colorDepth c) (c_pixelRatio c)) a5
            else a5 in
  let a7 := if truthyN (c_hardwareConcurrency c) || truthyN (c_deviceMemory c)
            then merge "硬件信息异常"
                   (analyzeHardwareInfo (c_hardwareConcurrency c) (c_deviceMemory c)) a6
            else a6 in
  let a8 := if truthyS (Some (c_timezone c))
            then merge "时区信息异常" (analyzeTimezone (c_timezone c) (c_timezoneOffset c)) a7
            else a7 in
  merge "触摸支持信息异常" (analyzeTouchSupport (c_touchSupport c) (c_maxTouchPoints c)) a8.

Definition analyzeFingerprint (ci : option ClientInfo) : Result :=
  match ci with
  | None =>
      {| score := 0; reasons := ["缺少客户端信息"]; fingerprint := None;
         fingerprintComponents := None; anomalies := [] |}
  | Some info =>
      let c := extractFingerprintComponents info in
      let a := checks c in
      {| score := Z.max 0 (Z.min 100 (a_score a + 50));
         reasons := a_reasons a;
         fingerprint := Some (generateFingerprintHash c);
         fingerprintComponents := Some c;
         anomalies := a_anomalies a |}
  end.

End Fingerprint.

(* ===================================================================== *)
(** ** utils/network-analyzer *)
(* ===================================================================== *)

(** [req.connection.getCipher()]: the suite name and protocol version. *)
Record Cipher : Type := {
  cipher_name : string;
  cipher_version : string
}.

(** The Express request as far as it is read. [req.connection] is
    [req.socket]; [req_cipher] is [None] on a plain socket (no [getCipher]),
    [Some None] when [getCipher()] returns a falsy value. *)
Record Request : Type := {
  req_headers : Headers;
  req_remoteAddress : option string;
  req_cipher : option (option Cipher)
}.

Module Network.

Record Result : Type := {
  score : Z;
  reasons : list string;
  ipInfo : option GeoData;
  proxied : bool;
  vpnDetected : bool;
  datacenterIP : bool;
  ipTimezoneMatch : bool
}.

Definition getClientIp (req : Request) : option string :=
  let hs := req_headers req in
  if truthyS (hget hs "x-forwarded-for") then
    match hget hs "x-forwarded-for" with
    | Some ff => Some (trim (Automation.splitHead "," ff))
    | None => None
    end
  else if truthyS (hget hs "x-real-ip") then hget hs "x-real-ip"
  else if truthyS (req_remoteAddress req) then req_remoteAddress req
  else None.

Definition countryTimezones : list (string * list string) :=
  [ ("US", ["America/"]); ("CA", ["America/"]); ("GB", ["Europe/London"]);
    ("DE", ["Europe/Berlin"]); ("FR", ["Europe/Paris"]); ("JP", ["Asia/Tokyo"]);
    ("CN", ["Asia/Shanghai"; "Asia/Chongqing"; "Asia/Harbin"; "Asia/Urumqi"]);
    ("IN", ["Asia/Kolkata"]); ("AU", ["Australia/"]);
    ("RU", ["Europe/Moscow"; "Asia/"]) ].

Definition countryLanguages : list (string * list string) :=
  [ ("US", ["en"]); ("CA", ["en"; "fr"]); ("GB", ["en"]); ("DE", ["de"]);
    ("FR", ["fr"]); ("JP", ["ja"]); ("CN", ["zh"]); ("IN", ["hi"; "en"]);
    ("AU", ["en"]); ("RU", ["ru"]) ].

(** [table[code] || []]. *)
Fixpoint lookupTable (tbl : list (string * list string)) (code : string) : list string :=
  match tbl with
  | [] => []
  | (k, v) :: t => if String.eqb k code then v else lookupTable t code
  end.

Definition getExpectedTimezones (code : string) : list string :=
  lookupTable countryTimezones code.

Definition getExpectedLanguages (code : string) : list string :=
  lookupTable countryLanguages code.

Definition checkIpTimezoneMatch (geo : option GeoData) (tz : option string) : bool :=
  match geo, tz with
  | Some g, Some (String a b) =>
      match getExpectedTimezones (country g) with
      | [] => true
      | expected => existsb (includes (String a b)) expected
      end
  | _, _ => true
  end.

Definition checkIpLanguageMatch (geo : option GeoData) (lang : option string) : bool :=
  match geo, lang with
  | Some g, Some (String a b) =>
      match getExpectedLanguages (country g) with
      | [] => true
      | expected =>
          arrIncludes expected (toLowerCase (Automation.splitHead "-" (String a b)))
      end
  | _, _ => true
  end.

Definition proxyHeaders : list string :=
  [ "via"; "forwarded"; "x-forwarded-for"; "x-forwarded-host"; "x-forwarded-proto";
    "x-real-ip"; "proxy-connection"; "proxy-authenticate"; "x-proxy-id";
    "proxy-authorization" ].

(** [checkProxyHeaders(headers).reasons]; [detected] is its non-emptiness. *)
Definition checkProxyHeaders (hs : Headers) : list string :=
  List.app
    (List.map (fun h => "存在" ++ h ++ "请求头")
       (List.filter (fun h => truthyS (hget hs h)) proxyHeaders))
    (if truthyS (hget hs "cf-connecting-ip") || truthyS (hget hs "cf-ipcountry")
     then ["检测到Cloudflare代理"] else []).

Definition dataCenterRanges : list (string * string) :=
  [ ("3.0.0.0", "3.255.255.255"); ("13.32.0.0", "13.35.255.255");
    ("13.224.0.0", "13.255.255.255"); ("52.0.0.0", "52.255.255.255");
    ("54.0.0.0", "54.255.255.255");
    ("34.64.0.0", "34.127.255.255"); ("35.184.0.0", "35.239.255.255");
    ("13.64.0.0", "13.107.255.255"); ("40.64.0.0", "40.127.255.255");
    ("45.55.0.0", "45.55.255.255"); ("104.131.0.0", "104.131.255.255");
    ("138.197.0.0", "138.197.255.255");
    ("45.33.0.0", "45.33.255.255"); ("96.126.96.0", "96.126.127.255");
    ("173.255.192.0", "173.255.255.255") ].

Definition vpnRanges : list (string * string) :=
  [ ("5.254.0.0", "5.254.255.255"); ("31.13.191.0", "31.13.191.255");
    ("172.241.131.0", "172.241.131.255"); ("185.159.157.0", "185.159.157.255") ].

Definition headerIncludes (hs : Headers) (k sub : string) : bool :=
  match hget hs k with
  | Some v => includes v sub
  | None => false
  end.

Definition claimsBrowser (hs : Headers) : bool :=
  match hget hs "user-agent" with
  | Some v =>
      let ua := toLowerCase v in
      includes ua "chrome" || includes ua "firefox" || includes ua "safari"
  | None => false
  end.

(** [checkHeaderConsistency(headers).reasons]; [consistent] is its emptiness. *)
Definition checkHeaderConsistency (hs : Headers) : list string :=
  let accept := truthyS (hget hs "accept") in
  let acceptLanguage := truthyS (hget hs "accept-language") in
  let ua := truthyS (hget hs "user-agent") in
  ((if accept && acceptLanguage
       && headerIncludes hs "accept" "application/json"
       && negb (headerIncludes hs "accept" "text/html")
    then ["Accept头与浏览器不一致"] else [])
   ++ (if ua && accept && claimsBrowser hs
          && negb (headerIncludes hs "accept" "text/html")
       then ["User-Agent与Accept头不一致"] else [])
   ++ (if ua && acceptLanguage && claimsBrowser hs && negb acceptLanguage
       then ["User-Agent与Accept-Language头不一致"] else []))%list.

Definition insecureCiphers : list string :=
  [ "TLS_RSA_WITH_RC4_128_SHA"; "TLS_RSA_WITH_RC4_128_MD5";
    "TLS_RSA_WITH_DES_CBC_SHA"; "TLS_RSA_EXPORT_WITH_RC4_40_MD5";
    "TLS_RSA_EXPORT_WITH_DES40_CBC_SHA" ].

Definition checkTLSFingerprint (c : Cipher) : list string :=
  ((if arrIncludes insecureCiphers (cipher_name c)
    then ["使用不安全的加密套件"] else [])
   ++ (if String.eqb (cipher_version c) "TLSv1" || String.eqb (cipher_version c) "SSLv3"
       then ["使用过时的TLS/SSL版本"] else []))%list.

(** The running [result] of analyzeNetwork. *)
Definition note (msg : string) (d : Z) (r : Result) : Result :=
  {| score := score r + d; reasons := (reasons r ++ [msg])%list;
     ipInfo := ipInfo r; proxied := proxied r; vpnDetected := vpnDetected r;
     datacenterIP := datacenterIP r; ipTimezoneMatch := ipTimezoneMatch r |}.

Definition plus (d : Z) (r : Result) : Result :=
  {| score := score r + d; reasons := reasons r;
     ipInfo := ipInfo r; proxied := proxied r; vpnDetected := vpnDetected r;
     datacenterIP := datacenterIP r; ipTimezoneMatch := ipTimezoneMatch r |}.

Definition init : Result :=
  {| score := 0; reasons := []; ipInfo := None; proxied := false;
     vpnDetected := false; datacenterIP := false; ipTimezoneMatch := true |}.

Section WithLibs.
Context (L : Libs).

Definition isPrivateIP (ip : string) : bool :=
  match ipaddr_parse L ip with
  | Some addr =>
      String.eqb (ipaddr_range L addr) "private"
      || String.eqb (ipaddr_range L addr) "loopback"
      || String.eqb ip "::1" || String.eqb ip "127.0.0.1"
  | None => false
  end.

(** The loop over a range table; [None] when a library call throws. *)
Fixpoint inRanges (ipObj : IpAddr L) (ranges : list (string * string)) : option bool :=
  match ranges with
  | [] => Some false
  | (lo, hi) :: rest =>
      match ipaddr_parse L lo, ipaddr_parse L hi with
      | Some startObj, Some endObj =>
          if String.eqb (ipaddr_kind L ipObj) (ipaddr_kind L startObj) then
            match ipaddr_compare L ipObj startObj with
            | None => None
            | Some c1 =>
                if 0 <=? c1 then
                  match ipaddr_compare L ipObj endObj with
                  | None => None
                  | Some c2 => if c2 <=? 0 then Some true else inRanges ipObj rest
                  end
                else inRanges ipObj rest
            end
          else inRanges ipObj rest
      | _, _ => None
      end
  end.

(** [try { ... } catch (error) { return false; }] around the loop. *)
Definition checkRanges (ranges : list (string * string)) (ip : string) : bool :=
  match ipaddr_parse L ip with
  | Some ipObj =>
      match inRanges ipObj ranges with
      | Some b => b
      | None => false
      end
  | None => false
  end.

Definition checkDatacenterIP (ip : string) : bool := checkRanges dataCenterRanges ip.
Definition checkVPN (ip : string) : bool := checkRanges vpnRanges ip.

(** The checks on a public address, before the base score and the clamp. *)
Definition publicChecks (ci : ClientInfo) (req : Request) (ip : string) : Result :=
  let geoData := geoip_lookup L ip in
  let r0 := {| score := 0; reasons := []; ipInfo := geoData; proxied := false;
               vpnDetected := false; datacenterIP := false; ipTimezoneMatch := true |} in
  let r1 :=
    match geoData with
    | None => note "无法获取IP地理位置信息" (-10) r0
    | Some _ =>
        let ra :=
          if truthyS (timezone ci) then
            let m := checkIpTimezoneMatch geoData (timezone ci) in
            let rm := {| score := score r0; reasons := reasons r0; ipInfo := ipInfo r0;
                         proxied := false; vpnDetected := false; datacenterIP := false;
                         ipTimezoneMatch := m |} in
            if negb m then note "IP地址与时区不匹配" (-20) rm else plus 20 rm
          else r0 in
        if truthyS (language ci) then
          if negb (checkIpLanguageMatch geoData (language ci))
          then note "IP地址与语言不匹配" (-10) ra else plus 10 ra
        else ra
    end in
  let proxy := checkProxyHeaders (req_headers req) in
  let r2 :=
    match proxy with
    | [] => r1
    | _ =>
        let rp := {| score := score r1; reasons := reasons r1; ipInfo := ipInfo r1;
                     proxied := true; vpnDetected := vpnDetected r1;
                     datacenterIP := datacenterIP r1;
                     ipTimezoneMatch := ipTimezoneMatch r1 |} in
        note ("检测到代理特征: " ++ join ", " proxy) (-30) rp
    end in
  let isDatacenter := checkDatacenterIP ip in
  let rd := {| score := score r2; reasons := reasons r2; ipInfo := ipInfo r2;
               proxied := proxied r2; vpnDetected := vpnDetected r2;
               datacenterIP := isDatacenter;
               ipTimezoneMatch := ipTimezoneMatch r2 |} in
  let r3 := if isDatacenter then note "检测到数据中心IP地址" (-40) rd else rd in
  let vpn := checkVPN ip in
  let rv := {| score := score r3; reasons := reasons r3; ipInfo := ipInfo r3;
               proxied := proxied r3; vpnDetected := vpn;
               datacenterIP := datacenterIP r3;
               ipTimezoneMatch := ipTimezoneMatch r3 |} in
  let r4 := if vpn then note "检测到VPN使用" (-20) rv else rv in
  let hc := checkHeaderConsistency (req_headers req) in
  let r5 := match hc with
            | [] => plus 15 r4
            | _ => note ("请求头不一致: " ++ join ", " hc) (-15) r4
            end in
  match req_cipher req with
  | Some (Some cipher) =>
      match checkTLSFingerprint cipher with
      | [] => plus 10 r5
      | tls => note ("TLS指纹异常: " ++ join ", " tls) (-10) r5
      end
  | _ => r5
  end.

Definition analyzeNetwork (ci : ClientInfo) (req : Request) : Result :=
  match getClientIp req with
  | None => note "无法获取IP地址" 0 init
  | Some EmptyString => note "无法获取IP地址" 0 init
  | Some ip =>
      if isPrivateIP ip then note "使用私有IP地址" 10 init
      else
        let r := publicChecks ci req ip in
        {| score := Z.max 0 (Z.min 100 (score r + 50)); reasons := reasons r;
           ipInfo := ipInfo r; proxied := proxied r; vpnDetected := vpnDetected r;
           datacenterIP := datacenterIP r; ipTimezoneMatch := ipTimezoneMatch r |}
  end.

End WithLibs.

End Network.

(* ===================================================================== *)
(** ** Interaction events *)
(* ===================================================================== *)

(** The payload of an event as far as it is read: a field is [None] when it
    is missing or not a number. *)
Record EventData : Type := {
  d_x : option Z;
  d_y : option Z;
  d_timestamp : option Z
}.

(** An entry of [session.events]; [ev_timestamp] is the server's
    [Date.now()] at reception. *)
Record Event : Type := {
  ev_type : string;
  ev_data : option EventData;
  ev_timestamp : Z;
  ev_headers : Headers
}.

(* ===================================================================== *)
(** ** utils/behavior-analyzer *)
(* ===================================================================== *)
Module Behavior.

(** *** Real arithmetic with the IEEE special values of a division *)

Inductive rnum : Type :=
| RFin (r : R)
| RPosInf
| RNegInf
| RNaN.

Definition Rltb (a b : R) : bool := if Rlt_dec a b then true else false.
Definition Reqb (a b : R) : bool := if Req_dec_T a b then true else false.

Definition rdiv (a b : R) : rnum :=
  if Reqb b 0 then
    (if Reqb a 0 then RNaN else if Rltb 0 a then RPosInf else RNegInf)
  else RFin (a / b).

Definition rlt (x : rnum) (c : R) : bool :=
  match x with
  | RFin r => Rltb r c
  | RNegInf => true
  | RPosInf | RNaN => false
  end.

Definition rgt (x : rnum) (c : R) : bool :=
  match x with
  | RFin r => Rltb c r
  | RPosInf => true
  | RNegInf | RNaN => false
  end.

Definition sumR (l : list R) : R := fold_left Rplus l 0%R.

Definition lenR {A} (l : list A) : R := INR (length l).

(** [Math.sqrt(l.reduce((s, x) => s + Math.pow(x - avg, 2), 0) / l.length)]
    with [avg = l.reduce(...) / l.length]; both are 0/0 on the empty array. *)
Definition stddev (l : list R) : rnum :=
  match l with
  | [] => RNaN
  | _ =>
      let avg := (sumR l / lenR l)%R in
      RFin (sqrt (sumR (List.map (fun x => ((x - avg) ^ 2)%R) l) / lenR l))
  end.

(** Differences of consecutive elements: [l[i] - l[i-1]] for [i >= 1]. *)
Fixpoint diffsR (l : list R) : list R :=
  match l with
  | a :: (b :: _) as t => (b - a)%R :: diffsR t
  | _ => []
  end.

Fixpoint diffsZ (l : list Z) : list Z :=
  match l with
  | a :: (b :: _) as t => (b - a) :: diffsZ t
  | _ => []
  end.

(** *** Timestamps *)

Section WithClock.
Context (now : Z).   (* Date.now() *)

(** [event.timestamp || Date.now()]. *)
Definition serverTime (e : Event) : Z :=
  if ev_timestamp e =? 0 then now else ev_timestamp e.

(** [d.timestamp || event.timestamp || Date.now()] for the payload [d]. *)
Definition dataTime (d : EventData) (e : Event) : Z :=
  match d_timestamp d with
  | Some t => if t =? 0 then serverTime e else t
  | None => serverTime e
  end.

(** [event.data?.timestamp || event.timestamp || Date.now()]. *)
Definition timeOf (e : Event) : Z :=
  match ev_data e with
  | Some d => dataTime d e
  | None => serverTime e
  end.

(** [event.data.timestamp || ...]: a TypeError ([None]) without payload. *)
Definition timeOfStrict (e : Event) : option Z :=
  match ev_data e with
  | Some d => Some (dataTime d e)
  | None => None
  end.

(** *** analyzeMouseTrajectory *)

(** The points with numeric coordinates, each with its time. *)
Fixpoint samples (evs : list Event) : list (Z * Z * Z) :=
  match evs with
  | [] => []
  | e :: r =>
      match ev_data e with
      | Some d =>
          match d_x d, d_y d with
          | Some x, Some y => (x, y, dataTime d e) :: samples r
          | _, _ => samples r
          end
      | None => samples r
      end
  end.

(** Speeds between consecutive samples, those with [dt > 0] only. *)
Fixpoint speedsOf (ps : list (Z * Z * Z)) : list R :=
  match ps with
  | (x0, y0, t0) :: ((x1, y1, t1) :: _) as r =>
      let dx := IZR (x1 - x0) in
      let dy := IZR (y1 - y0) in
      let dt := (IZR (t1 - t0) / 1000)%R in
      if Rltb 0 dt then (sqrt (dx * dx + dy * dy) / dt)%R :: speedsOf r
      else speedsOf r
  | _ => []
  end.

(** Sign changes between consecutive accelerations. *)
Fixpoint signChanges (acc : list R) : nat :=
  match acc with
  | a :: (b :: _) as r =>
      ((if (Rltb 0 b && Rltb a 0) || (Rltb b 0 && Rltb 0 a) then 1 else 0)
       + signChanges r)%nat
  | _ => O
  end.

(** Direction changes: consecutive displacement vectors of positive length
    whose cosine is below 0.9. *)
Fixpoint directionChangesOf (ps : list (Z * Z * Z)) : nat :=
  match ps with
  | (x0, y0, _) :: ((x1, y1, _) :: ((x2, y2, _) :: _) as r2) as r1 =>
      let v1x := IZR (x1 - x0) in
      let v1y := IZR (y1 - y0) in
      let v2x := IZR (x2 - x1) in
      let v2y := IZR (y2 - y1) in
      let dot := (v1x * v2x + v1y * v2y)%R in
      let m1 := sqrt (v1x * v1x + v1y * v1y) in
      let m2 := sqrt (v2x * v2x + v2y * v2y) in
      ((if Rltb 0 m1 && Rltb 0 m2 && Rltb (dot / (m1 * m2)) (9 / 10) then 1 else 0)
       + directionChangesOf r1)%nat
  | _ => O
  end.

End WithClock.

Section WithLibs.
Context (L : Libs) (now : Z).

(** [result.metrics.straightLineRatio]: 0 unless the decomposition yields a
    first entry, 0.5 when it throws. *)
Definition straightLineRatio (ps : list (Z * Z * Z)) : option R :=
  match pca_explained L (List.map fst ps) with
  | None => Some (1 / 2)%R
  | Some [] => Some 0%R
  | Some (e :: _) => e
  end.

Record Trajectory : Type := {
  speedVariation : rnum;
  accelerationChanges : nat;
  directionChanges : nat;
  lineRatio : option R
}.

Definition trajectoryOf (ps : list (Z * Z * Z)) : Trajectory :=
  let speeds := speedsOf ps in
  {| speedVariation := stddev speeds;
     accelerationChanges := signChanges (diffsR speeds);
     directionChanges := directionChangesOf ps;
     lineRatio := straightLineRatio ps |}.

(** [analyzeMouseTrajectory(mouseEvents).isNatural]. *)
Definition analyzeMouseTrajectory (mouseEvents : list Event) : bool :=
  if (length mouseEvents <? 5)%nat then false else
  let ps := samples now mouseEvents in
  if (length ps <? 5)%nat then false else
  let t := trajectoryOf ps in
  rgt (speedVariation t) 50
  && (2 <=? accelerationChanges t)%nat
  && (3 <=? directionChanges t)%nat
  && match lineRatio t with
     | Some r => Rltb r (98 / 100)
     | None => false
     end.

(** *** analyzeClickPattern *)

Definition isType (ty : string) (e : Event) : bool := String.eqb (ev_type e) ty.

(** The scan from the last event backwards for a pointer move less than a
    second before [clickTime]; [None] when a move without payload is read. *)
Fixpoint foundMovement (clickTime : Z) (backwards : list Event) : option bool :=
  match backwards with
  | [] => Some false
  | e :: r =>
      if isType "mousemove" e then
        match timeOfStrict now e with
        | None => None
        | Some t =>
            if (t <? clickTime) && (clickTime - t <? 1000) then Some true
            else foundMovement clickTime r
        end
      else foundMovement clickTime r
  end.

(** The number of clicks without such a move. *)
Fixpoint clicksWithoutMovement (clickTimes : list Z) (allEvents : list Event)
    : option nat :=
  match clickTimes with
  | [] => Some O
  | t :: r =>
      match foundMovement t (rev allEvents) with
      | None => None
      | Some found =>
          match clicksWithoutMovement r allEvents with
          | None => None
          | Some n => Some (if found then n else S n)
          end
      end
  end.

(** All [timeOfStrict] of a list, or [None] at the first missing payload. *)
Fixpoint strictTimes (evs : list Event) : option (list Z) :=
  match evs with
  | [] => Some []
  | e :: r =>
      match timeOfStrict now e, strictTimes r with
      | Some t, Some ts => Some (t :: ts)
      | _, _ => None
      end
  end.

Definition sumZ (l : list Z) : Z := fold_left Z.add l 0.

Definition Qltb (a b : Q) : bool :=
  match Qcompare a b with Lt => true | _ => false end.

(** [analyzeClickPattern(clickEvents, allEvents).isNatural]; [None] when the
    function throws. *)
Definition analyzeClickPattern (clickEvents allEvents : list Event) : option bool :=
  if (length clickEvents <? 2)%nat then Some false else
  match strictTimes clickEvents with
  | None => None
  | Some clickTimes =>
      let total := sumZ (diffsZ clickTimes) in
      let avgTimeBetweenClicks :=
        (Qmake total 1 / Qmake (Z.of_nat (length clickTimes) - 1) 1)%Q in
      match clicksWithoutMovement clickTimes allEvents with
      | None => None
      | Some cwm =>
          let clickPrecision :=
            (1 - Qmake (Z.of_nat cwm) 1 / Qmake (Z.of_nat (length clickEvents)) 1)%Q in
          Some (Qltb 500 avgTimeBetweenClicks && Qltb (7 # 10) clickPrecision)
      end
  end.

(** *** analyzeEventTimeIntervals and analyzeKeyPressPattern *)

Definition intervalsOf (evs : list Event) : list R :=
  List.map IZR (diffsZ (List.map (timeOf now) evs)).

(** The standard deviation of a non-empty list, as a real. *)
Definition spread (l : list R) : R :=
  match stddev l with
  | RFin r => r
  | _ => 0%R
  end.

(** [analyzeEventTimeIntervals(events).isNatural]. *)
Definition analyzeEventTimeIntervals (evs : list Event) : bool :=
  if (length evs <? 5)%nat then false else
  let intervals := intervalsOf evs in
  let avgInterval := (sumR intervals / lenR intervals)%R in
  let intervalVariation := spread intervals in
  let variationCoefficient := rdiv intervalVariation avgInterval in
  let suspiciouslyRegularIntervals := rlt variationCoefficient (1 / 10) in
  negb suspiciouslyRegularIntervals && rgt variationCoefficient (2 / 10).

(** [analyzeKeyPressPattern(keypressEvents).isNatural]. *)
Definition analyzeKeyPressPattern (evs : list Event) : bool :=
  if (length evs <? 5)%nat then false else
  let intervals := intervalsOf evs in
  let avgInterval := (sumR intervals / lenR intervals)%R in
  let intervalVariation := spread intervals in
  Rltb 100 avgInterval && Rltb 50 intervalVariation.

(** *** analyzeBehavior *)

Record Result : Type := {
  isHuman : bool;
  score : Z;
  reasons : list string
}.

(** One sub-analysis: its delta when natural, its reason otherwise. *)
Definition judge (natural : bool) (d : Z) (msg : string) (r : Result) : Result :=
  if natural then
    {| isHuman := isHuman r; score := score r + d; reasons := reasons r |}
  else
    {| isHuman := isHuman r; score := score r; reasons := (reasons r ++ [msg])%list |}.

(** [analyzeBehavior(events)]; [None] when analyzeClickPattern throws. *)
Definition analyzeBehavior (events : list Event) : option Result :=
  match events with
  | [] => Some {| isHuman := false; score := 0;
                  reasons := ["没有足够的行为数据进行分析"] |}
  | _ =>
      let r0 := {| isHuman := false; score := 0; reasons := [] |} in
      let mouseEvents := List.filter (isType "mousemove") events in
      if (length mouseEvents <? 5)%nat then
        Some {| isHuman := false; score := 0; reasons := ["鼠标移动事件太少"] |}
      else
        let r1 := judge (analyzeMouseTrajectory mouseEvents) 30 "鼠标移动轨迹不自然" r0 in
        let clickEvents := List.filter (isType "click") events in
        match analyzeClickPattern clickEvents events with
        | None => None
        | Some clickNatural =>
            let r2 := judge clickNatural 25 "点击模式不自然" r1 in
            let r3 := judge (analyzeEventTimeIntervals events) 25 "事件时间间隔不自然" r2 in
            let keypressEvents := List.filter (isType "keypress") events in
            let r4 := match keypressEvents with
                      | [] => r3
                      | _ => judge (analyzeKeyPressPattern keypressEvents) 20
                               "键盘输入模式不自然" r3
                      end in
            Some {| isHuman := 50 <=? score r4; score := score r4; reasons := reasons r4 |}
        end
  end.

End WithLibs.

End Behavior.

(* ===================================================================== *)
(** ** Constant-cadence pointer movement *)
(* ===================================================================== *)
Module Cadence.

(** Pointer moves with payload whose positions advance by [(dx, dy)] and
    whose times advance by 100 ms from one event to the next, starting at
    [(x, y)] and [t]. *)
Fixpoint constantCadence (now x y dx dy t : Z) (evs : list Event) : Prop :=
  match evs with
  | [] => True
  | e :: r =>
      ev_type e = "mousemove"
      /\ (exists d, ev_data e = Some d /\ d_x d = Some x /\ d_y d = Some y)
      /\ Behavior.timeOf now e = t
      /\ constantCadence now (x + dx) (y + dy) dx dy (t + 100) r
  end.

(** The samples and times of a constant cadence. *)
Fixpoint progression (x y dx dy t : Z) (n : nat) : list (Z * Z * Z) :=
  match n with
  | O => []
  | S n' => (x, y, t) :: progression (x + dx) (y + dy) dx dy (t + 100) n'
  end.

(** The speed between two consecutive samples of such a movement. *)
Definition cadenceSpeed (dx dy : Z) : R :=
  (sqrt (IZR dx * IZR dx + IZR dy * IZR dy) / (IZR 100 / 1000))%R.

End Cadence.

(* ===================================================================== *)
(** ** api/verify.js *)
(* ===================================================================== *)

(** [req.body] of the init route: the snapshot as the client sends it. *)
Record Body : Type := {
  b_fingerprint : option string;
  b_canvasFingerprint : option string;
  b_webglFingerprint : option string;
  b_webglVendor : option string;
  b_webglRenderer : option string;
  b_audioFingerprint : option string;
  b_screenResolution : option string;
  b_colorDepth : option Num;
  b_pixelRatio : option Num;
  b_timezone : option string;
  b_timezoneOffset : option Num;
  b_language : option string;
  b_platform : option string;
  b_hardwareConcurrency : option Num;
  b_deviceMemory : option Num;
  b_plugins : option Plugins;
  b_fonts : option (list string);
  b_touchSupport : option bool;
  b_maxTouchPoints : option Num;
  b_cookiesEnabled : option bool;
  b_localStorage : option bool;
  b_sessionStorage : option bool;
  b_indexedDB : option bool;
  b_doNotTrack : option string;
  b_adBlocker : option bool;
  b_webdriver : option bool;
  b_automationFlags : option (list string);
  b_connectionType : option string;
  b_connectionSpeed : option Num
}.

Module Verify.

Inductive Status : Type :=
| pending
| verified
| rejected.

#[global] Instance Status_eq_dec : EqDecision Status.
Proof. solve_decision. Defined.

Record Analysis : Type := {
  automation : option Automation.Result;
  behavior : option Behavior.Result;
  network : option Network.Result;
  fingerprint : option Fingerprint.Result
}.

Record Session : Type := {
  id : string;
  createdAt : Z;
  status : Status;
  clientInfo : ClientInfo;
  events : list Event;
  analysis : Analysis;
  rejectionReason : option string;
  verifiedAt : option Z;
  verificationScore : option Q
}.

(** The in-memory [sessions] object. *)
Abbreviation Store := (gmap string Session).

(** [b || false]. *)
Definition orFalse (b : option bool) : bool :=
  match b with Some x => x | None => false end.

(** *** The result of a verification *)

Record AutomationDetails : Type := {
  ad_score : Z;
  ad_isAutomated : bool;
  ad_detectedTools : list string;
  ad_reasons : list string
}.

Record FingerprintDetails : Type := {
  fd_score : Z;
  fd_fingerprint : option string;
  fd_anomalies : list string
}.

Record NetworkDetails : Type := {
  nd_score : Z;
  nd_proxied : bool;
  nd_vpnDetected : bool;
  nd_datacenterIP : bool;
  nd_ipTimezoneMatch : bool
}.

Record Details : Type := {
  det_automation : option AutomationDetails;
  det_behavior : option Behavior.Result;
  det_fingerprint : option FingerprintDetails;
  det_network : option NetworkDetails
}.

(** The [result] object of a verify response.  A fresh verification carries
    [details]; the answer for an already decided session carries
    [automationDetected] and [detectedTools] instead. *)
Record VResult : Type := {
  isHuman : bool;
  score : Q;
  reasons : list string;
  details : option Details;
  automationDetected : option bool;
  detectedTools : option (list string)
}.

(** The running state of verifySession. *)
Record Run : Type := {
  r_score : Q;
  r_reasons : list string;
  r_details : Details
}.

Definition penalty (d : Q) (msg : string) (r : Run) : Run :=
  {| r_score := r_score r + d; r_reasons := (r_reasons r ++ [msg])%list;
     r_details := r_details r |}.

Definition remark (msg : string) (r : Run) : Run :=
  {| r_score := r_score r; r_reasons := (r_reasons r ++ [msg])%list;
     r_details := r_details r |}.

Definition adjust (d : Q) (r : Run) : Run :=
  {| r_score := r_score r + d; r_reasons := r_reasons r; r_details := r_details r |}.

Definition QofZ (z : Z) : Q := Qmake z 1.

Definition automationHeaders : list string :=
  [ "x-selenium"; "x-selenium-ide-recorder"; "x-requested-with"; "selenium";
    "driver"; "webdriver"; "puppeteer"; "playwright"; "headless"; "cypress" ].

Definition checkSuspiciousHeaders (hs : Headers) : list string :=
  List.map fst
    (List.filter
       (fun kv =>
          existsb (includes (toLowerCase (fst kv))) automationHeaders
          || (truthyS (Some (snd kv))
              && existsb (includes (toLowerCase (snd kv))) automationHeaders))
       hs).

(** [events.some((event, index) => ...)] of analyzeRequestPattern: a click
    at an index above 0 with no pointer move in [events.slice(0, index)]. *)
Definition hasClickWithoutMove (evs : list Event) : bool :=
  existsb
    (fun index =>
       match nth_error evs index with
       | Some event =>
           if Behavior.isType "click" event && (0 <? index)%nat then
             negb (existsb (Behavior.isType "mousemove") (firstn index evs))
           else false
       | None => false
       end)
    (seq 0 (length evs)).

(** The coefficient of variation of the gaps between the server timestamps. *)
Definition variationCoefficient (evs : list Event) : Behavior.rnum :=
  let intervals := List.map IZR (Behavior.diffsZ (List.map ev_timestamp evs)) in
  let avgInterval := (Behavior.sumR intervals / Behavior.lenR intervals)%R in
  Behavior.rdiv (Behavior.spread intervals) avgInterval.

Record Pattern : Type := {
  suspicious : bool;
  reason : string
}.

Definition analyzeRequestPattern (s : Session) : Pattern :=
  let p0 := {| suspicious := false; reason := EmptyString |} in
  let p1 := if (5 <=? length (events s))%nat then
              if Behavior.rlt (variationCoefficient (events s)) (1 / 10)
              then {| suspicious := true; reason := "事件时间间隔过于规律" |}
              else p0
            else p0 in
  if (3 <=? length (events s))%nat then
    if hasClickWithoutMove (events s)
    then {| suspicious := true; reason := "在没有鼠标移动的情况下进行了点击" |}
    else p1
  else p1.

(** [list.slice(0, n).join(', ')] followed by the marker when longer. *)
Definition abbreviate (n : nat) (l : list string) : string :=
  join ", " (firstn n l) ++ (if (n <? length l)%nat then "等" else EmptyString).

Definition noDetails : Details :=
  {| det_automation := None; det_behavior := None;
     det_fingerprint := None; det_network := None |}.

Definition stepAutomation (s : Session) (r : Run) : Run :=
  match automation (analysis s) with
  | Some a =>
      let d := r_details r in
      let r' := {| r_score := r_score r; r_reasons := r_reasons r;
                   r_details :=
                     {| det_automation :=
                          Some {| ad_score := 100 - Automation.automationScore a;
                                  ad_isAutomated := Automation.isAutomated a;
                                  ad_detectedTools := Automation.detectedTools a;
                                  ad_reasons := Automation.reasons a |};
                        det_behavior := det_behavior d;
                        det_fingerprint := det_fingerprint d;
                        det_network := det_network d |} |} in
      if Automation.isAutomated a then
        penalty (-40) ("检测到自动化工具: " ++ join ", " (Automation.detectedTools a)) r'
      else adjust 20 r'
  | None => r
  end.

Definition stepBehavior (s : Session) (r : Run) : Run :=
  match behavior (analysis s) with
  | Some b =>
      let d := r_details r in
      let r' := {| r_score := r_score r; r_reasons := r_reasons r;
                   r_details :=
                     {| det_automation := det_automation d;
                        det_behavior := Some b;
                        det_fingerprint := det_fingerprint d;
                        det_network := det_network d |} |} in
      if Behavior.isHuman b then adjust 30 r'
      else penalty (-30) ("行为分析: " ++ join ", " (Behavior.reasons b)) r'
  | None =>
      if (length (events s) <? 5)%nat then penalty (-20) "用户交互事件太少" r else r
  end.

Definition stepFingerprint (s : Session) (r : Run) : Run :=
  match fingerprint (analysis s) with
  | Some f =>
      let d := r_details r in
      let r' := {| r_score := r_score r + (QofZ (Fingerprint.score f - 50)) / 2;
                   r_reasons := r_reasons r;
                   r_details :=
                     {| det_automation := det_automation d;
                        det_behavior := det_behavior d;
                        det_fingerprint :=
                          Some {| fd_score := Fingerprint.score f;
                                  fd_fingerprint := Fingerprint.fingerprint f;
                                  fd_anomalies := Fingerprint.anomalies f |};
                        det_network := det_network d |} |} in
      match Fingerprint.anomalies f with
      | [] => r'
      | l => remark ("指纹异常: " ++ abbreviate 3 l) r'
      end
  | None => r
  end.

Definition stepNetwork (s : Session) (r : Run) : Run :=
  match network (analysis s) with
  | Some n =>
      let d := r_details r in
      let r' := {| r_score := r_score r + (QofZ (Network.score n - 50)) / 2;
                   r_reasons := r_reasons r;
                   r_details :=
                     {| det_automation := det_automation d;
                        det_behavior := det_behavior d;
                        det_fingerprint := det_fingerprint d;
                        det_network :=
                          Some {| nd_score := Network.score n;
                                  nd_proxied := Network.proxied n;
                                  nd_vpnDetected := Network.vpnDetected n;
                                  nd_datacenterIP := Network.datacenterIP n;
                                  nd_ipTimezoneMatch := Network.ipTimezoneMatch n |} |} |} in
      match Network.reasons n with
      | [] => r'
      | l => remark ("网络分析: " ++ abbreviate 2 l) r'
      end
  | None => r
  end.

Definition stepAge (now : Z) (s : Session) (r : Run) : Run :=
  let sessionAge := now - createdAt s in
  if sessionAge <? 1000 then penalty (-30) "会话时间异常短" r
  else if (sessionAge <? 3000) && (10 <? length (events s))%nat
  then penalty (-20) "短时间内产生大量事件" r
  else r.

Definition stepEventCount (s : Session) (r : Run) : Run :=
  match events s with
  | [] => penalty (-30) "没有用户交互事件" r
  | _ => r
  end.

Definition stepDeviceInfo (s : Session) (r : Run) : Run :=
  if truthyS (screenResolution (clientInfo s)) && truthyS (timezone (clientInfo s))
  then r else penalty (-15) "缺少关键设备信息" r.

Definition stepUserAgent (s : Session) (r : Run) : Run :=
  let complete :=
    truthyS (userAgent (clientInfo s))
    && match parsedUserAgent (clientInfo s) with
       | Some p => ua_browser p && ua_os p
       | None => false
       end in
  if complete then r else penalty (-15) "用户代理信息不完整" r.

Definition stepHeaders (req : Request) (r : Run) : Run :=
  match checkSuspiciousHeaders (req_headers req) with
  | [] => r
  | l => penalty (-15) ("可疑的请求头: " ++ join ", " l) r
  end.

Definition stepPattern (s : Session) (r : Run) : Run :=
  let p := analyzeRequestPattern s in
  if suspicious p then penalty (-20) ("异常的请求模式: " ++ reason p) r else r.

(** Checks 1 to 9 of verifySession, in order. *)
Definition beforePattern (now : Z) (s : Session) (req : Request) : Run :=
  let r0 := {| r_score := 0; r_reasons := []; r_details := noDetails |} in
  stepHeaders req
    (stepUserAgent s
      (stepDeviceInfo s
        (stepEventCount s
          (stepAge now s
            (stepNetwork s
              (stepFingerprint s
                (stepBehavior s
                  (stepAutomation s r0)))))))).

(** [Math.max(0, Math.min(100, x + 50))]. *)
Definition finalScore (x : Q) : Q := Qmax 0 (Qmin 100 (x + 50)).

Definition Qleb (a b : Q) : bool :=
  match Qcompare a b with Gt => false | _ => true end.

Definition verifySession (now : Z) (s : Session) (req : Request) : VResult :=
  let r := stepPattern s (beforePattern now s req) in
  let sc := finalScore (r_score r) in
  {| isHuman := Qleb 60 sc; score := sc; reasons := r_reasons r;
     details := Some (r_details r);
     automationDetected := None; detectedTools := None |}.

(** *** The routes *)

Record InitResponse : Type := {
  ir_sessionId : string;
  ir_timestamp : Z;
  ir_status : Status;
  ir_rejectionReason : option string
}.

Inductive EventResponse : Type :=
| EventNotFound                               (* 404 *)
| EventRejected (why : option string)         (* success: false, rejectionReason *)
| EventAccepted (eventsCount : nat)           (* success: true *)
| EventError.                                 (* 500 *)

Inductive VerifyResponse : Type :=
| VerifyNotFound
| VerifyResult (r : VResult)
| VerifyError.

Record StatusView : Type := {
  sv_status : Status;
  sv_createdAt : Z;
  sv_verifiedAt : option Z;
  sv_eventsCount : nat;
  sv_rejectionReason : option string;
  sv_automationDetected : bool;
  sv_detectedTools : list string
}.

Definition setStatus (st : Status) (why : option string) (s : Session) : Session :=
  {| id := id s; createdAt := createdAt s; status := st; clientInfo := clientInfo s;
     events := events s; analysis := analysis s; rejectionReason := why;
     verifiedAt := verifiedAt s; verificationScore := verificationScore s |}.

Definition setEvents (evs : list Event) (s : Session) : Session :=
  {| id := id s; createdAt := createdAt s; status := status s;
     clientInfo := clientInfo s; events := evs; analysis := analysis s;
     rejectionReason := rejectionReason s; verifiedAt := verifiedAt s;
     verificationScore := verificationScore s |}.

Definition setBehavior (b : Behavior.Result) (s : Session) : Session :=
  {| id := id s; createdAt := createdAt s; status := status s;
     clientInfo := clientInfo s; events := events s;
     analysis := {| automation := automation (analysis s); behavior := Some b;
                    network := network (analysis s);
                    fingerprint := fingerprint (analysis s) |};
     rejectionReason := rejectionReason s; verifiedAt := verifiedAt s;
     verificationScore := verificationScore s |}.

(** [x || null] for the plugin value. *)
Definition orNullP (p : option Plugins) : option Plugins :=
  match p with
  | Some (PStr EmptyString) => None
  | _ => p
  end.

Section WithLibs.
Context (L : Libs).

(** The [clientInfo] object of the init route. *)
Definition makeClientInfo (req : Request) (body : Body) : ClientInfo :=
  {| ip := Network.getClientIp req;
     userAgent := hget (req_headers req) "user-agent";
     parsedUserAgent := uaparser_result L (hget (req_headers req) "user-agent");
     headers := req_headers req;
     Client.fingerprint := orNullS (b_fingerprint body);
     canvasFingerprint := orNullS (b_canvasFingerprint body);
     webglFingerprint := orNullS (b_webglFingerprint body);
     webglVendor := orNullS (b_webglVendor body);
     webglRenderer := orNullS (b_webglRenderer body);
     audioFingerprint := orNullS (b_audioFingerprint body);
     screenResolution := orNullS (b_screenResolution body);
     colorDepth := orNullN (b_colorDepth body);
     pixelRatio := orNullN (b_pixelRatio body);
     timezone := orNullS (b_timezone body);
     timezoneOffset := orNullN (b_timezoneOffset body);
     language := orNullS (b_language body);
     platform := orNullS (b_platform body);
     hardwareConcurrency := orNullN (b_hardwareConcurrency body);
     deviceMemory := orNullN (b_deviceMemory body);
     plugins := orNullP (b_plugins body);
     fonts := b_fonts body;
     touchSupport := orFalse (b_touchSupport body);
     maxTouchPoints := orZeroN (b_maxTouchPoints body);
     cookiesEnabled := orFalse (b_cookiesEnabled body);
     localStorage := orFalse (b_localStorage body);
     sessionStorage := orFalse (b_sessionStorage body);
     indexedDB := orFalse (b_indexedDB body);
     doNotTrack := orNullS (b_doNotTrack body);
     adBlocker := orFalse (b_adBlocker body);
     webdriver := orFalse (b_webdriver body);
     automationFlags := b_automationFlags body;
     connectionType := orNullS (b_connectionType body);
     connectionSpeed := orNullN (b_connectionSpeed body);
     navigator := Undefined;
     window := Undefined |}.

(** The session the init route leaves in the store. *)
Definition newSession (sessionId : string) (now : Z) (req : Request) (body : Body)
    : Session :=
  let ci := makeClientInfo req body in
  let automationResult := Automation.detectAutomation L ci in
  let fingerprintResult := Fingerprint.analyzeFingerprint (Some ci) in
  let networkResult := Network.analyzeNetwork L ci req in
  let reject := Automation.isAutomated automationResult
                && (80 <? Automation.automationScore automationResult) in
  {| id := sessionId; createdAt := now;
     status := if reject then rejected else pending;
     clientInfo := ci; events := [];
     analysis := {| automation := Some automationResult; behavior := None;
                    network := Some networkResult;
                    fingerprint := Some fingerprintResult |};
     rejectionReason :=
       if reject
       then Some ("检测到自动化工具: "
                  ++ join ", " (Automation.detectedTools automationResult))
       else None;
     verifiedAt := None; verificationScore := None |}.

(** POST /init, with the identifier [uuidv4()] returned. *)
Definition init (st : Store) (sessionId : string) (now : Z) (req : Request)
    (body : Body) : Store * InitResponse :=
  let s := newSession sessionId now req body in
  (<[sessionId := s]> st,
   {| ir_sessionId := sessionId; ir_timestamp := now; ir_status := status s;
      ir_rejectionReason := orNullS (rejectionReason s) |}).

(** POST /event/:sessionId. *)
Definition recordEvent (st : Store) (sessionId : string) (now : Z) (req : Request)
    (type : string) (data : option EventData) : Store * EventResponse :=
  match st !! sessionId with
  | None => (st, EventNotFound)
  | Some s =>
      if decide (status s = rejected) then
        (st, EventRejected (orNullS (rejectionReason s)))
      else
        let event := {| ev_type := type; ev_data := data; ev_timestamp := now;
                        ev_headers := req_headers req |} in
        let s1 := setEvents (events s ++ [event])%list s in
        if (10 <=? length (events s1))%nat
           && negb (bool_decide (is_Some (behavior (analysis s1)))) then
          match Behavior.analyzeBehavior L now (events s1) with
          | None => (<[sessionId := s1]> st, EventError)
          | Some behaviorResult =>
              let s2 := setBehavior behaviorResult s1 in
              if negb (Behavior.isHuman behaviorResult)
                 && (Behavior.score behaviorResult <? 30) then
                let why := "行为模式与机器人相似" in
                (<[sessionId := setStatus rejected (Some why) s2]> st,
                 EventRejected (Some why))
              else
                (<[sessionId := s2]> st, EventAccepted (length (events s2)))
          end
        else (<[sessionId := s1]> st, EventAccepted (length (events s1)))
  end.

(** The answer of the verify route for a session already decided. *)
Definition cachedResult (s : Session) : VResult :=
  {| isHuman := bool_decide (status s = verified);
     score := match verificationScore s with
              | Some q => if Qeq_bool q 0 then 0%Q else q
              | None => 0%Q
              end;
     reasons := if truthyS (rejectionReason s)
                then match rejectionReason s with Some w => [w] | None => [] end
                else [];
     details := None;
     automationDetected :=
       Some match automation (analysis s) with
            | Some a => Automation.isAutomated a
            | None => false
            end;
     detectedTools :=
       Some match automation (analysis s) with
            | Some a => Automation.detectedTools a
            | None => []
            end |}.

(** The session after a verification with result [v] at time [now]. *)
Definition decided (now : Z) (v : VResult) (s : Session) : Session :=
  {| id := id s; createdAt := createdAt s;
     status := if isHuman v then verified else rejected;
     clientInfo := clientInfo s;
     events := if (50 <? length (events s))%nat then firstn 50 (events s) else events s;
     analysis := analysis s;
     rejectionReason :=
       if isHuman v then rejectionReason s else Some (join ", " (reasons v));
     verifiedAt := Some now;
     verificationScore := Some (score v) |}.

(** POST /verify/:sessionId. *)
Definition verify (st : Store) (sessionId : string) (now : Z) (req : Request)
    : Store * VerifyResponse :=
  match st !! sessionId with
  | None => (st, VerifyNotFound)
  | Some s =>
      if negb (bool_decide (status s = pending)) then
        (st, VerifyResult (cachedResult s))
      else
        let analysed : option Session :=
          match behavior (analysis s), events s with
          | None, _ :: _ =>
              match Behavior.analyzeBehavior L now (events s) with
              | Some b => Some (setBehavior b s)
              | None => None
              end
          | _, _ => Some s
          end in
        match analysed with
        | None => (st, VerifyError)
        | Some s1 =>
            let v := verifySession now s1 req in
            (<[sessionId := decided now v s1]> st, VerifyResult v)
        end
  end.

(** GET /status/:sessionId. *)
Definition getStatus (st : Store) (sessionId : string) : option StatusView :=
  match st !! sessionId with
  | None => None
  | Some s =>
      Some {| sv_status := status s; sv_createdAt := createdAt s;
              sv_verifiedAt := verifiedAt s;
              sv_eventsCount := length (events s);
              sv_rejectionReason := orNullS (rejectionReason s);
              sv_automationDetected :=
                match automation (analysis s) with
                | Some a => Automation.isAutomated a
                | None => false
                end;
              sv_detectedTools :=
                match automation (analysis s) with
                | Some a => Automation.detectedTools a
                | None => []
                end |}
  end.

(** cleanupSessions: sessions older than 24 hours are deleted. *)
Definition cleanupSessions (st : Store) (now : Z) : Store :=
  filter (fun kv => negb (24 * 60 * 60 * 1000 <? now - createdAt (snd kv)) = true) st.

(** *** Sequences of operations *)

Inductive Op : Type :=
| CreateSession (sessionId : string) (now : Z) (req : Request) (body : Body)
| RecordEvent (sessionId : string) (now : Z) (req : Request)
    (type : string) (data : option EventData)
| Evaluate (sessionId : string) (now : Z) (req : Request)
| GetStatus (sessionId : string)
| Sweep (now : Z).

Definition run (st : Store) (o : Op) : Store :=
  match o with
  | CreateSession sid now req body => fst (init st sid now req body)
  | RecordEvent sid now req type data => fst (recordEvent st sid now req type data)
  | Evaluate sid now req => fst (verify st sid now req)
  | GetStatus _ => st
  | Sweep now => cleanupSessions st now
  end.

Definition runAll (st : Store) (ops : list Op) : Store := fold_left run ops st.

(** Status changes that the routes can make. *)
Definition allowed (a b : Status) : Prop :=
  b = a \/ a = pending \/ (a = verified /\ b = rejected).

(** Whether an operation issues the identifier [sid] (again). *)
Definition reissues (sid : string) (o : Op) : bool :=
  match o with
  | CreateSession sid' _ _ _ => String.eqb sid' sid
  | _ => false
  end.

End WithLibs.

End Verify.

(* ===================================================================== *)
(** ** Concrete inputs

    A fixed behaviour of the third-party packages on the inputs used below,
    a desktop Chrome snapshot, and a few requests. *)
(* ===================================================================== *)
Module Demo.

(** Dotted-quad IPv4 addresses as four octets. *)
Definition parseIPv4 (s : string) : option (list Z) :=
  match List.map Number (split "." s) with
  | [Some a; Some b; Some c; Some d] =>
      if forallb (fun o => (0 <=? o) && (o <=? 255)) [a; b; c; d]
      then Some [a; b; c; d] else None
  | _ => None
  end.

Definition rangeIPv4 (o : list Z) : string :=
  match o with
  | 10 :: _ => "private"
  | 127 :: _ => "loopback"
  | 192 :: 168 :: _ => "private"
  | 172 :: b :: _ => if (16 <=? b) && (b <=? 31) then "private" else "unicast"
  | _ => "unicast"
  end.

Fixpoint compareOctets (a b : list Z) : Z :=
  match a, b with
  | x :: a', y :: b' =>
      if x <? y then -1 else if y <? x then 1 else compareOctets a' b'
  | _, _ => 0
  end.

Definition nameIf (ua key name : string) : option string :=
  if includes ua key then Some name else None.

(** Both user-agent parsers recognise Chrome on Windows and nothing else;
    the address 8.8.8.8 is located in the United States. *)
Definition libs : Libs :=
  {| IpAddr := list Z;
     bowser_parse := fun ua =>
       Some {| bw_browser := Some (nameIf ua "Chrome/" "Chrome");
               bw_os := Some (nameIf ua "Windows NT" "Windows") |};
     device_parse := fun ua =>
       Some {| dd_client := option_map Some (nameIf ua "Chrome/" "Chrome");
               dd_os := option_map Some (nameIf ua "Windows NT" "Windows") |};
     uaparser_result := fun _ => Some {| ua_browser := true; ua_os := true |};
     geoip_lookup := fun ip =>
       if String.eqb ip "8.8.8.8" then Some {| country := "US" |} else None;
     ipaddr_parse := parseIPv4;
     ipaddr_range := rangeIPv4;
     ipaddr_kind := fun _ => "ipv4";
     ipaddr_compare := fun a b => Some (compareOctets a b);
     pca_explained := fun _ => None |}.

Definition chromeUA : string :=
  "Mozilla/5.0 (Windows NT 10.0; Win64; x64) AppleWebKit/537.36 (KHTML, like Gecko) Chrome/120.0.0.0 Safari/537.36".

(** A browser request from 8.8.8.8 over plain HTTP. *)
Definition request : Request :=
  {| req_headers :=
       [ ("host", "example.org"); ("user-agent", chromeUA);
         ("accept", "text/html,application/json"); ("accept-language", "en-US,en") ];
     req_remoteAddress := Some "8.8.8.8";
     req_cipher := None |}.

Definition fp64 : string :=
  "0123456789abcdef0123456789abcdef0123456789abcdef0123456789abcdef".

(** A complete desktop snapshot; [wd] is the reported webdriver flag. *)
Definition snapshot (wd : bool) : Body :=
  {| b_fingerprint := Some "basic-1";
     b_canvasFingerprint := Some fp64;
     b_webglFingerprint := Some fp64;
     b_webglVendor := Some "Intel Inc.";
     b_webglRenderer := Some "Intel Iris OpenGL Engine";
     b_audioFingerprint := Some "124.04347527516074";
     b_screenResolution := Some "2560x1440";
     b_colorDepth := Some (ofZ 24);
     b_pixelRatio := Some (ofZ 1);
     b_timezone := Some "America/New_York";
     b_timezoneOffset := Some (ofZ (-300));
     b_language := Some "en-US";
     b_platform := Some "Win32";
     b_hardwareConcurrency := Some (ofZ 8);
     b_deviceMemory := Some (ofZ 8);
     b_plugins := Some (PStr "PDF Viewer,Chrome PDF Viewer,Chromium PDF Viewer");
     b_fonts := Some ["Arial"; "Verdana"; "Georgia"; "Tahoma"; "Calibri"; "Consolas"];
     b_touchSupport := Some false;
     b_maxTouchPoints := Some (ofZ 0);
     b_cookiesEnabled := Some true;
     b_localStorage := Some true;
     b_sessionStorage := Some true;
     b_indexedDB := Some true;
     b_doNotTrack := None;
     b_adBlocker := Some false;
     b_webdriver := Some wd;
     b_automationFlags := if wd then Some ["webdriver"] else None;
     b_connectionType := Some "4g";
     b_connectionSpeed := Some (ofZ 10) |}.

Definition sid : string := "6f1c2f0e-7d0a-4c39-9a55-0b1f6a3a2c11".

Definition keypress : EventData :=
  {| d_x := None; d_y := None; d_timestamp := None |}.

(** A session is created at time 1000 and evaluated at time 6000. *)
Definition created : Verify.Store :=
  Verify.run libs ∅ (Verify.CreateSession sid 1000 request (snapshot false)).

Definition evaluated : Verify.Store :=
  Verify.run libs created (Verify.Evaluate sid 6000 request).

(** Ten key presses, 100 ms apart, from time 7000 on. *)
Definition keyOps : list Verify.Op :=
  List.map (fun i => Verify.RecordEvent sid (7000 + 100 * Z.of_nat i) request
                       "keypress" (Some keypress))
    (seq 0 10).

Definition typed : Verify.Store := Verify.runAll libs evaluated keyOps.

Definition statusOf (st : Verify.Store) : option Verify.Status :=
  option_map Verify.status (st !! sid).

(** A request whose user agent carries the Selenium keyword, and the
    snapshot it yields. *)
Definition seleniumRequest : Request :=
  {| req_headers :=
       [ ("host", "example.org");
         ("user-agent", chromeUA ++ " Selenium");
         ("accept", "text/html"); ("accept-language", "en-US,en") ];
     req_remoteAddress := Some "8.8.8.8";
     req_cipher := None |}.

Definition seleniumInfo : ClientInfo :=
  Verify.makeClientInfo libs seleniumRequest (snapshot false).

(** Pointer moves with a payload, at [(10 i, 0)] and time [1000 + 100 i]. *)
Definition move (i : Z) : Event :=
  {| ev_type := "mousemove";
     ev_data := Some {| d_x := Some (10 * i); d_y := Some 0;
                        d_timestamp := Some (1000 + 100 * i) |};
     ev_timestamp := 1000 + 100 * i;
     ev_headers := [] |}.

(** An event posted without a [data] member. *)
Definition bare (type : string) (t : Z) : Event :=
  {| ev_type := type; ev_data := None; ev_timestamp := t; ev_headers := [] |}.

(** The same events posted to the session of [created], followed by three
    key presses: ten requests in all. *)
Definition bareOps : list Verify.Op :=
  (List.map (fun i => Verify.RecordEvent sid (2000 + 100 * i) request "mousemove"
                        (Some {| d_x := Some (10 * i); d_y := Some 0;
                                 d_timestamp := Some (2000 + 100 * i) |}))
     [0; 1; 2; 3; 4]
   ++ [ Verify.RecordEvent sid 2500 request "click" None;
        Verify.RecordEvent sid 2600 request "click" None;
        Verify.RecordEvent sid 2700 request "keypress" (Some keypress);
        Verify.RecordEvent sid 2800 request "keypress" (Some keypress) ])%list.

Definition nineEvents : Verify.Store := Verify.runAll libs created bareOps.

(** Five pointer moves followed by two clicks posted without payload. *)
Definition bareClicks : list Event :=
  [ move 0; move 1; move 2; move 3; move 4; bare "click" 1500; bare "click" 2100 ].

(** Ten such moves, from the origin along the x axis. *)
Definition tenMoves : list Event :=
  [ move 0; move 1; move 2; move 3; move 4; move 5; move 6; move 7; move 8; move 9 ].

(** A headless browser driven by Selenium through Playwright. *)
Definition headlessRequest : Request :=
  {| req_headers :=
       [ ("host", "example.org");
         ("user-agent",
          "Mozilla/5.0 (Windows NT 10.0; Win64; x64) AppleWebKit/537.36 (KHTML, like Gecko) HeadlessChrome/120.0.0.0 Safari/537.36 Selenium Playwright");
         ("accept", "text/html"); ("accept-language", "en-US,en") ];
     req_remoteAddress := Some "8.8.8.8";
     req_cipher := None |}.

(** The session of [created] after a click and then two pointer moves. *)
Definition clickFirstOps : list Verify.Op :=
  [ Verify.RecordEvent sid 2000 request "click"
      (Some {| d_x := Some 5; d_y := Some 5; d_timestamp := Some 2000 |});
    Verify.RecordEvent sid 2100 request "mousemove"
      (Some {| d_x := Some 6; d_y := Some 5; d_timestamp := Some 2100 |});
    Verify.RecordEvent sid 2200 request "mousemove"
      (Some {| d_x := Some 9; d_y := Some 7; d_timestamp := Some 2200 |}) ].

Definition clickFirst : Verify.Store := Verify.runAll libs created clickFirstOps.

(** The verify result of a response, if any. *)
Definition resultOf (r : Verify.VerifyResponse) : option Verify.VResult :=
  match r with
  | Verify.VerifyResult v => Some v
  | _ => None
  end.


Definition info1 : ClientInfo := Verify.makeClientInfo libs request (snapshot false).

(** [info1] with another language. *)
Definition frenchInfo : ClientInfo :=
  {| ip := ip info1; userAgent := userAgent info1;
     parsedUserAgent := parsedUserAgent info1; headers := headers info1;
     Client.fingerprint := Client.fingerprint info1;
     canvasFingerprint := canvasFingerprint info1;
     webglFingerprint := webglFingerprint info1;
     webglVendor := webglVendor info1; webglRenderer := webglRenderer info1;
     audioFingerprint := audioFingerprint info1;
     screenResolution := screenResolution info1;
     colorDepth := colorDepth info1; pixelRatio := pixelRatio info1;
     timezone := timezone info1; timezoneOffset := timezoneOffset info1;
     language := Some "fr-FR"; platform := platform info1;
     hardwareConcurrency := hardwareConcurrency info1;
     deviceMemory := deviceMemory info1; plugins := plugins info1;
     fonts := fonts info1; touchSupport := touchSupport info1;
     maxTouchPoints := maxTouchPoints info1;
     cookiesEnabled := cookiesEnabled info1; localStorage := localStorage info1;
     sessionStorage := sessionStorage info1; indexedDB := indexedDB info1;
     doNotTrack := doNotTrack info1; adBlocker := adBlocker info1;
     webdriver := webdriver info1; automationFlags := automationFlags info1;
     connectionType := connectionType info1;
     connectionSpeed := connectionSpeed info1;
     navigator := navigator info1; window := window info1 |}.

(** [info1] with another pixel ratio and another device memory. *)
Definition withRatio (ratio memory : option Num) : ClientInfo :=
  {| ip := ip info1; userAgent := userAgent info1;
     parsedUserAgent := parsedUserAgent info1; headers := headers info1;
     Client.fingerprint := Client.fingerprint info1;
     canvasFingerprint := canvasFingerprint info1;
     webglFingerprint := webglFingerprint info1;
     webglVendor := webglVendor info1; webglRenderer := webglRenderer info1;
     audioFingerprint := audioFingerprint info1;
     screenResolution := screenResolution info1;
     colorDepth := colorDepth info1; pixelRatio := ratio;
     timezone := timezone info1; timezoneOffset := timezoneOffset info1;
     language := language info1; platform := platform info1;
     hardwareConcurrency := hardwareConcurrency info1;
     deviceMemory := memory; plugins := plugins info1;
     fonts := fonts info1; touchSupport := touchSupport info1;
     maxTouchPoints := maxTouchPoints info1;
     cookiesEnabled := cookiesEnabled info1; localStorage := localStorage info1;
     sessionStorage := sessionStorage info1; indexedDB := indexedDB info1;
     doNotTrack := doNotTrack info1; adBlocker := adBlocker info1;
     webdriver := webdriver info1; automationFlags := automationFlags info1;
     connectionType := connectionType info1;
     connectionSpeed := connectionSpeed info1;
     navigator := navigator info1; window := window info1 |}.


(** A pixel ratio that is infinite (the body says [1e999]), and none. *)
Definition infiniteInfo : ClientInfo :=
  withRatio (Some (S754_infinity false)) (deviceMemory info1).
Definition noRatioInfo : ClientInfo := withRatio None (deviceMemory info1).

(** A session whose log is a key press, a click and a key press. *)
Definition clickSession : Verify.Session :=
  Verify.setEvents
    [ bare "keypress" 2000; bare "click" 2100; bare "keypress" 2200 ]
    (Verify.newSession libs sid 1000 request (snapshot false)).

End Demo.

(* ===================================================================== *)
(** ** public/sdk.js: the pure helpers of the client *)
(* ===================================================================== *)
Module Sdk.

(** [_getPlugins()]: the names of [navigator.plugins] joined by commas, or
    the empty string when the collection is missing or empty. *)
Definition getPlugins (plugins : option (list string)) : string :=
  match plugins with
  | None | Some [] => EmptyString
  | Some names => join "," names
  end.

(** The signed 32-bit integer of a number ([x & x]). *)
Definition toInt32 (x : Z) : Z := (x + 2 ^ 31) mod 2 ^ 32 - 2 ^ 31.

(** One round of the loop of [_hashString]:
    [hash = ((hash << 5) - hash) + char; hash = hash & hash]. *)
Definition hashStep (hash char : Z) : Z :=
  toInt32 (toInt32 (Z.shiftl hash 5) - hash + char).

(** The value of [hash] after the loop over the UTF-16 code units. *)
Definition hashCode (codes : list Z) : Z := fold_left hashStep codes 0.

Fixpoint hexDigits (fuel : nat) (n : Z) (acc : string) : string :=
  match fuel with
  | O => acc
  | S f =>
      let acc' := String (Sha256.hexDigit (n mod 16)) acc in
      if n / 16 =? 0 then acc' else hexDigits f (n / 16) acc'
  end.

(** [n.toString(16)] for an integer [n >= 0]. *)
Definition toString16 (n : Z) : string :=
  hexDigits (S (Z.to_nat (Z.log2 n))) n EmptyString.

(** [_hashString(str)], on the code units of [str]. *)
Definition hashString (codes : list Z) : string :=
  toString16 (Z.abs (hashCode codes)).

(** The code units of an ASCII text. *)
Definition codesOf (s : string) : list Z := Sha256.bytesOf s.

(** The number that a text of hexadecimal digits denotes. *)
Fixpoint readHex (acc : Z) (s : string) : Z :=
  match s with
  | EmptyString => acc
  | String c r => readHex (16 * acc + Z.of_nat (Fingerprint.hexVal c)) r
  end.

End Sdk.

(* ===================================================================== *)
(** ** The first version of the router (src/unnamed/part_000)

       Four routes over the same in-memory object and a verifySession of four
       checks worth 25 points each; Evaluate recomputes the verdict at every
       call. *)
(* ===================================================================== *)
Module Legacy.

(** [req.body] of the init route. *)
Record Body : Type := {
  b_fingerprint : option string;
  b_screenResolution : option string;
  b_timezone : option string;
  b_language : option string
}.

Record ClientInfo : Type := {
  ip : option string;
  userAgent : option UAResult;      (* parser.getResult() *)
  fingerprint : option string;
  screenResolution : option string;
  timezone : option string;
  language : option string
}.

(** An entry of [session.events]; the payload is stored as it came. *)
Record Event : Type := {
  type : string;
  data : option EventData;
  timestamp : Z
}.

Inductive Status : Type :=
| pending
| verified
| rejected.

Record Session : Type := {
  id : string;
  createdAt : Z;
  status : Status;
  clientInfo : ClientInfo;
  events : list Event;
  verifiedAt : option Z
}.

Abbreviation Store := (gmap string Session).

Record Reasons : Type := {
  isTooQuick : bool;
  hasMouseEvents : bool;
  hasValidUserAgent : bool;     (* the truthiness of the [&&] chain *)
  hasDeviceInfo : bool
}.

Record VResult : Type := {
  isHuman : bool;
  score : Z;
  reasons : Reasons
}.

(** [if (b) score += 25]. *)
Definition plus25 (b : bool) (n : Z) : Z := if b then n + 25 else n.

Definition verifySession (now : Z) (s : Session) : VResult :=
  let sessionAge := now - createdAt s in
  let tooQuick := sessionAge <? 1000 in
  let mouse :=
    existsb (fun e => String.eqb (type e) "mousemove" || String.eqb (type e) "click")
      (events s) in
  let validUA :=
    match userAgent (clientInfo s) with
    | Some ua => ua_browser ua && ua_os ua
    | None => false
    end in
  let deviceInfo :=
    truthyS (screenResolution (clientInfo s)) && truthyS (timezone (clientInfo s)) in
  let sc := plus25 deviceInfo (plus25 validUA (plus25 mouse (plus25 (negb tooQuick) 0))) in
  {| isHuman := 75 <=? sc; score := sc;
     reasons := {| isTooQuick := tooQuick; hasMouseEvents := mouse;
                   hasValidUserAgent := validUA; hasDeviceInfo := deviceInfo |} |}.

Section WithLibs.
Context (L : Libs).

(** POST /init. *)
Definition init (st : Store) (sessionId : string) (now : Z) (req : Request)
    (body : Body) : Store :=
  let ip := if truthyS (hget (req_headers req) "x-forwarded-for")
            then hget (req_headers req) "x-forwarded-for"
            else req_remoteAddress req in
  <[sessionId :=
      {| id := sessionId; createdAt := now; status := pending;
         clientInfo :=
           {| ip := ip;
              userAgent := uaparser_result L (hget (req_headers req) "user-agent");
              fingerprint := orNullS (b_fingerprint body);
              screenResolution := orNullS (b_screenResolution body);
              timezone := orNullS (b_timezone body);
              language := orNullS (b_language body) |};
         events := []; verifiedAt := None |}]> st.

End WithLibs.

(** POST /event/:sessionId; [None] is the 404 answer. *)
Definition recordEvent (st : Store) (sessionId : string) (now : Z)
    (ty : string) (d : option EventData) : option Store :=
  match st !! sessionId with
  | None => None
  | Some s =>
      let e := {| type := ty; data := d; timestamp := now |} in
      Some (<[sessionId :=
                {| id := id s; createdAt := createdAt s; status := status s;
                   clientInfo := clientInfo s; events := (events s ++ [e])%list;
                   verifiedAt := verifiedAt s |}]> st)
  end.

(** POST /verify/:sessionId; [None] is the 404 answer. *)
Definition verify (st : Store) (sessionId : string) (now : Z)
    : option (Store * VResult) :=
  match st !! sessionId with
  | None => None
  | Some s =>
      let v := verifySession now s in
      Some (<[sessionId :=
                {| id := id s; createdAt := createdAt s;
                   status := if isHuman v then verified else rejected;
                   clientInfo := clientInfo s; events := events s;
                   verifiedAt := Some now |}]> st, v)
  end.

(** GET /status/:sessionId. *)
Definition getStatus (st : Store) (sessionId : string) : option Status :=
  option_map status (st !! sessionId).

(** The requests that follow the creation of a session. *)
Inductive Op : Type :=
| RecordEvent (sessionId : string) (now : Z) (ty : string) (d : option EventData)
| Evaluate (sessionId : string) (now : Z).

Definition run (st : Store) (o : Op) : Store :=
  match o with
  | RecordEvent sid now ty d =>
      match recordEvent st sid now ty d with Some st' => st' | None => st end
  | Evaluate sid now =>
      match verify st sid now with Some (st', _) => st' | None => st end
  end.

Definition runAll (st : Store) (ops : list Op) : Store := fold_left run ops st.

End Legacy.

(* ===================================================================== *)
(** ** Pointer paths on a straight line *)
(* ===================================================================== *)
Module Path.

(** Positions on the line through [(x0, y0)] with direction [(dx, dy)], at
    the multiples [ks] of the direction. *)
Definition onLine (x0 y0 dx dy : Z) (ks : list Z) : list (Z * Z) :=
  List.map (fun k => (x0 + k * dx, y0 + k * dy)) ks.

(** The pointer never turns back. *)
Fixpoint ascending (ks : list Z) : Prop :=
  match ks with
  | a :: ((b :: _) as r) => a <= b /\ ascending r
  | _ => True
  end.

End Path.

(* ===================================================================== *)
(** ** Invariants of the analyzers and of the routes *)
(* ===================================================================== *)
Module Inv.

(** A fingerprint check without anomaly has not lowered the score. *)
Definition subClean (s : Fingerprint.Sub) : Prop :=
  Fingerprint.sanomalies s = [] -> 0 <= Fingerprint.sscore s.

(** The same for the running result, which also collects at most one reason
    per check that reports anomalies. *)
Definition accClean (a : Fingerprint.Acc) : Prop :=
  (Fingerprint.a_anomalies a = [] -> 0 <= Fingerprint.a_score a)
  /\ (length (Fingerprint.a_reasons a) <= length (Fingerprint.a_anomalies a))%nat.

(** A network result without reason has not lost a point. *)
Definition netClean (r : Network.Result) : Prop :=
  Network.reasons r = [] -> 0 <= Network.score r.

(** Marked as proxied, with a sum of at most [b]. *)
Definition relayed (b : Z) (r : Network.Result) : Prop :=
  Network.proxied r = true /\ Network.score r <= b.

(** The user-agent keywords of the three tool detectors. *)
Definition toolKeyword (ua : string) : bool :=
  includes ua "Selenium" || includes ua "selenium"
  || includes ua "HeadlessChrome" || includes ua "Playwright".

(** The events whose payload the click analysis reads. *)
Definition carriesPayload (e : Event) : Prop :=
  Behavior.isType "click" e || Behavior.isType "mousemove" e = true -> ev_data e <> None.

(** An evaluation without reason has kept the 20 points of a clean
    automation check. *)
Definition runClean (r : Verify.Run) : Prop :=
  Verify.r_reasons r = [] -> (20 <= Verify.r_score r)%Q.

(** Every reason is a non-empty text. *)
Definition worded (l : list string) : Prop := Forall (fun x => x <> EmptyString) l.

Definition runWorded (r : Verify.Run) : Prop := worded (Verify.r_reasons r).

(** What the routes keep true of the session stored under [sid], after the
    operations [hist]. *)
Record Wf (L : Libs) (hist : list Verify.Op) (sid : string) (s : Verify.Session)
    : Prop := {
  wf_id : Verify.id s = sid;
  wf_origin :
    exists now req body,
      In (Verify.CreateSession sid now req body) hist
      /\ Verify.createdAt s = now
      /\ Verify.clientInfo s = Verify.makeClientInfo L req body
      /\ Verify.automation (Verify.analysis s)
         = Some (Automation.detectAutomation L (Verify.makeClientInfo L req body))
      /\ Verify.fingerprint (Verify.analysis s)
         = Some (Fingerprint.analyzeFingerprint (Some (Verify.makeClientInfo L req body)))
      /\ Verify.network (Verify.analysis s)
         = Some (Network.analyzeNetwork L (Verify.makeClientInfo L req body) req);
  wf_behavior : Verify.events s = [] -> Verify.behavior (Verify.analysis s) = None;
  wf_status :
    match Verify.status s with
    | Verify.pending =>
        Verify.verifiedAt s = None /\ Verify.verificationScore s = None
        /\ Verify.rejectionReason s = None
    | Verify.verified =>
        Verify.rejectionReason s = None
        /\ exists q t, Verify.verificationScore s = Some q /\ Verify.verifiedAt s = Some t
                       /\ (60 <= q <= 100)%Q
    | Verify.rejected => truthyS (Verify.rejectionReason s) = true
    end
}.

Definition StoreWf (L : Libs) (hist : list Verify.Op) (st : Verify.Store) : Prop :=
  forall sid s, st !! sid = Some s -> Wf L hist sid s.

(** What the later requests of the first router keep of a session: creation
    time and client information stay, the log grows at its end. *)
Definition extends (s s' : Legacy.Session) : Prop :=
  Legacy.createdAt s' = Legacy.createdAt s
  /\ Legacy.clientInfo s' = Legacy.clientInfo s
  /\ exists more, Legacy.events s' = (Legacy.events s ++ more)%list.

End Inv.

(* ===================================================================== *)
(** ** Further concrete inputs *)
(* ===================================================================== *)
Module Scenario.

(** The creation of the session of [Demo], alone and followed by an
    evaluation five seconds later. *)
Definition createOps : list Verify.Op :=
  [ Verify.CreateSession Demo.sid 1000 Demo.request (Demo.snapshot false) ].

Definition evaluateOps : list Verify.Op :=
  [ Verify.CreateSession Demo.sid 1000 Demo.request (Demo.snapshot false);
    Verify.Evaluate Demo.sid 6000 Demo.request ].

(** The creation of a session from the headless browser of [Demo]. *)
Definition headlessOps : list Verify.Op :=
  [ Verify.CreateSession Demo.sid 1000 Demo.headlessRequest (Demo.snapshot true) ].

(** A session evaluated after a single key press: its behaviour analysis is
    stored by the evaluation. *)
Definition keyedOps : list Verify.Op :=
  [ Verify.CreateSession Demo.sid 1000 Demo.request (Demo.snapshot false);
    Verify.RecordEvent Demo.sid 2000 Demo.request "keypress" (Some Demo.keypress);
    Verify.Evaluate Demo.sid 6000 Demo.request ].

Definition fresh : Verify.Session :=
  Verify.newSession Demo.libs Demo.sid 1000 Demo.request (Demo.snapshot false).

(** A session whose log holds nine key presses and no analysis yet. *)
Definition nineKeys : Verify.Session :=
  Verify.setEvents
    (List.map (fun i => Demo.bare "keypress" (2000 + 100 * Z.of_nat i)) (seq 0 9))
    fresh.

(** A session whose five events arrived 100 ms apart. *)
Definition regular : Verify.Session :=
  Verify.setEvents
    (List.map (fun i => Demo.bare "scroll" (2000 + 100 * Z.of_nat i)) (seq 0 5))
    fresh.

(** The request of [Demo] as a reverse proxy forwards it. *)
Definition forwardedRequest : Request :=
  {| req_headers := ("x-forwarded-for", "8.8.8.8, 10.0.0.1") :: req_headers Demo.request;
     req_remoteAddress := Some "10.0.0.1";
     req_cipher := None |}.

(** Two clicks, each at most half a second after a pointer move. *)
Definition pointAndClick : list Event :=
  [ Demo.move 0;
    {| ev_type := "click";
       ev_data := Some {| d_x := Some 0; d_y := Some 0; d_timestamp := Some 1500 |};
       ev_timestamp := 1500; ev_headers := [] |};
    Demo.move 14;
    {| ev_type := "click";
       ev_data := Some {| d_x := Some 140; d_y := Some 0; d_timestamp := Some 2600 |};
       ev_timestamp := 2600; ev_headers := [] |} ].

(** Five key presses with gaps of 200, 400, 200 and 400 ms. *)
Definition typing : list Event :=
  List.map (Demo.bare "keypress") [1000; 1200; 1600; 1800; 2200].

Definition pluginNames : list string :=
  [ "PDF Viewer"; "Chrome PDF Viewer"; "Chromium PDF Viewer" ].

(** A session of the first router, created at time 1000, and three later
    requests. *)
Definition legacyBody : Legacy.Body :=
  {| Legacy.b_fingerprint := Some "basic-1";
     Legacy.b_screenResolution := Some "2560x1440";
     Legacy.b_timezone := Some "America/New_York";
     Legacy.b_language := Some "en-US" |}.

Definition legacyStore : Legacy.Store :=
  Legacy.init Demo.libs ∅ Demo.sid 1000 Demo.request legacyBody.

Definition legacySession : Legacy.Session :=
  {| Legacy.id := Demo.sid; Legacy.createdAt := 1000; Legacy.status := Legacy.pending;
     Legacy.clientInfo :=
       {| Legacy.ip := Some "8.8.8.8";
          Legacy.userAgent := Some {| ua_browser := true; ua_os := true |};
          Legacy.fingerprint := Some "basic-1";
          Legacy.screenResolution := Some "2560x1440";
          Legacy.timezone := Some "America/New_York";
          Legacy.language := Some "en-US" |};
     Legacy.events := []; Legacy.verifiedAt := None |}.

Definition legacyOps : list Legacy.Op :=
  [ Legacy.RecordEvent Demo.sid 1200 "mousemove" None;
    Legacy.Evaluate Demo.sid 1500;
    Legacy.RecordEvent Demo.sid 1800 "keypress" None ].

End Scenario.

(* ===================================================================== *)
(** * Properties *)
(* ===================================================================== *)

(** ** The automation detector *)
Section AutomationFacts.
Import Automation.
Context (L : Libs).

Lemma when_isAutomated_addScore b d msgs r :
  isAutomated (when b (addScore d msgs) r) = isAutomated r.
Proof. destruct b; reflexivity. Qed.

Lemma when_isAutomated_flagTool b t d msgs r :
  isAutomated (when b (flagTool t d msgs) r) = b || isAutomated r.
Proof. destruct b; reflexivity. Qed.

Lemma signalSteps_isAutomated ci :
  isAutomated (signalSteps L ci) = isAutomated (toolSteps ci).
Proof. unfold signalSteps. cbv zeta. now rewrite !when_isAutomated_addScore. Qed.

Lemma toolSteps_isAutomated ci :
  let nav := withDefault emptyNavigator (navigator ci) in
  let win := withDefault emptyWindow (window ci) in
  isAutomated (toolSteps ci) =
    detected (detectPlaywright (userAgent ci) nav win)
    || (detected (detectPuppeteer (userAgent ci) nav win)
        || (detected (detectSelenium (userAgent ci) nav win)
            || (detectWebDriver nav || false))).
Proof. unfold toolSteps. cbv zeta. now rewrite !when_isAutomated_flagTool. Qed.

Lemma named_flagTool b t d msgs r : named r -> named (when b (flagTool t d msgs) r).
Proof.
  destruct b; [|easy]. intros _ _. cbn. now destruct (detectedTools r).
Qed.

Lemma named_addScore b d msgs r : named r -> named (when b (addScore d msgs) r).
Proof. now destruct b. Qed.

Lemma named_signalSteps ci : named (signalSteps L ci).
Proof.
  unfold signalSteps, toolSteps. cbv zeta.
  repeat apply named_addScore. repeat apply named_flagTool.
  intros H. discriminate H.
Qed.

Lemma named_thresholdStep r : named r -> named (thresholdStep r).
Proof.
  unfold thresholdStep. destruct (_ && _); [|easy].
  intros _ _. cbn. now destruct (detectedTools r).
Qed.

Lemma named_detectAutomation ci : named (detectAutomation L ci).
Proof.
  unfold detectAutomation, named. cbn.
  apply named_thresholdStep, named_signalSteps.
Qed.

Lemma thresholdStep_isAutomated r :
  isAutomated (thresholdStep r) = isAutomated r || (50 <=? automationScore r).
Proof.
  unfold thresholdStep.
  destruct (isAutomated r) eqn:Ha, (50 <=? automationScore r) eqn:Hs; cbn;
    rewrite ?Ha; reflexivity.
Qed.

Lemma thresholdStep_score r : automationScore (thresholdStep r) = automationScore r.
Proof. unfold thresholdStep. now destruct (_ && _). Qed.

Lemma detectAutomation_score ci :
  automationScore (detectAutomation L ci) = Z.min (automationScore (signalSteps L ci)) 100.
Proof. unfold detectAutomation. cbn. now rewrite thresholdStep_score. Qed.

(** Every delta of the detector is non-negative. *)
Lemma hit_nonneg d msg r : 0 <= d -> 0 <= score r -> 0 <= score (hit d msg r).
Proof. cbn. lia. Qed.

Lemma bump_nonneg d msgs r : 0 <= d -> 0 <= score r -> 0 <= score (bump d msgs r).
Proof. cbn. lia. Qed.

Lemma detectAt30_score r : score (detectAt30 r) = score r.
Proof. unfold detectAt30. now destruct (30 <=? score r). Qed.

Ltac nonneg :=
  repeat first
    [ progress cbn [score noDetect]
    | rewrite detectAt30_score
    | apply hit_nonneg; [lia|]
    | apply bump_nonneg; [lia|]
    | lia
    | match goal with
      | |- context [if ?b then _ else _] => destruct b
      | |- context [match ?x with _ => _ end] => destruct x
      end ].

Lemma detectSelenium_nonneg ua nav win : 0 <= score (detectSelenium ua nav win).
Proof. unfold detectSelenium. nonneg. Qed.

Lemma detectPuppeteer_nonneg ua nav win : 0 <= score (detectPuppeteer ua nav win).
Proof. unfold detectPuppeteer. nonneg. Qed.

Lemma detectPlaywright_nonneg ua nav win : 0 <= score (detectPlaywright ua nav win).
Proof. unfold detectPlaywright. nonneg. Qed.

Lemma namesStep_nonneg p d : 0 <= score (namesStep p d).
Proof. unfold namesStep. nonneg. Qed.

Lemma platformStep_nonneg p n r r' :
  platformStep p n r = Some r' -> 0 <= score r -> 0 <= score r'.
Proof.
  unfold platformStep. intros H Hr.
  repeat match type of H with
         | context [match ?x with _ => _ end] => destruct x
         end; inversion H; subst; cbn; lia.
Qed.

Lemma languageStep_nonneg hs n r : 0 <= score r -> 0 <= score (languageStep hs n r).
Proof. unfold languageStep. intros. nonneg. Qed.

Lemma detectBrowserInconsistency_nonneg ua hs nav :
  0 <= score (detectBrowserInconsistency L ua hs nav).
Proof.
  unfold detectBrowserInconsistency, parseError.
  destruct ua as [u|], nav as [n|]; cbn [score noDetect]; try lia.
  destruct (negb _); cbn [score noDetect]; try lia.
  destruct (bowser_parse L u) as [p|]; [|cbn; lia].
  destruct (device_parse L u) as [d|]; [|cbn; lia].
  pose proof (namesStep_nonneg p d) as H2.
  destruct (platformStep p n (namesStep p d)) as [r3|] eqn:E.
  - apply languageStep_nonneg. eapply platformStep_nonneg; eauto.
  - cbn. lia.
Qed.

Lemma when_score_nonneg b f r :
  (0 <= automationScore r -> 0 <= automationScore (f r)) ->
  0 <= automationScore r -> 0 <= automationScore (when b f r).
Proof. destruct b; cbn; auto. Qed.

Lemma signalSteps_nonneg ci : 0 <= automationScore (signalSteps L ci).
Proof.
  unfold signalSteps, toolSteps. cbv zeta.
  pose proof (detectSelenium_nonneg (userAgent ci)
                (withDefault emptyNavigator (navigator ci))
                (withDefault emptyWindow (window ci))).
  pose proof (detectPuppeteer_nonneg (userAgent ci)
                (withDefault emptyNavigator (navigator ci))
                (withDefault emptyWindow (window ci))).
  pose proof (detectPlaywright_nonneg (userAgent ci)
                (withDefault emptyNavigator (navigator ci))
                (withDefault emptyWindow (window ci))).
  pose proof (detectBrowserInconsistency_nonneg (userAgent ci) (headers ci)
                (withDefault emptyNavigator (navigator ci))).
  repeat (apply when_score_nonneg; [cbn; lia|]).
  cbn. lia.
Qed.

Lemma detectAutomation_range ci :
  0 <= automationScore (detectAutomation L ci) <= 100.
Proof.
  rewrite detectAutomation_score. pose proof (signalSteps_nonneg ci). lia.
Qed.

End AutomationFacts.

(** C5, as stated, fails: the Selenium keyword in the user agent sets
    [isAutomated] although the WebDriver check did not fire and the total
    score, 25, is below 50. *)
Lemma selenium_keyword_sets_isAutomated :
  Automation.isAutomated (Automation.detectAutomation Demo.libs Demo.seleniumInfo) = true
  /\ Automation.detectWebDriver
       (withDefault emptyNavigator (navigator Demo.seleniumInfo)) = false
  /\ Automation.automationScore
       (Automation.detectAutomation Demo.libs Demo.seleniumInfo) = 25.
Proof. vm_compute. repeat split; reflexivity. Qed.

(** C5 (amended): [isAutomated] is true exactly when the WebDriver check
    fired, or one of the Selenium, Puppeteer and Playwright detectors
    reported a detection, or the total score is at least 50. *)
Theorem isAutomated_iff (L : Libs) (ci : ClientInfo) :
  let nav := withDefault emptyNavigator (navigator ci) in
  let win := withDefault emptyWindow (window ci) in
  let r := Automation.detectAutomation L ci in
  Automation.isAutomated r = true <->
    (Automation.detectWebDriver nav = true
     \/ Automation.detected (Automation.detectSelenium (userAgent ci) nav win) = true
     \/ Automation.detected (Automation.detectPuppeteer (userAgent ci) nav win) = true
     \/ Automation.detected (Automation.detectPlaywright (userAgent ci) nav win) = true
     \/ 50 <= Automation.automationScore r).
Proof.
  intros nav win r. subst r.
  rewrite detectAutomation_score.
  unfold Automation.detectAutomation. cbn [Automation.isAutomated Automation.capStep].
  rewrite thresholdStep_isAutomated, signalSteps_isAutomated.
  pose proof (toolSteps_isAutomated ci) as Ht. cbv zeta in Ht. rewrite Ht.
  fold nav win.
  rewrite !orb_true_iff, Z.leb_le. intuition (try discriminate; lia).
Qed.

(** C10: whenever the detector reports [isAutomated], the list of detected
    tools is not empty. *)
Theorem isAutomated_names_a_tool (L : Libs) (ci : ClientInfo) :
  Automation.isAutomated (Automation.detectAutomation L ci) = true ->
  Automation.detectedTools (Automation.detectAutomation L ci) <> [].
Proof.
  unfold Automation.detectAutomation. cbn [Automation.isAutomated
    Automation.detectedTools Automation.capStep].
  apply named_thresholdStep. unfold Automation.signalSteps, Automation.toolSteps.
  cbv zeta. repeat apply named_addScore. repeat apply named_flagTool.
  intros H. discriminate H.
Qed.

(** The fallback name: when no tool detector fires and the score reaches 50,
    the list of tools is exactly ['Unknown Automation']. *)
Lemma unknown_automation_fallback (L : Libs) (ci : ClientInfo) :
  let nav := withDefault emptyNavigator (navigator ci) in
  let win := withDefault emptyWindow (window ci) in
  Automation.detectWebDriver nav = false ->
  Automation.detected (Automation.detectSelenium (userAgent ci) nav win) = false ->
  Automation.detected (Automation.detectPuppeteer (userAgent ci) nav win) = false ->
  Automation.detected (Automation.detectPlaywright (userAgent ci) nav win) = false ->
  50 <= Automation.automationScore (Automation.detectAutomation L ci) ->
  Automation.detectedTools (Automation.detectAutomation L ci) = ["Unknown Automation"].
Proof.
  intros nav win Hw Hs Hp Hy Hsc.
  rewrite detectAutomation_score in Hsc.
  assert (Ht : Automation.toolSteps ci = Automation.init).
  { unfold Automation.toolSteps. cbv zeta. fold nav win. now rewrite Hw, Hs, Hp, Hy. }
  assert (Hd : Automation.detectedTools (Automation.signalSteps L ci) = []).
  { unfold Automation.signalSteps. cbv zeta. rewrite Ht.
    repeat match goal with
           | |- context [Automation.when ?b _ _] => destruct b; cbn [Automation.when]
           end; reflexivity. }
  assert (Ha : Automation.isAutomated (Automation.signalSteps L ci) = false).
  { now rewrite signalSteps_isAutomated, Ht. }
  unfold Automation.detectAutomation, Automation.thresholdStep.
  rewrite Ha. replace (50 <=? _) with true by (symmetry; apply Z.leb_le; lia).
  cbn. now rewrite Hd.
Qed.

(** The Selenium snapshot of [Demo] is flagged, and a tool is named. *)
Lemma isAutomated_names_a_tool_witness :
  Automation.isAutomated (Automation.detectAutomation Demo.libs Demo.seleniumInfo) = true
  /\ Automation.detectedTools (Automation.detectAutomation Demo.libs Demo.seleniumInfo) <> [].
Proof.
  split.
  - vm_compute. reflexivity.
  - apply (isAutomated_names_a_tool Demo.libs Demo.seleniumInfo). vm_compute. reflexivity.
Defined.

(** ** Score ranges of the analyzers *)

Lemma analyzeFingerprint_range (ci : option ClientInfo) :
  0 <= Fingerprint.score (Fingerprint.analyzeFingerprint ci) <= 100.
Proof. destruct ci; cbn; lia. Qed.

Lemma analyzeNetwork_range (L : Libs) (ci : ClientInfo) (req : Request) :
  0 <= Network.score (Network.analyzeNetwork L ci req) <= 100.
Proof.
  unfold Network.analyzeNetwork.
  destruct (Network.getClientIp req) as [[|a ip]|]; cbn; try lia.
  destruct (Network.isPrivateIP L (String a ip)); cbn; lia.
Qed.

Lemma judge_score natural d msg r :
  Behavior.score (Behavior.judge natural d msg r)
  = Behavior.score r + (if natural then d else 0).
Proof. destruct natural; cbn; lia. Qed.

(** Whenever the behaviour analyser returns, its score is within range. *)
Lemma analyzeBehavior_range (L : Libs) (now : Z) (evs : list Event) (r : Behavior.Result) :
  Behavior.analyzeBehavior L now evs = Some r -> 0 <= Behavior.score r <= 100.
Proof.
  unfold Behavior.analyzeBehavior.
  destruct evs as [|e evs]; [intros [= <-]; cbn; lia|].
  generalize (e :: evs). clear e evs. intros evs.
  destruct (_ <? 5)%nat; [intros [= <-]; cbn; lia|].
  destruct (Behavior.analyzeClickPattern _ _ _) as [c|]; [|discriminate].
  intros [= <-]. cbn [Behavior.score].
  destruct (List.filter (Behavior.isType "keypress") evs);
    rewrite !judge_score; cbn [Behavior.score];
    repeat match goal with |- context [if ?b then _ else _] => destruct b end; lia.
Qed.

(** It returns on every list whose events all carry a payload. *)
Lemma strictTimes_total (now : Z) (evs : list Event) :
  Forall (fun e => ev_data e <> None) evs ->
  exists ts, Behavior.strictTimes now evs = Some ts.
Proof.
  induction 1 as [|e evs He _ [ts IH]]; [now exists []|].
  cbn. unfold Behavior.timeOfStrict. destruct (ev_data e); [|easy].
  rewrite IH. eauto.
Qed.

Lemma foundMovement_total (now t : Z) (evs : list Event) :
  Forall (fun e => ev_data e <> None) evs ->
  exists b, Behavior.foundMovement now t evs = Some b.
Proof.
  induction 1 as [|e evs He _ [b IH]]; [now exists false|].
  cbn. destruct (Behavior.isType "mousemove" e); [|eauto].
  unfold Behavior.timeOfStrict. destruct (ev_data e); [|easy].
  destruct (_ && _); eauto.
Qed.

Lemma clicksWithoutMovement_total (now : Z) (ts : list Z) (evs : list Event) :
  Forall (fun e => ev_data e <> None) evs ->
  exists n, Behavior.clicksWithoutMovement now ts evs = Some n.
Proof.
  intros H. induction ts as [|t ts [n IH]]; [now exists O|].
  cbn. destruct (foundMovement_total now t (rev evs)) as [b Hb].
  { now apply Forall_rev. }
  rewrite Hb, IH. eauto.
Qed.

Lemma analyzeBehavior_total (L : Libs) (now : Z) (evs : list Event) :
  Forall (fun e => ev_data e <> None) evs ->
  exists r, Behavior.analyzeBehavior L now evs = Some r.
Proof.
  intros H. unfold Behavior.analyzeBehavior.
  destruct evs as [|e evs]; [eauto|].
  revert H. generalize (e :: evs). clear e evs. intros evs H.
  destruct (_ <? 5)%nat; [eauto|].
  unfold Behavior.analyzeClickPattern.
  destruct (_ <? 2)%nat; [eauto|].
  destruct (strictTimes_total now (List.filter (Behavior.isType "click") evs))
    as [ts Hts].
  { apply List.Forall_forall. intros x Hx. apply List.filter_In in Hx.
    rewrite List.Forall_forall in H. now apply H. }
  rewrite Hts.
  destruct (clicksWithoutMovement_total now ts evs H) as [n Hn].
  rewrite Hn. eauto.
Qed.

(** Through the routes: after five moves and two clicks without payload,
    the tenth event triggers the analysis, which throws; the route answers
    with the server error, and so does Evaluate afterwards. *)
Example bare_clicks_through_the_routes :
  snd (Verify.recordEvent Demo.libs Demo.nineEvents Demo.sid 2900 Demo.request
         "keypress" (Some Demo.keypress))
  = Verify.EventError
  /\ snd (Verify.verify Demo.libs
            (fst (Verify.recordEvent Demo.libs Demo.nineEvents Demo.sid 2900 Demo.request
                    "keypress" (Some Demo.keypress)))
            Demo.sid 6000 Demo.request)
     = Verify.VerifyError.
Proof. vm_compute. split; reflexivity. Qed.

(** C7: the automation, fingerprint and network analyzers always return a
    score in [0,100]; the behaviour analyser does not return on the events
    [Demo.bareClicks] (analyzeClickPattern reads the timestamp of a click
    that has no payload and throws). *)
Theorem analyzeBehavior_throws_on_bare_clicks :
  (forall L ci req,
      0 <= Automation.automationScore (Automation.detectAutomation L ci) <= 100
      /\ 0 <= Fingerprint.score (Fingerprint.analyzeFingerprint (Some ci)) <= 100
      /\ 0 <= Network.score (Network.analyzeNetwork L ci req) <= 100)
  /\ Behavior.analyzeBehavior Demo.libs 0 Demo.bareClicks = None.
Proof.
  split.
  - intros L ci req. split; [apply detectAutomation_range|].
    split; [apply analyzeFingerprint_range | apply analyzeNetwork_range].
  - reflexivity.
Qed.

(** ** The behaviour analyser on a constant cadence *)
Section ConstantCadence.
Import Behavior Cadence.
#[local] Open Scope R_scope.

Lemma Rltb_irrefl_pair a : (Rltb 0 a && Rltb a 0) || (Rltb a 0 && Rltb 0 a) = false.
Proof. unfold Rltb. destruct (Rlt_dec 0 a), (Rlt_dec a 0); try reflexivity; lra. Qed.

Lemma signChanges_repeat a n : signChanges (repeat a n) = O.
Proof.
  induction n as [|[|n] IH]; try reflexivity.
  cbn [repeat] in *. cbn [signChanges] in *.
  now rewrite Rltb_irrefl_pair, IH.
Qed.

Lemma diffsR_repeat a n : diffsR (repeat a (S n)) = repeat (a - a) n.
Proof.
  induction n as [|n IH]; [reflexivity|].
  cbn [repeat] in *. cbn [diffsR] in *. now rewrite IH.
Qed.

Lemma fold_sumR l a : fold_left Rplus l a = a + sumR l.
Proof.
  unfold sumR. revert a. induction l as [|x l IH]; intros a; cbn; [lra|].
  rewrite IH, (IH (0 + x)). lra.
Qed.

Lemma sumR_repeat c n : sumR (repeat c n) = INR n * c.
Proof.
  induction n as [|n IH]; [unfold sumR; cbn; lra|].
  unfold sumR in *. cbn [repeat fold_left]. rewrite fold_sumR. unfold sumR.
  rewrite IH, S_INR. lra.
Qed.

Lemma stddev_repeat c n : stddev (repeat c (S n)) = RFin 0.
Proof.
  unfold stddev. change (repeat c (S n)) with (c :: repeat c n) at 1.
  cbv beta iota. f_equal.
  unfold lenR. rewrite repeat_length, sumR_repeat, map_repeat, sumR_repeat.
  assert (Hn : INR (S n) <> 0) by (apply not_0_INR; discriminate).
  replace (INR (S n) * c / INR (S n)) with c by (field; exact Hn).
  replace (INR (S n) * (c - c) ^ 2 / INR (S n)) with 0 by (field; exact Hn).
  apply sqrt_0.
Qed.

Lemma samples_constantCadence now x y dx dy t evs :
  Cadence.constantCadence now x y dx dy t evs ->
  samples now evs = progression x y dx dy t (length evs).
Proof.
  revert x y t. induction evs as [|e evs IH]; intros x y t; [reflexivity|].
  cbn [Cadence.constantCadence]. intros (_ & (d & Hd & Hx & Hy) & Ht & Hr).
  cbn [samples length progression]. rewrite Hd, Hx, Hy.
  unfold timeOf in Ht. rewrite Hd in Ht. rewrite Ht. f_equal. now apply IH.
Qed.

Lemma times_constantCadence now x y dx dy t evs :
  Cadence.constantCadence now x y dx dy t evs ->
  List.map (timeOf now) evs = List.map snd (progression x y dx dy t (length evs)).
Proof.
  revert x y t. induction evs as [|e evs IH]; intros x y t; [reflexivity|].
  cbn [Cadence.constantCadence]. intros (_ & _ & Ht & Hr).
  cbn [List.map length progression snd]. rewrite Ht. f_equal. now apply IH.
Qed.

Lemma filter_constantCadence now x y dx dy t evs :
  Cadence.constantCadence now x y dx dy t evs ->
  List.filter (isType "mousemove") evs = evs
  /\ List.filter (isType "click") evs = []
  /\ List.filter (isType "keypress") evs = [].
Proof.
  revert x y t. induction evs as [|e evs IH]; intros x y t; [easy|].
  cbn [Cadence.constantCadence]. intros (Hty & _ & _ & Hr).
  destruct (IH _ _ _ Hr) as (H1 & H2 & H3).
  cbn [List.filter]. unfold isType. rewrite Hty. cbn. fold (isType "mousemove").
  fold (isType "click"). fold (isType "keypress"). now rewrite H1, H2, H3.
Qed.

Lemma speedsOf_progression x y dx dy t n :
  speedsOf (progression x y dx dy t (S n)) = repeat (cadenceSpeed dx dy) n.
Proof.
  revert x y t. induction n as [|n IH]; intros x y t; [reflexivity|].
  specialize (IH (x + dx)%Z (y + dy)%Z (t + 100)%Z).
  cbn [progression] in *. cbn [speedsOf] in *.
  replace (x + dx - x)%Z with dx by lia.
  replace (y + dy - y)%Z with dy by lia.
  replace (t + 100 - t)%Z with 100%Z by lia.
  assert (Hpos : Rltb 0 (100 / 1000) = true).
  { unfold Rltb. destruct (Rlt_dec 0 (100 / 1000)); [reflexivity|lra]. }
  rewrite Hpos, IH. reflexivity.
Qed.

Lemma diffsZ_progression x y dx dy t n :
  diffsZ (List.map snd (progression x y dx dy t (S n))) = repeat 100%Z n.
Proof.
  revert x y t. induction n as [|n IH]; intros x y t; [reflexivity|].
  specialize (IH (x + dx)%Z (y + dy)%Z (t + 100)%Z).
  cbn [progression List.map snd] in *. cbn [diffsZ] in *.
  replace (t + 100 - t)%Z with 100%Z by lia.
  rewrite IH. reflexivity.
Qed.

(** A constant speed has no sign change of the acceleration. *)
Lemma trajectory_constantCadence L now x y dx dy t evs :
  Cadence.constantCadence now x y dx dy t evs ->
  analyzeMouseTrajectory L now evs = false.
Proof.
  intros H. unfold analyzeMouseTrajectory.
  destruct (length evs <? 5)%nat; [reflexivity|].
  rewrite (samples_constantCadence _ _ _ _ _ _ _ H).
  destruct (length evs) as [|n]; [reflexivity|].
  destruct (_ <? 5)%nat; [reflexivity|].
  unfold trajectoryOf. cbn [speedVariation accelerationChanges directionChanges lineRatio].
  rewrite speedsOf_progression.
  assert (Hacc : signChanges (diffsR (repeat (cadenceSpeed dx dy) n)) = O).
  { destruct n as [|m]; [reflexivity|]. now rewrite diffsR_repeat, signChanges_repeat. }
  rewrite Hacc. cbn [Nat.leb]. now rewrite andb_false_r.
Qed.

(** Equal gaps have a coefficient of variation of 0, below 0.1. *)
Lemma timing_constantCadence now x y dx dy t evs :
  Cadence.constantCadence now x y dx dy t evs ->
  analyzeEventTimeIntervals now evs = false.
Proof.
  intros H. unfold analyzeEventTimeIntervals.
  destruct (length evs <? 5)%nat eqn:Hlen; [reflexivity|].
  unfold intervalsOf. rewrite (times_constantCadence _ _ _ _ _ _ _ H).
  destruct (length evs) as [|[|n]]; [discriminate Hlen|discriminate Hlen|].
  rewrite diffsZ_progression, map_repeat.
  unfold spread. rewrite stddev_repeat.
  unfold lenR. rewrite repeat_length, sumR_repeat.
  assert (Hn : INR (S n) <> 0) by (apply not_0_INR; discriminate).
  replace (INR (S n) * 100 / INR (S n)) with 100 by (field; exact Hn).
  assert (Hlt : rlt (rdiv 0 100) (1 / 10) = true).
  { unfold rdiv, Reqb. destruct (Req_dec_T 100 0) as [E|_]; [lra|].
    unfold rlt, Rltb. destruct (Rlt_dec (0 / 100) (1 / 10)); [reflexivity|lra]. }
  now rewrite Hlt.
Qed.

End ConstantCadence.

(** C9: on exactly ten pointer moves at a constant 100 ms cadence and constant
    velocity along a straight line, the trajectory check and the timing check
    both report non-natural, and the behaviour score receives no delta (it
    is 0, with the three reasons recorded). *)
Theorem constant_cadence_is_not_natural
    (L : Libs) (now x y dx dy t : Z) (evs : list Event) :
  length evs = 10%nat ->
  Cadence.constantCadence now x y dx dy t evs ->
  Behavior.analyzeMouseTrajectory L now evs = false
  /\ Behavior.analyzeEventTimeIntervals now evs = false
  /\ Behavior.analyzeBehavior L now evs
     = Some {| Behavior.isHuman := false; Behavior.score := 0;
               Behavior.reasons := [ "鼠标移动轨迹不自然"; "点击模式不自然";
                                     "事件时间间隔不自然" ] |}.
Proof.
  intros Hlen H.
  pose proof (trajectory_constantCadence L now x y dx dy t evs H) as Htraj.
  pose proof (timing_constantCadence now x y dx dy t evs H) as Htime.
  destruct (filter_constantCadence now x y dx dy t evs H) as (Hm & Hc & Hk).
  repeat split; try assumption.
  unfold Behavior.analyzeBehavior.
  destruct evs as [|e evs]; [discriminate Hlen|].
  rewrite Hm, Hc, Hk, Hlen, Htraj, Htime. reflexivity.
Qed.

(** Ten moves from the origin along the x axis, one every 100 ms. *)
Lemma constant_cadence_is_not_natural_witness :
  Behavior.analyzeMouseTrajectory Demo.libs 0 Demo.tenMoves = false
  /\ Behavior.analyzeEventTimeIntervals 0 Demo.tenMoves = false
  /\ Behavior.analyzeBehavior Demo.libs 0 Demo.tenMoves
     = Some {| Behavior.isHuman := false; Behavior.score := 0;
               Behavior.reasons := [ "鼠标移动轨迹不自然"; "点击模式不自然";
                                     "事件时间间隔不自然" ] |}.
Proof.
  apply (constant_cadence_is_not_natural Demo.libs 0 0 0 10 0 1000 Demo.tenMoves).
  - reflexivity.
  - cbn. repeat split; try reflexivity; eexists; repeat split; reflexivity.
Defined.

(** ** The session store *)
Section StoreFacts.
Import Verify.
Context (L : Libs).

Lemma allowed_refl a : allowed a a.
Proof. now left. Qed.

Lemma allowed_trans a b c : allowed a b -> allowed b c -> allowed a c.
Proof.
  unfold allowed. intros [->|[->|[-> ->]]] [->|[H|[H1 H2]]]; subst; auto; try discriminate.
Qed.

Lemma init_lookup_ne st sid' now req body sid :
  sid' <> sid -> fst (init L st sid' now req body) !! sid = st !! sid.
Proof. intros H. cbn. now rewrite lookup_insert_ne. Qed.

(** The session that [recordEvent] leaves under [sid], when one exists. *)
Lemma recordEvent_lookup st sid' now req ty data sid :
  sid' <> sid -> fst (recordEvent L st sid' now req ty data) !! sid = st !! sid.
Proof.
  intros H. unfold recordEvent.
  destruct (st !! sid') as [s|]; [|reflexivity].
  repeat match goal with
         | |- context [if ?b then _ else _] => destruct b
         | |- context [match ?x with _ => _ end] => destruct x
         end; cbn; try reflexivity; now rewrite lookup_insert_ne.
Qed.

Lemma verify_lookup st sid' now req sid :
  sid' <> sid -> fst (verify L st sid' now req) !! sid = st !! sid.
Proof.
  intros H. unfold verify.
  destruct (st !! sid') as [s|]; [|reflexivity].
  repeat match goal with
         | |- context [if ?b then _ else _] => destruct b
         | |- context [match ?x with _ => _ end] => destruct x
         end; cbn; try reflexivity; now rewrite lookup_insert_ne.
Qed.

Lemma recordEvent_status st sid now req ty data s s' :
  st !! sid = Some s ->
  fst (recordEvent L st sid now req ty data) !! sid = Some s' ->
  status s' = status s \/ (status s <> rejected /\ status s' = rejected).
Proof.
  intros Hs. unfold recordEvent. rewrite Hs.
  destruct (decide (status s = rejected)) as [E|E].
  { cbn. rewrite Hs. intros [= <-]. now left. }
  repeat match goal with
         | |- context [if ?b then _ else _] => destruct b
         | |- context [match ?x with _ => _ end] => destruct x
         end; cbn [fst]; rewrite lookup_insert_eq; intros [= <-]; cbn; auto.
Qed.

Lemma verify_status st sid now req s s' :
  st !! sid = Some s ->
  fst (verify L st sid now req) !! sid = Some s' ->
  status s' = status s \/ status s = pending.
Proof.
  intros Hs. unfold verify. rewrite Hs.
  destruct (bool_decide (status s = pending)) eqn:E.
  - apply bool_decide_eq_true in E. auto.
  - cbn. rewrite Hs. intros [= <-]. now left.
Qed.

Lemma cleanupSessions_lookup st now sid s' :
  cleanupSessions st now !! sid = Some s' -> st !! sid = Some s'.
Proof. unfold cleanupSessions. intros H. now apply map_lookup_filter_Some in H. Qed.

Lemma reissues_false sid o :
  reissues sid o = false ->
  match o with CreateSession sid' _ _ _ => sid' <> sid | _ => True end.
Proof.
  destruct o; cbn; try easy. intros H E. subst. now rewrite String.eqb_refl in H.
Qed.

(** One operation: the status stays, or leaves pending, or goes from
    verified to rejected. *)
Lemma run_status st o sid s s' :
  reissues sid o = false ->
  st !! sid = Some s -> run L st o !! sid = Some s' ->
  allowed (status s) (status s').
Proof.
  intros Hf Hs. apply reissues_false in Hf. unfold allowed.
  destruct o as [sid' now req body|sid' now req ty data|sid' now req|sid'|now];
    cbn [run].
  - rewrite init_lookup_ne by exact Hf. rewrite Hs. intros [= <-]. auto.
  - destruct (decide (sid' = sid)) as [->|Hne].
    + intros H. destruct (recordEvent_status _ _ _ _ _ _ _ _ Hs H) as [E|[E1 E2]];
        [auto|].
      destruct (status s); auto; contradiction.
    + rewrite recordEvent_lookup by exact Hne. rewrite Hs. intros [= <-]. auto.
  - destruct (decide (sid' = sid)) as [->|Hne].
    + intros H. destruct (verify_status _ _ _ _ _ _ Hs H); auto.
    + rewrite verify_lookup by exact Hne. rewrite Hs. intros [= <-]. auto.
  - rewrite Hs. intros [= <-]. auto.
  - intros H. apply cleanupSessions_lookup in H. rewrite Hs in H.
    injection H as <-. auto.
Qed.

(** A deleted session does not come back unless its identifier is issued
    again. *)
Lemma run_absent st o sid :
  reissues sid o = false -> st !! sid = None -> run L st o !! sid = None.
Proof.
  intros Hf Hs. apply reissues_false in Hf.
  destruct o as [sid' now req body|sid' now req ty data|sid' now req|sid'|now];
    cbn [run].
  - now rewrite init_lookup_ne.
  - destruct (decide (sid' = sid)) as [->|Hne].
    + unfold recordEvent. now rewrite Hs.
    + now rewrite recordEvent_lookup.
  - destruct (decide (sid' = sid)) as [->|Hne].
    + unfold verify. now rewrite Hs.
    + now rewrite verify_lookup.
  - exact Hs.
  - destruct (cleanupSessions st now !! sid) eqn:E; [|reflexivity].
    apply cleanupSessions_lookup in E. congruence.
Qed.

Lemma runAll_absent st ops sid :
  forallb (fun o => negb (reissues sid o)) ops = true ->
  st !! sid = None -> runAll L st ops !! sid = None.
Proof.
  revert st. induction ops as [|o ops IH]; intros st Hf Hs; [exact Hs|].
  cbn in Hf. apply andb_true_iff in Hf as [Ho Hf]. apply negb_true_iff in Ho.
  cbn. apply IH; [exact Hf|]. now apply run_absent.
Qed.

(** Only RecordEvent takes a verified session to rejected. *)
Lemma verified_to_rejected_by_event st o sid s s' :
  reissues sid o = false ->
  st !! sid = Some s -> run L st o !! sid = Some s' ->
  status s = verified -> status s' = rejected ->
  exists now req ty data, o = RecordEvent sid now req ty data.
Proof.
  intros Hf Hs Hs' Hv Hr. apply reissues_false in Hf.
  destruct o as [sid' now req body|sid' now req ty data|sid' now req|sid'|now];
    cbn [run] in Hs'.
  - rewrite init_lookup_ne in Hs' by exact Hf. congruence.
  - destruct (decide (sid' = sid)) as [->|Hne]; [eauto|].
    rewrite recordEvent_lookup in Hs' by exact Hne. congruence.
  - destruct (decide (sid' = sid)) as [->|Hne].
    + destruct (verify_status _ _ _ _ _ _ Hs Hs'); congruence.
    + rewrite verify_lookup in Hs' by exact Hne. congruence.
  - congruence.
  - apply cleanupSessions_lookup in Hs'. congruence.
Qed.

End StoreFacts.

(** The session of [Demo] is verified once evaluated. *)
Lemma demo_evaluated_status : Demo.statusOf Demo.evaluated = Some Verify.verified.
Proof. vm_compute. reflexivity. Qed.

Lemma demo_typed_status :
  option_map Verify.status
    (Verify.runAll Demo.libs Demo.evaluated Demo.keyOps !! Demo.sid)
  = Some Verify.rejected.
Proof. vm_compute. reflexivity. Qed.

(** C1, as stated, fails: the session of [Demo] is verified by Evaluate
    and then rejected when its tenth event is recorded. *)
Lemma verified_session_becomes_rejected :
  Demo.statusOf Demo.created = Some Verify.pending
  /\ Demo.statusOf Demo.evaluated = Some Verify.verified
  /\ Demo.statusOf Demo.typed = Some Verify.rejected.
Proof. vm_compute. repeat split; reflexivity. Qed.

(** C1 (amended): over every sequence of operations that does not issue the
    session's identifier again, a session never returns to pending and a
    rejected session stays rejected; the status either stays, or leaves
    pending, or goes from verified to rejected. *)
Theorem status_transitions
    (L : Libs) (st : Verify.Store) (ops : list Verify.Op) (sid : string)
    (s s' : Verify.Session) :
  forallb (fun o => negb (Verify.reissues sid o)) ops = true ->
  st !! sid = Some s -> Verify.runAll L st ops !! sid = Some s' ->
  Verify.status s' = Verify.status s
  \/ Verify.status s = Verify.pending
  \/ (Verify.status s = Verify.verified /\ Verify.status s' = Verify.rejected).
Proof.
  change (forallb (fun o => negb (Verify.reissues sid o)) ops = true ->
          st !! sid = Some s -> Verify.runAll L st ops !! sid = Some s' ->
          Verify.allowed (Verify.status s) (Verify.status s')).
  revert st s. induction ops as [|o ops IH]; intros st s Hf Hs Hs'.
  - cbn in Hs'. rewrite Hs in Hs'. injection Hs' as <-. apply allowed_refl.
  - cbn in Hf. apply andb_true_iff in Hf as [Ho Hf]. apply negb_true_iff in Ho.
    change (Verify.runAll L st (o :: ops))
      with (Verify.runAll L (Verify.run L st o) ops) in Hs'.
    destruct (Verify.run L st o !! sid) as [s1|] eqn:E.
    + eapply allowed_trans; [eapply run_status; eauto|]. eapply IH; eauto.
    + rewrite (runAll_absent _ _ _ _ Hf E) in Hs'. discriminate.
Qed.

(** The verified session of [Demo] over its ten key presses. *)
Lemma status_transitions_witness :
  exists s s',
    Demo.evaluated !! Demo.sid = Some s
    /\ Verify.runAll Demo.libs Demo.evaluated Demo.keyOps !! Demo.sid = Some s'
    /\ (Verify.status s' = Verify.status s
        \/ Verify.status s = Verify.pending
        \/ (Verify.status s = Verify.verified /\ Verify.status s' = Verify.rejected)).
Proof.
  pose proof demo_evaluated_status as H1. pose proof demo_typed_status as H2.
  unfold Demo.statusOf in H1.
  destruct (Demo.evaluated !! Demo.sid) as [s|] eqn:E1; [|discriminate H1].
  destruct (Verify.runAll Demo.libs Demo.evaluated Demo.keyOps !! Demo.sid)
    as [s'|] eqn:E2; [|discriminate H2].
  exists s, s'. split; [reflexivity|]. split; [reflexivity|].
  apply (status_transitions Demo.libs Demo.evaluated Demo.keyOps Demo.sid s s').
  - reflexivity.
  - exact E1.
  - exact E2.
Defined.

(** ** CreateSession *)

(** C2, as stated, fails: the snapshot of [Demo] with the webdriver flag set
    is stored with [webdriver = true], and CreateSession answers pending. *)
Lemma webdriver_snapshot_stays_pending :
  webdriver (Verify.makeClientInfo Demo.libs Demo.request (Demo.snapshot true)) = true
  /\ Verify.ir_status
       (snd (Verify.init Demo.libs ∅ Demo.sid 1000 Demo.request (Demo.snapshot true)))
     = Verify.pending.
Proof. vm_compute. split; reflexivity. Qed.

Lemma reason_truthy (x : string) :
  orNullS (Some ("检测到自动化工具: " ++ x)) = Some ("检测到自动化工具: " ++ x).
Proof. reflexivity. Qed.

(** C2 (amended): CreateSession answers rejected exactly when the detector
    reports [isAutomated] with a score above 80; the reason then is the
    prefix followed by the detected tools, of which there is at least one;
    otherwise the answer is pending, without a reason. *)
Theorem init_rejects_above_80
    (L : Libs) (st : Verify.Store) (sid : string) (now : Z) (req : Request)
    (body : Body) :
  let a := Automation.detectAutomation L (Verify.makeClientInfo L req body) in
  let r := snd (Verify.init L st sid now req body) in
  (Verify.ir_status r = Verify.rejected
   <-> Automation.isAutomated a = true /\ 80 < Automation.automationScore a)
  /\ (Verify.ir_status r = Verify.rejected ->
      Automation.detectedTools a <> []
      /\ Verify.ir_rejectionReason r
         = Some ("检测到自动化工具: " ++ join ", " (Automation.detectedTools a)))
  /\ (Verify.ir_status r <> Verify.rejected ->
      Verify.ir_status r = Verify.pending /\ Verify.ir_rejectionReason r = None).
Proof.
  intros a r. subst r. cbn [Verify.init snd Verify.ir_status Verify.ir_rejectionReason].
  unfold Verify.newSession. cbv zeta. fold a.
  cbn [Verify.status Verify.rejectionReason].
  pose proof (named_detectAutomation L (Verify.makeClientInfo L req body)) as Hn.
  unfold Automation.named in Hn.
  fold a in Hn.
  destruct (Automation.isAutomated a) eqn:Ha;
    destruct (80 <? Automation.automationScore a) eqn:Hs; cbn [andb];
    try apply Z.ltb_lt in Hs; try apply Z.ltb_ge in Hs.
  - rewrite reason_truthy. repeat split; auto; try easy.
  - repeat split; try easy. intros [_ H]. lia.
  - repeat split; try easy.
  - repeat split; try easy.
Qed.

(** The headless request of [Demo] is rejected at creation. *)
Lemma init_rejects_above_80_witness :
  Verify.ir_status
    (snd (Verify.init Demo.libs ∅ Demo.sid 1000 Demo.headlessRequest (Demo.snapshot true)))
  = Verify.rejected.
Proof.
  apply (proj1 (init_rejects_above_80 Demo.libs ∅ Demo.sid 1000 Demo.headlessRequest
                  (Demo.snapshot true))).
  vm_compute. split; reflexivity.
Defined.

(** A snapshot that is rejected at creation, with the tools in the reason. *)
Example headless_snapshot_rejected :
  snd (Verify.init Demo.libs ∅ Demo.sid 1000 Demo.headlessRequest (Demo.snapshot true))
  = {| Verify.ir_sessionId := Demo.sid; Verify.ir_timestamp := 1000;
       Verify.ir_status := Verify.rejected;
       Verify.ir_rejectionReason :=
         Some "检测到自动化工具: Selenium, Puppeteer, Playwright" |}.
Proof. vm_compute. reflexivity. Qed.

(** ** Evaluate on a decided session *)

(** C3, as stated, fails: the Evaluate call that verifies the session of
    [Demo] returns two reasons and the details; the next call returns no
    reason, no details, and the automation summary instead. *)
Lemma cached_verdict_differs :
  exists v1 v2,
    Demo.resultOf (snd (Verify.verify Demo.libs Demo.created Demo.sid 6000 Demo.request))
      = Some v1
    /\ Demo.resultOf (snd (Verify.verify Demo.libs Demo.evaluated Demo.sid 7000 Demo.request))
      = Some v2
    /\ Verify.reasons v1 = [ "用户交互事件太少"; "没有用户交互事件" ]
    /\ Verify.reasons v2 = []
    /\ Verify.details v1 <> None
    /\ Verify.details v2 = None
    /\ Verify.automationDetected v1 = None
    /\ Verify.automationDetected v2 = Some false.
Proof.
  eexists. eexists. split; [vm_compute; reflexivity|].
  split; [vm_compute; reflexivity|].
  cbn. repeat split; try reflexivity. discriminate.
Qed.

(** C3 (amended): on a session that is verified or rejected, every Evaluate
    call leaves the store as it is and returns the summary computed from the
    stored session alone, whatever the time and the request; repeated calls
    therefore return identical results. *)
Theorem evaluate_decided_is_cached
    (L : Libs) (st : Verify.Store) (sid : string) (s : Verify.Session)
    (now : Z) (req : Request) :
  st !! sid = Some s -> Verify.status s <> Verify.pending ->
  Verify.verify L st sid now req = (st, Verify.VerifyResult (Verify.cachedResult s)).
Proof.
  intros Hs Hp. unfold Verify.verify. rewrite Hs.
  destruct (bool_decide (Verify.status s = Verify.pending)) eqn:E; [|reflexivity].
  apply bool_decide_eq_true in E. contradiction.
Qed.

(** What the summary keeps of the deciding call: the verdict, the score
    (up to the equality of rationals) and, for a rejection, the reasons
    joined into one text. *)
Lemma cached_agrees_with_verdict
    (L : Libs) (st st' : Verify.Store) (sid : string) (s : Verify.Session)
    (now : Z) (req : Request) (v : Verify.VResult) :
  st !! sid = Some s -> Verify.status s = Verify.pending ->
  Verify.verify L st sid now req = (st', Verify.VerifyResult v) ->
  exists s',
    st' !! sid = Some s'
    /\ Verify.status s' <> Verify.pending
    /\ Verify.isHuman (Verify.cachedResult s') = Verify.isHuman v
    /\ (Verify.score (Verify.cachedResult s') == Verify.score v)%Q
    /\ (Verify.isHuman v = false ->
        Verify.rejectionReason s' = Some (join ", " (Verify.reasons v))).
Proof.
  intros Hs Hp. unfold Verify.verify. rewrite Hs, Hp.
  cbn [bool_decide decide_rel negb]. rewrite bool_decide_eq_true_2 by reflexivity.
  cbn [negb].
  set (analysed := match Verify.behavior (Verify.analysis s), Verify.events s with
                   | None, _ :: _ => _
                   | _, _ => _
                   end).
  destruct analysed as [s1|]; [|discriminate].
  intros [= <- <-]. eexists. split; [apply lookup_insert_eq|].
  unfold Verify.decided, Verify.cachedResult.
  cbn [Verify.status Verify.verificationScore Verify.rejectionReason Verify.isHuman
       Verify.score].
  destruct (Verify.isHuman (Verify.verifySession now s1 req)) eqn:Hh.
  - repeat split; try easy.
    destruct (Qeq_bool _ 0) eqn:E; [|reflexivity].
    apply Qeq_bool_eq in E. now rewrite E.
  - repeat split; try easy.
    destruct (Qeq_bool _ 0) eqn:E; [|reflexivity].
    apply Qeq_bool_eq in E. now rewrite E.
Qed.

(** Evaluate on the verified session of [Demo]. *)
Lemma evaluate_decided_is_cached_witness :
  exists s,
    Demo.evaluated !! Demo.sid = Some s
    /\ Verify.verify Demo.libs Demo.evaluated Demo.sid 7000 Demo.request
       = (Demo.evaluated, Verify.VerifyResult (Verify.cachedResult s)).
Proof.
  pose proof demo_evaluated_status as Hv.
  unfold Demo.statusOf in Hv.
  destruct (Demo.evaluated !! Demo.sid) as [s|] eqn:E; [|discriminate Hv].
  exists s. split; [reflexivity|].
  apply (evaluate_decided_is_cached Demo.libs Demo.evaluated Demo.sid s 7000 Demo.request).
  - exact E.
  - cbn in Hv. injection Hv as Hv. rewrite Hv. discriminate.
Defined.

(** ** RecordEvent *)

(** C4, as stated, fails: the verified session of [Demo] has no event; a key
    press posted to it is accepted and appended to its log. *)
Lemma verified_session_accepts_event :
  Demo.statusOf Demo.evaluated = Some Verify.verified
  /\ option_map (fun s => length (Verify.events s)) (Demo.evaluated !! Demo.sid) = Some O
  /\ snd (Verify.recordEvent Demo.libs Demo.evaluated Demo.sid 7000 Demo.request
            "keypress" (Some Demo.keypress))
     = Verify.EventAccepted 1
  /\ option_map (fun s => length (Verify.events s))
       (fst (Verify.recordEvent Demo.libs Demo.evaluated Demo.sid 7000 Demo.request
               "keypress" (Some Demo.keypress)) !! Demo.sid)
     = Some 1%nat.
Proof. vm_compute. repeat split; reflexivity. Qed.

(** C4 (amended): on a rejected session RecordEvent leaves the store, and so
    the event log, as it is and answers with the rejected outcome carrying
    the stored reason; on a session that is pending or verified the event is
    appended to the log. *)
Theorem recordEvent_rejected_or_appended
    (L : Libs) (st : Verify.Store) (sid : string) (s : Verify.Session)
    (now : Z) (req : Request) (ty : string) (data : option EventData) :
  st !! sid = Some s ->
  (Verify.status s = Verify.rejected ->
   Verify.recordEvent L st sid now req ty data
   = (st, Verify.EventRejected (orNullS (Verify.rejectionReason s))))
  /\ (Verify.status s <> Verify.rejected ->
      exists s',
        fst (Verify.recordEvent L st sid now req ty data) !! sid = Some s'
        /\ Verify.events s'
           = (Verify.events s
              ++ [ {| ev_type := ty; ev_data := data; ev_timestamp := now;
                      ev_headers := req_headers req |} ])%list).
Proof.
  intros Hs. unfold Verify.recordEvent. rewrite Hs.
  destruct (decide (Verify.status s = Verify.rejected)) as [E|E].
  - split; [reflexivity|]. intros H. contradiction.
  - split; [intros H; contradiction|]. intros _.
    repeat match goal with
           | |- context [if ?b then _ else _] => destruct b
           | |- context [match ?x with _ => _ end] => destruct x
           end; cbn [fst]; rewrite lookup_insert_eq; eexists; split; reflexivity.
Qed.

(** RecordEvent on the verified session of [Demo]. *)
Lemma recordEvent_rejected_or_appended_witness :
  exists s,
    Demo.evaluated !! Demo.sid = Some s
    /\ (Verify.status s = Verify.rejected ->
        Verify.recordEvent Demo.libs Demo.evaluated Demo.sid 7000 Demo.request
          "keypress" (Some Demo.keypress)
        = (Demo.evaluated, Verify.EventRejected (orNullS (Verify.rejectionReason s))))
    /\ (Verify.status s <> Verify.rejected ->
        exists s',
          fst (Verify.recordEvent Demo.libs Demo.evaluated Demo.sid 7000 Demo.request
                 "keypress" (Some Demo.keypress)) !! Demo.sid = Some s'
          /\ Verify.events s'
             = (Verify.events s
                ++ [ {| ev_type := "keypress"; ev_data := Some Demo.keypress;
                        ev_timestamp := 7000;
                        ev_headers := req_headers Demo.request |} ])%list).
Proof.
  pose proof demo_evaluated_status as Hv. unfold Demo.statusOf in Hv.
  destruct (Demo.evaluated !! Demo.sid) as [s|] eqn:E; [|discriminate Hv].
  exists s. split; [reflexivity|].
  apply (recordEvent_rejected_or_appended Demo.libs Demo.evaluated Demo.sid s 7000
           Demo.request "keypress" (Some Demo.keypress)).
  exact E.
Defined.

(** ** The click-without-movement check *)

Lemma hasClickWithoutMove_intro (evs : list Event) (i : nat) (e : Event) :
  nth_error evs i = Some e -> (0 < i)%nat ->
  ev_type e = "click" ->
  existsb (Behavior.isType "mousemove") (firstn i evs) = false ->
  Verify.hasClickWithoutMove evs = true.
Proof.
  intros Hn Hi Hc Hm. unfold Verify.hasClickWithoutMove.
  apply existsb_exists. exists i. split.
  - apply in_seq. split; [lia|]. cbn. apply nth_error_Some. congruence.
  - assert (Hty : Behavior.isType "click" e = true).
    { unfold Behavior.isType. rewrite Hc. reflexivity. }
    apply Nat.ltb_lt in Hi. now rewrite Hn, Hty, Hi, Hm.
Qed.

(** The session of [Demo] after a click followed by two pointer moves. *)
Lemma demo_clickFirst_types :
  option_map (fun s => List.map ev_type (Verify.events s)) (Demo.clickFirst !! Demo.sid)
  = Some ["click"; "mousemove"; "mousemove"].
Proof. vm_compute. reflexivity. Qed.

(** C6, as stated, fails: the session of [Demo.clickFirst] holds a click as
    its first event, so no pointer move precedes it, yet the check does not
    flag it, and the evaluation carries neither the reason nor the penalty
    (its score is the clamped sum of the other checks). *)
Lemma first_click_is_not_flagged :
  exists s v,
    Demo.clickFirst !! Demo.sid = Some s
    /\ List.map ev_type (Verify.events s) = ["click"; "mousemove"; "mousemove"]
    /\ Verify.suspicious (Verify.analyzeRequestPattern s) = false
    /\ Demo.resultOf
         (snd (Verify.verify Demo.libs Demo.clickFirst Demo.sid 6000 Demo.request))
       = Some v
    /\ Verify.reasons v = ["行为分析: 鼠标移动事件太少"]
    /\ Verify.score v = (350 # 4)%Q.
Proof.
  eexists. eexists. split; [vm_compute; reflexivity|].
  split; [vm_compute; reflexivity|].
  split; [vm_compute; reflexivity|].
  split; [vm_compute; reflexivity|].
  split; reflexivity.
Qed.

(** C6 (amended): for every session of at least three events that holds a
    click at an index above 0 with no pointer move anywhere before it, the
    request-pattern check is suspicious with the click-without-movement
    reason, and verifySession subtracts 20 before the final clamp and
    records that reason last. *)
Theorem click_without_move_is_penalised
    (s : Verify.Session) (now : Z) (req : Request) (i : nat) (e : Event) :
  (3 <= length (Verify.events s))%nat ->
  nth_error (Verify.events s) i = Some e -> (0 < i)%nat ->
  ev_type e = "click" ->
  existsb (Behavior.isType "mousemove") (firstn i (Verify.events s)) = false ->
  Verify.analyzeRequestPattern s
  = {| Verify.suspicious := true;
       Verify.reason := "在没有鼠标移动的情况下进行了点击" |}
  /\ Verify.score (Verify.verifySession now s req)
     = Verify.finalScore (Verify.r_score (Verify.beforePattern now s req) + -20)
  /\ Verify.reasons (Verify.verifySession now s req)
     = (Verify.r_reasons (Verify.beforePattern now s req)
        ++ ["异常的请求模式: 在没有鼠标移动的情况下进行了点击"])%list.
Proof.
  intros Hlen Hn Hi Hc Hm.
  assert (Hp : Verify.analyzeRequestPattern s
               = {| Verify.suspicious := true;
                    Verify.reason := "在没有鼠标移动的情况下进行了点击" |}).
  { unfold Verify.analyzeRequestPattern.
    apply Nat.leb_le in Hlen. rewrite Hlen.
    now rewrite (hasClickWithoutMove_intro _ i e Hn Hi Hc Hm). }
  split; [exact Hp|].
  unfold Verify.verifySession, Verify.stepPattern. rewrite Hp.
  cbn. split; reflexivity.
Qed.

(** A key press, a click and a key press: the click is at index 1. *)
Lemma click_without_move_is_penalised_witness :
  Verify.analyzeRequestPattern Demo.clickSession
  = {| Verify.suspicious := true;
       Verify.reason := "在没有鼠标移动的情况下进行了点击" |}
  /\ Verify.score (Verify.verifySession 6000 Demo.clickSession Demo.request)
     = Verify.finalScore
         (Verify.r_score (Verify.beforePattern 6000 Demo.clickSession Demo.request) + -20)
  /\ Verify.reasons (Verify.verifySession 6000 Demo.clickSession Demo.request)
     = (Verify.r_reasons (Verify.beforePattern 6000 Demo.clickSession Demo.request)
        ++ ["异常的请求模式: 在没有鼠标移动的情况下进行了点击"])%list.
Proof.
  apply (click_without_move_is_penalised Demo.clickSession 6000 Demo.request 1
           (Demo.bare "click" 2100)).
  - cbn. lia.
  - reflexivity.
  - lia.
  - reflexivity.
  - reflexivity.
Defined.

(** ** The serialisation of the fingerprint components *)
(** ** The rendering of numbers *)
Section NumberRendering.
#[local] Arguments String.append !_ _ / : simpl nomatch.

Lemma append_assoc (a b c : string) : (a ++ b) ++ c = a ++ (b ++ c).
Proof. induction a as [|x a IH]; cbn [append]; [reflexivity|f_equal; exact IH]. Qed.


Lemma append_empty_r s : s ++ "" = s.
Proof. induction s as [|c s IH]; cbn; [reflexivity|now rewrite IH]. Qed.

Lemma strlength_app a b : String.length (a ++ b) = (String.length a + String.length b)%nat.
Proof. induction a as [|x a IH]; cbn; [reflexivity|now rewrite IH]. Qed.


















Lemma Z2Nat_strlen s : Z.to_nat (strlen s) = String.length s.
Proof. unfold strlen. apply Nat2Z.id. Qed.
















End NumberRendering.

Section Serialisation.
Import Fingerprint.
#[local] Arguments String.append !_ _ / : simpl nomatch.

Lemma append_inv_head (p a b : string) : p ++ a = p ++ b -> a = b.
Proof. induction p as [|x p IH]; cbn [append]; [easy|]. intros [= H]. auto. Qed.


Lemma decode1_quote r : decode1 (String dquote r) = None.
Proof. reflexivity. Qed.






















(** Arrays of strings *)








(** The members of the object, one after the other. *)
Ltac strip H := apply append_inv_head in H.
Ltac key H := strip H; strip H.


End Serialisation.


(** ** The fingerprint hash *)








(** A number that is not finite is serialised as [null], like a missing
    one: the two snapshots differ in their components and have the same
    hash. *)
Lemma infinite_number_is_hashed_as_missing :
  Fingerprint.c_pixelRatio (Fingerprint.extractFingerprintComponents Demo.infiniteInfo)
  = Some (S754_infinity false)
  /\ Fingerprint.c_pixelRatio (Fingerprint.extractFingerprintComponents Demo.noRatioInfo)
     = None
  /\ Fingerprint.generateFingerprintHash
       (Fingerprint.extractFingerprintComponents Demo.infiniteInfo)
     = Fingerprint.generateFingerprintHash
         (Fingerprint.extractFingerprintComponents Demo.noRatioInfo).
Proof. vm_compute. repeat split; reflexivity. Qed.

(** The rendering of numbers, on integers, fractions and the ends of the
    range. *)
Example numbers_rendered :
  List.map Fingerprint.numS
    [ ofZ 24; ofZ (-300); ofZ 0; dyadic 5 (-2); dyadic 1 (-1); dyadic 1 (-20);
      dyadic 1 70; dyadic 1 (-1074); dyadic 7205759403792794 (-56);
      ofZ (10 ^ 21); ofZ (10 ^ 20); S754_infinity false; S754_nan ]
  = [ "24"; "-300"; "0"; "1.25"; "0.5"; "9.5367431640625e-7";
      "1.1805916207174113e+21"; "5e-324"; "0.1";
      "1e+21"; "100000000000000000000"; "null"; "null" ].
Proof. vm_compute. reflexivity. Qed.

(** The rounding of a fraction to a double agrees with the division of
    the standard library where both apply. *)
Example rounding_agrees_with_division :
  List.map (fun '(p, q) => sameN (roundQ (p # q)) (SFdiv 53 1024 (ofZ p) (ofZ (Zpos q))))
    [ (1, 3%positive); (1, 10%positive); (2, 3%positive); (22, 7%positive);
      (1, 1000000%positive); (123456789, 1000%positive) ]
  = [ true; true; true; true; true; true ].
Proof. vm_compute. reflexivity. Qed.

(** The digest function on the test vectors of the standard. *)
Example sha256_empty :
  Sha256.SHA256 EmptyString
  = "e3b0c44298fc1c149afbf4c8996fb92427ae41e4649b934ca495991b7852b855".
Proof. vm_compute. reflexivity. Qed.

Example sha256_abc :
  Sha256.SHA256 "abc"
  = "ba7816bf8f01cfea414140de5dae2223b00361a396177a9cb410ff61f20015ad".
Proof. vm_compute. reflexivity. Qed.

Example sha256_two_blocks :
  Sha256.SHA256 "abcdbcdecdefdefgefghfghighijhijkijkljklmklmnlmnomnopnopq"
  = "248d6a61d20638b8e5c026930c3e6039a33ce45964ff2167f6ecedd419db06c1".
Proof. vm_compute. reflexivity. Qed.

(** A change of a hashed component, here the language, changes the hash. *)
Example language_changes_the_hash :
  Fingerprint.generateFingerprintHash
    (Fingerprint.extractFingerprintComponents Demo.info1)
  = "a061b456f7933a34ea3eeca22b0d598ba1456bff615924dfb29633aae5cdc77e"
  /\ Fingerprint.generateFingerprintHash
       (Fingerprint.extractFingerprintComponents Demo.frenchInfo)
     <> "a061b456f7933a34ea3eeca22b0d598ba1456bff615924dfb29633aae5cdc77e".
Proof. vm_compute. split; [reflexivity|discriminate]. Qed.

(* ===================================================================== *)
(** * Further properties

    Properties of the code around the routes: the fingerprint and
    network analyzers, the detector as the init route calls it, the
    behaviour sub-analyses, verifySession, the store over sequences of
    requests, the hash of the SDK and the first version of the router. *)
(* ===================================================================== *)

(** Names the value of the outermost [let] of the goal. *)
Ltac name_let :=
  lazymatch goal with
  | |- context C [let x := ?v in @?b x] =>
      let y := fresh "stage" in
      pose (y := v);
      let g := context C [b y] in
      let g' := eval cbv beta in g in
      change g'
  end.

(** ** The fingerprint analyzer *)
Section FingerprintFacts.
Import Fingerprint Inv.

Lemma subClean_sub0 : subClean sub0.
Proof. intros _. cbn. lia. Qed.

Lemma subClean_bad msg d r : subClean (bad msg d r).
Proof. unfold subClean. cbn. destruct (sanomalies r); discriminate. Qed.

Lemma subClean_good d r : 0 <= d -> subClean r -> subClean (good d r).
Proof. unfold subClean. cbn. intros Hd Hr H. specialize (Hr H). lia. Qed.

Ltac clean :=
  repeat first
    [ apply subClean_bad
    | apply subClean_sub0
    | apply subClean_good; [lia|]
    | match goal with
      | |- context [if ?b then _ else _] => destruct b
      | |- context [match ?x with _ => _ end] => destruct x
      end ].

Lemma subClean_canvas fp : subClean (analyzeCanvasFingerprint fp).
Proof. unfold analyzeCanvasFingerprint. clean. Qed.

Lemma subClean_webgl fp v r : subClean (analyzeWebGLFingerprint fp v r).
Proof. unfold analyzeWebGLFingerprint. clean. Qed.

Lemma subClean_audio fp : subClean (analyzeAudioFingerprint fp).
Proof. unfold analyzeAudioFingerprint. clean. Qed.

Lemma subClean_fonts fs : subClean (analyzeFonts fs).
Proof. unfold analyzeFonts. clean. Qed.

Lemma subClean_plugins p : subClean (analyzePlugins p).
Proof. unfold analyzePlugins. clean. Qed.

Lemma subClean_screen res cd pr : subClean (analyzeScreenInfo res cd pr).
Proof. unfold analyzeScreenInfo. clean. Qed.

Lemma subClean_hardware hc dm : subClean (analyzeHardwareInfo hc dm).
Proof. unfold analyzeHardwareInfo. clean. Qed.

Lemma subClean_timezone tz off : subClean (analyzeTimezone tz off).
Proof. unfold analyzeTimezone. clean. Qed.

Lemma subClean_touch t m : subClean (analyzeTouchSupport t m).
Proof. unfold analyzeTouchSupport. clean. Qed.

Lemma accClean_merge reason s a :
  subClean s -> accClean a -> accClean (merge reason s a).
Proof.
  unfold subClean, accClean, merge. intros Hs [Ha Hl]. cbn. split.
  - intros H. apply app_eq_nil in H as [H1 H2]. specialize (Hs H2). specialize (Ha H1). lia.
  - destruct (sanomalies s); rewrite !length_app; cbn; lia.
Qed.

Lemma accClean_missing msg w d a : accClean a -> accClean (missing msg w d a).
Proof.
  unfold accClean, missing. intros [Ha Hl]. cbn. split.
  - intros H. apply app_eq_nil in H as [_ H]. discriminate H.
  - destruct w; rewrite !length_app; cbn; lia.
Qed.

Lemma accClean_checks c : accClean (checks c).
Proof.
  unfold checks. cbv zeta.
  apply accClean_merge; [apply subClean_touch|].
  repeat match goal with
         | |- accClean (if ?b then _ else _) => destruct b
         | |- accClean (match ?x with _ => _ end) => destruct x
         | |- accClean (merge _ _ _) => apply accClean_merge
         | |- accClean (missing _ _ _ _) => apply accClean_missing
         | |- subClean _ =>
             first [ apply subClean_canvas | apply subClean_webgl | apply subClean_audio
                   | apply subClean_fonts | apply subClean_plugins | apply subClean_screen
                   | apply subClean_hardware | apply subClean_timezone ]
         end.
  all: split; cbn; lia.
Qed.

Lemma analyzeFingerprint_clean ci :
  anomalies (analyzeFingerprint (Some ci)) = [] ->
  50 <= score (analyzeFingerprint (Some ci)).
Proof.
  unfold analyzeFingerprint. cbn [anomalies score]. intros H.
  pose proof (proj1 (accClean_checks (extractFingerprintComponents ci)) H). lia.
Qed.

End FingerprintFacts.

(** X1: a fingerprint analysis that lists no anomaly has a score of at
    least 50 (every point below the base score comes with an anomaly),
    except on missing client information, where the score is 0, no anomaly
    is listed and the one reason says so. *)
Theorem clean_fingerprint_keeps_the_base_score (ci : option ClientInfo) :
  Fingerprint.anomalies (Fingerprint.analyzeFingerprint ci) = [] ->
  50 <= Fingerprint.score (Fingerprint.analyzeFingerprint ci)
  \/ (ci = None
      /\ Fingerprint.score (Fingerprint.analyzeFingerprint ci) = 0
      /\ Fingerprint.reasons (Fingerprint.analyzeFingerprint ci) = ["缺少客户端信息"]).
Proof.
  destruct ci as [ci|]; [|intros _; right; repeat split; reflexivity].
  unfold Fingerprint.analyzeFingerprint.
  cbn [Fingerprint.anomalies Fingerprint.score]. intros H. left.
  pose proof (proj1 (accClean_checks (Fingerprint.extractFingerprintComponents ci)) H). lia.
Qed.

(** The snapshot of [Demo] has no anomaly. *)
Lemma clean_fingerprint_keeps_the_base_score_witness :
  50 <= Fingerprint.score (Fingerprint.analyzeFingerprint (Some Demo.info1))
  \/ (Some Demo.info1 = None
      /\ Fingerprint.score (Fingerprint.analyzeFingerprint (Some Demo.info1)) = 0
      /\ Fingerprint.reasons (Fingerprint.analyzeFingerprint (Some Demo.info1))
         = ["缺少客户端信息"]).
Proof.
  apply (clean_fingerprint_keeps_the_base_score (Some Demo.info1)). vm_compute. reflexivity.
Defined.

(** X2: the fingerprint analysis never gives more reasons than anomalies
    (a reason is recorded only together with at least one anomaly), except
    on missing client information, where it gives one reason and no
    anomaly. *)
Theorem fingerprint_reasons_come_with_anomalies (ci : option ClientInfo) :
  (length (Fingerprint.reasons (Fingerprint.analyzeFingerprint ci))
   <= length (Fingerprint.anomalies (Fingerprint.analyzeFingerprint ci)))%nat
  \/ (ci = None
      /\ Fingerprint.reasons (Fingerprint.analyzeFingerprint ci) = ["缺少客户端信息"]
      /\ Fingerprint.anomalies (Fingerprint.analyzeFingerprint ci) = []).
Proof.
  destruct ci as [ci|]; [left|right; repeat split; reflexivity].
  unfold Fingerprint.analyzeFingerprint.
  cbn [Fingerprint.anomalies Fingerprint.reasons].
  exact (proj2 (accClean_checks (Fingerprint.extractFingerprintComponents ci))).
Qed.

(** *** The plugin names, from the SDK to the analyzer *)
Section PluginNames.
Import Fingerprint.
#[local] Arguments String.append !_ _ / : simpl nomatch.

Lemma includes_comma_cons c s :
  includes (String c s) "," = false -> Ascii.eqb c "," = false /\ includes s "," = false.
Proof.
  cbn [includes String.prefix]. intros H. apply orb_false_iff in H as [H1 H2].
  split; [|exact H2].
  destruct (Ascii.eqb c ",") eqn:E; [|reflexivity].
  apply Ascii.eqb_eq in E. subst c. cbn in H1. destruct s; discriminate H1.
Qed.

(** A name without comma, followed by a comma: the first piece. *)
Lemma split_name x r :
  includes x "," = false -> split "," (x ++ String "," r) = x :: split "," r.
Proof.
  induction x as [|c x IH]; intros H.
  - cbn [append split]. reflexivity.
  - apply includes_comma_cons in H as [Hc Hx].
    cbn [append split]. rewrite Hc, (IH Hx). reflexivity.
Qed.

Lemma split_last x : includes x "," = false -> split "," x = [x].
Proof.
  induction x as [|c x IH]; intros H; [reflexivity|].
  apply includes_comma_cons in H as [Hc Hx].
  cbn [split]. rewrite Hc, (IH Hx). reflexivity.
Qed.

Lemma split_join names :
  names <> [] -> Forall (fun x => includes x "," = false) names ->
  split "," (join "," names) = names.
Proof.
  intros Hne H. induction H as [|x l Hx Hl IH]; [contradiction|].
  destruct l as [|y l].
  - cbn [join]. now apply split_last.
  - change (join "," (x :: y :: l)) with (x ++ String "," (join "," (y :: l))).
    rewrite split_name by exact Hx. f_equal. apply IH. discriminate.
Qed.

Lemma filter_trim_length names :
  Forall (fun x => trim x <> EmptyString) names ->
  length (List.filter (fun x => truthyS (Some x)) (List.map trim names)) = length names.
Proof.
  induction 1 as [|x l Hx Hl IH]; [reflexivity|].
  cbn [List.map List.filter]. destruct (trim x) as [|c t]; [contradiction|].
  cbn [truthyS length]. f_equal. exact IH.
Qed.

End PluginNames.

(** X3: when no plugin name contains a comma and none is blank (empty once
    trimmed of its white space, Unicode white space included), the number
    of plugins that the fingerprint analyzer counts in the text sent by the
    SDK is the number of plugins of the browser; its verdict follows that
    number (none: missing, one or two: too few, three or more: normal). *)
Theorem plugin_count_survives_the_wire (names : list string) :
  Forall (fun x => includes x "," = false /\ trim x <> EmptyString) names ->
  length (Fingerprint.pluginArray (PStr (Sdk.getPlugins (Some names)))) = length names
  /\ Fingerprint.analyzePlugins (PStr (Sdk.getPlugins (Some names)))
     = match names with
       | [] => Fingerprint.bad "缺少插件信息" 0 Fingerprint.sub0
       | [_] | [_; _] => Fingerprint.bad "插件数量异常少" (-5) Fingerprint.sub0
       | _ => Fingerprint.good 5 Fingerprint.sub0
       end.
Proof.
  intros H.
  assert (Hc : Forall (fun x => includes x "," = false) names)
    by exact (List.Forall_impl _ (fun x Hx => proj1 Hx) H).
  assert (Ht : Forall (fun x => trim x <> EmptyString) names)
    by exact (List.Forall_impl _ (fun x Hx => proj2 Hx) H).
  destruct names as [|x l]; [split; reflexivity|].
  assert (Hlen : length (Fingerprint.pluginArray (PStr (Sdk.getPlugins (Some (x :: l)))))
                 = length (x :: l)).
  { unfold Fingerprint.pluginArray, Sdk.getPlugins.
    rewrite split_join by (discriminate || exact Hc). now apply filter_trim_length. }
  split; [exact Hlen|].
  assert (Hne : Sdk.getPlugins (Some (x :: l)) <> EmptyString).
  { intros E. rewrite E in Hlen. discriminate Hlen. }
  unfold Fingerprint.analyzePlugins.
  destruct (Sdk.getPlugins (Some (x :: l))) as [|c s] eqn:E; [contradiction|].
  rewrite Hlen. destruct l as [|y [|z l]]; try reflexivity.
  cbn [length].
  replace (Z.of_nat (S (S (S (length l)))) =? 0) with false by (symmetry; apply Z.eqb_neq; lia).
  replace (Z.of_nat (S (S (S (length l)))) <? 3) with false by (symmetry; apply Z.ltb_ge; lia).
  reflexivity.
Qed.

(** The three plugins of a current Chrome. *)
Lemma plugin_count_survives_the_wire_witness :
  length (Fingerprint.pluginArray (PStr (Sdk.getPlugins (Some Scenario.pluginNames))))
  = length Scenario.pluginNames
  /\ Fingerprint.analyzePlugins (PStr (Sdk.getPlugins (Some Scenario.pluginNames)))
     = Fingerprint.good 5 Fingerprint.sub0.
Proof.
  apply (plugin_count_survives_the_wire Scenario.pluginNames).
  repeat constructor; try reflexivity; vm_compute; discriminate.
Defined.

(** A name made of a no-break space (U+00A0) or of an ideographic space
    (U+3000) is blank: alone, it is counted as no plugin. *)
Example blank_name_is_no_plugin :
  trim (String "194" (String "160" EmptyString)) = EmptyString
  /\ trim (" a" ++ String "227" (String "128" (String "128" EmptyString))) = "a"
  /\ Fingerprint.analyzePlugins (PStr (Sdk.getPlugins
         (Some [String "194" (String "160" EmptyString)])))
     = Fingerprint.bad "没有浏览器插件" (-10) Fingerprint.sub0.
Proof. vm_compute. repeat split; reflexivity. Qed.

(** ** The network analyzer *)
Section NetworkFacts.
Import Network Inv.
Context (L : Libs).

Lemma netClean_note msg d r : netClean (note msg d r).
Proof. unfold netClean. cbn. destruct (reasons r); discriminate. Qed.

Lemma netClean_plus d r : 0 <= d -> netClean r -> netClean (plus d r).
Proof. unfold netClean. cbn. intros Hd Hr H. specialize (Hr H). lia. Qed.

Lemma netClean_rebuild r a b c d e :
  netClean r ->
  netClean {| score := score r; reasons := reasons r; ipInfo := a; proxied := b;
              vpnDetected := c; datacenterIP := d; ipTimezoneMatch := e |}.
Proof. unfold netClean. cbn. auto. Qed.

Ltac descend :=
  repeat match goal with
         | |- netClean (note _ _ _) => apply netClean_note
         | |- netClean (plus _ _) => apply netClean_plus; [lia|]
         | |- netClean (Build_Result (score ?r) (reasons ?r) _ _ _ _ _) =>
             apply netClean_rebuild
         | |- netClean (if ?b then _ else _) => destruct b
         | |- netClean (match ?x with _ => _ end) => destruct x
         | |- netClean ?r => is_var r; unfold r; clear r
         end.

Lemma publicChecks_clean ci req ip : netClean (publicChecks L ci req ip).
Proof.
  cbv beta delta [publicChecks]. repeat name_let. descend.
  all: intros _; cbn; lia.
Qed.

Lemma analyzeNetwork_clean ci req :
  reasons (analyzeNetwork L ci req) = [] -> 50 <= score (analyzeNetwork L ci req).
Proof.
  unfold analyzeNetwork.
  destruct (getClientIp req) as [[|a ip]|]; cbn; try discriminate.
  destruct (isPrivateIP L (String a ip)); cbn; try discriminate.
  intros H. pose proof (publicChecks_clean ci req (String a ip) H). lia.
Qed.

Lemma checkProxyHeaders_forwarded hs :
  truthyS (hget hs "x-forwarded-for") = true -> checkProxyHeaders hs <> [].
Proof.
  intros H E. unfold checkProxyHeaders in E. apply app_eq_nil in E as [E _].
  apply map_eq_nil in E.
  assert (Hin : In "x-forwarded-for"
                  (List.filter (fun h => truthyS (hget hs h)) proxyHeaders)).
  { apply List.filter_In. split; [|exact H]. cbn. tauto. }
  rewrite E in Hin. exact Hin.
Qed.

Lemma relayed_note b msg d r : d <= 0 -> relayed b r -> relayed b (note msg d r).
Proof. unfold relayed. cbn. intros Hd [H1 H2]. split; [exact H1|lia]. Qed.

Lemma relayed_plus b d r : relayed b r -> relayed (b + d) (plus d r).
Proof. unfold relayed. cbn. intros [H1 H2]. split; [exact H1|lia]. Qed.

Lemma relayed_weaken b b' r : b <= b' -> relayed b r -> relayed b' r.
Proof. unfold relayed. intros Hb [H1 H2]. split; [exact H1|lia]. Qed.

Lemma publicChecks_geo ci ip :
  let geoData := geoip_lookup L ip in
  let r0 := {| score := 0; reasons := []; ipInfo := geoData; proxied := false;
               vpnDetected := false; datacenterIP := false; ipTimezoneMatch := true |} in
  forall r1,
    r1 = match geoData with
         | None => note "无法获取IP地理位置信息" (-10) r0
         | Some _ =>
             let ra :=
               if truthyS (timezone ci) then
                 let m := checkIpTimezoneMatch geoData (timezone ci) in
                 let rm := {| score := score r0; reasons := reasons r0; ipInfo := ipInfo r0;
                              proxied := false; vpnDetected := false; datacenterIP := false;
                              ipTimezoneMatch := m |} in
                 if negb m then note "IP地址与时区不匹配" (-20) rm else plus 20 rm
               else r0 in
             if truthyS (language ci) then
               if negb (checkIpLanguageMatch geoData (language ci))
               then note "IP地址与语言不匹配" (-10) ra else plus 10 ra
             else ra
         end ->
    score r1 <= 30.
Proof.
  intros geoData r0 r1 ->. destruct geoData; [|cbn; lia]. cbv zeta.
  destruct (truthyS (timezone ci)), (truthyS (language ci));
    repeat match goal with |- context [if ?b then _ else _] => destruct b end; cbn; lia.
Qed.

Lemma publicChecks_relayed ci req ip :
  checkProxyHeaders (req_headers req) <> [] -> relayed 25 (publicChecks L ci req ip).
Proof.
  intros Hp. cbv beta delta [publicChecks]. repeat name_let.
  assert (H1 : score stage1 <= 30) by (apply (publicChecks_geo ci ip); reflexivity).
  assert (H3 : relayed 0 stage3).
  { unfold stage3. fold stage2 in Hp. destruct stage2; [contradiction|].
    cbv zeta. unfold relayed. cbn [proxied score note]. split; [reflexivity|lia]. }
  assert (H5 : relayed 0 stage5) by exact H3.
  assert (H6 : relayed 0 stage6).
  { unfold stage6. destruct stage4; [apply relayed_note; [lia|]|]; exact H5. }
  assert (H8 : relayed 0 stage8) by exact H6.
  assert (H9 : relayed 0 stage9).
  { unfold stage9. destruct stage7; [apply relayed_note; [lia|]|]; exact H8. }
  assert (H11 : relayed 15 stage11).
  { unfold stage11. destruct stage10.
    - apply (relayed_plus 0 15). exact H9.
    - apply relayed_note; [lia|]. apply (relayed_weaken 0); [lia|exact H9]. }
  clearbody stage11.
  destruct (req_cipher req) as [[cipher|]|].
  - destruct (checkTLSFingerprint cipher).
    + apply (relayed_plus 15 10). exact H11.
    + apply relayed_note; [lia|]. apply (relayed_weaken 15); [lia|exact H11].
  - apply (relayed_weaken 15); [lia|exact H11].
  - apply (relayed_weaken 15); [lia|exact H11].
Qed.

Lemma dead_branch (a b c : bool) : a && b && c && negb b = false.
Proof. now destruct a, b, c. Qed.

End NetworkFacts.

(** X4: a network analysis that gives no reason has a score of at least 50;
    in particular a request without usable address, or from a private or
    loopback address, always comes with a reason. *)
Theorem clean_network_keeps_the_base_score (L : Libs) (ci : ClientInfo) (req : Request) :
  Network.reasons (Network.analyzeNetwork L ci req) = [] ->
  50 <= Network.score (Network.analyzeNetwork L ci req)
  /\ exists ip, Network.getClientIp req = Some ip /\ Network.isPrivateIP L ip = false.
Proof.
  unfold Network.analyzeNetwork.
  destruct (Network.getClientIp req) as [[|a ip]|]; cbn [Network.reasons Network.note
    Network.init]; try discriminate.
  destruct (Network.isPrivateIP L (String a ip)) eqn:E; cbn [Network.reasons Network.note
    Network.init Network.score]; try discriminate.
  intros H. pose proof (publicChecks_clean L ci req (String a ip) H).
  split; [lia|]. exists (String a ip). split; [reflexivity|exact E].
Qed.

(** The request of [Demo], from a public address located in the country of
    its time zone and language. *)
Lemma clean_network_keeps_the_base_score_witness :
  50 <= Network.score (Network.analyzeNetwork Demo.libs Demo.info1 Demo.request)
  /\ exists ip, Network.getClientIp Demo.request = Some ip
                /\ Network.isPrivateIP Demo.libs ip = false.
Proof.
  apply (clean_network_keeps_the_base_score Demo.libs Demo.info1 Demo.request).
  vm_compute. reflexivity.
Defined.

(** X5: for a request that carries at least one of the headers that
    [checkProxyHeaders] looks for, the network analysis either marks the
    result as proxied or stops early, on a missing or private client
    address, with a score of at most 10; in every case the score is at
    most 75. *)
Theorem relayed_request_is_proxied (L : Libs) (ci : ClientInfo) (req : Request) :
  Network.checkProxyHeaders (req_headers req) <> [] ->
  let r := Network.analyzeNetwork L ci req in
  (Network.proxied r = true \/ Network.score r <= 10) /\ Network.score r <= 75.
Proof.
  intros Hx r. subst r. unfold Network.analyzeNetwork.
  destruct (Network.getClientIp req) as [[|a ip]|]; cbn [Network.score Network.note
    Network.init Network.proxied]; try (split; [right|]; lia).
  destruct (Network.isPrivateIP L (String a ip)); cbn [Network.score Network.note
    Network.init Network.proxied]; try (split; [right|]; lia).
  destruct (publicChecks_relayed L ci req (String a ip) Hx) as [H1 H2].
  split; [left; exact H1|lia].
Qed.

(** The request of [Demo] behind a reverse proxy. *)
Lemma relayed_request_is_proxied_witness :
  (Network.proxied (Network.analyzeNetwork Demo.libs Demo.info1 Scenario.forwardedRequest)
   = true
   \/ Network.score (Network.analyzeNetwork Demo.libs Demo.info1 Scenario.forwardedRequest)
      <= 10)
  /\ Network.score (Network.analyzeNetwork Demo.libs Demo.info1 Scenario.forwardedRequest)
     <= 75.
Proof.
  apply (relayed_request_is_proxied Demo.libs Demo.info1 Scenario.forwardedRequest).
  apply checkProxyHeaders_forwarded. reflexivity.
Defined.

(** X6: the header check reports an inconsistency exactly when the Accept
    header is present without text/html and either Accept-Language is
    present and Accept mentions application/json, or the User-Agent names
    chrome, firefox or safari.  In particular a request without Accept
    header, or whose Accept header mentions text/html, is consistent. *)
Theorem header_consistency_depends_on_accept (hs : Headers) :
  Network.checkHeaderConsistency hs <> []
  <-> truthyS (hget hs "accept") = true
      /\ Network.headerIncludes hs "accept" "text/html" = false
      /\ ((truthyS (hget hs "accept-language") = true
           /\ Network.headerIncludes hs "accept" "application/json" = true)
          \/ (truthyS (hget hs "user-agent") = true /\ Network.claimsBrowser hs = true)).
Proof.
  unfold Network.checkHeaderConsistency. cbv zeta. rewrite dead_branch.
  destruct (truthyS (hget hs "accept")), (truthyS (hget hs "accept-language")),
    (truthyS (hget hs "user-agent")), (Network.headerIncludes hs "accept" "text/html"),
    (Network.headerIncludes hs "accept" "application/json"), (Network.claimsBrowser hs);
    cbn; split; intros H; try discriminate; try easy; try tauto;
    try (exfalso; apply H; reflexivity); intuition discriminate.
Qed.

(** X7: the third test of the header check can never succeed (it asks for
    an Accept-Language header that is both present and absent): the reason
    "User-Agent与Accept-Language头不一致" is never reported. *)
Theorem accept_language_reason_is_never_reported (hs : Headers) :
  ~ In "User-Agent与Accept-Language头不一致" (Network.checkHeaderConsistency hs).
Proof.
  unfold Network.checkHeaderConsistency. cbv zeta. rewrite dead_branch.
  rewrite app_nil_r. intros H. apply in_app_or in H.
  destruct H as [H|H].
  - destruct (_ && _); [|exact H]. destruct H as [H|[]]. discriminate H.
  - destruct (_ && _); [|exact H]. destruct H as [H|[]]. discriminate H.
Qed.

(** ** The detector on the snapshot of the init route *)
Section ServerSnapshot.
Import Automation Inv.
Context (L : Libs).

(** The snapshot built by the init route has neither [navigator] nor
    [window]: the detector works on the two empty objects. *)
Lemma makeClientInfo_navigator req body :
  withDefault emptyNavigator (navigator (Verify.makeClientInfo L req body))
  = Some emptyNavigator.
Proof. reflexivity. Qed.

Lemma makeClientInfo_window req body :
  withDefault emptyWindow (window (Verify.makeClientInfo L req body)) = Some emptyWindow.
Proof. reflexivity. Qed.

Lemma toolSteps_quiet req body :
  match hget (req_headers req) "user-agent" with
  | Some ua => toolKeyword ua = false
  | None => True
  end ->
  toolSteps (Verify.makeClientInfo L req body) = init.
Proof.
  intros H. unfold toolSteps. cbv zeta.
  rewrite makeClientInfo_navigator, makeClientInfo_window.
  cbn [userAgent Verify.makeClientInfo].
  destruct (hget (req_headers req) "user-agent") as [ua|]; [|reflexivity].
  unfold toolKeyword in H. apply orb_false_iff in H as [H Hpw].
  apply orb_false_iff in H as [H Hhc]. apply orb_false_iff in H as [Hs1 Hs2].
  unfold detectSelenium, detectPuppeteer, detectPlaywright.
  destruct (negb (truthyS (Some ua))); [reflexivity|].
  rewrite Hs1, Hs2, Hhc, Hpw. reflexivity.
Qed.

Lemma languageStep_server hs r : languageStep hs emptyNavigator r = r.
Proof.
  unfold languageStep. cbn [nav_language emptyNavigator].
  now destruct (hget hs "accept-language") as [[|? ?]|].
Qed.

Lemma detectBrowserInconsistency_server ua hs :
  score (detectBrowserInconsistency L ua hs (Some emptyNavigator)) <= 30.
Proof.
  unfold detectBrowserInconsistency, parseError.
  destruct ua as [u|]; [|cbn; lia].
  destruct (negb _); [cbn; lia|].
  destruct (bowser_parse L u) as [p|]; [|cbn; lia].
  destruct (device_parse L u) as [d|]; [|cbn; lia].
  cbn [platformStep nav_platform emptyNavigator]. rewrite languageStep_server.
  unfold namesStep.
  repeat match goal with
         | |- context [match ?x with _ => _ end] => destruct x
         end; cbn; lia.
Qed.

Lemma signalSteps_server req body :
  automationScore (signalSteps L (Verify.makeClientInfo L req body))
  <= automationScore (toolSteps (Verify.makeClientInfo L req body)) + 55.
Proof.
  unfold signalSteps. cbv zeta. rewrite makeClientInfo_navigator.
  generalize (toolSteps (Verify.makeClientInfo L req body)). intros r4.
  pose proof (detectBrowserInconsistency_server
                (userAgent (Verify.makeClientInfo L req body))
                (headers (Verify.makeClientInfo L req body))) as Hinc.
  assert (Hua : checkUserAgentConsistency (userAgent (Verify.makeClientInfo L req body))
                  (headers (Verify.makeClientInfo L req body)) = true).
  { unfold checkUserAgentConsistency. cbn [userAgent headers Verify.makeClientInfo].
    destruct (negb _); [reflexivity|].
    rewrite bool_decide_eq_true_2 by reflexivity. now rewrite andb_false_r. }
  rewrite Hua. cbn [negb when].
  change (detectAbnormalPluginCount (Some emptyNavigator)) with false.
  change (detectAbnormalHardwareConcurrency (Some emptyNavigator)) with false.
  cbn [when].
  destruct (detected _), (detectAbnormalScreenSize _), (detectAbnormalTimezone _),
    (detectAbnormalLanguage _ _); cbn [when addScore automationScore]; lia.
Qed.

End ServerSnapshot.

(** X8: CreateSession rejects a session only when the User-Agent header
    carries one of the keywords Selenium, selenium, HeadlessChrome or
    Playwright: nothing that the client reports in the snapshot (webdriver
    flag, automation flags, plugins) can lead to a rejection at creation. *)
Theorem creation_rejects_on_user_agent_keywords
    (L : Libs) (sid : string) (now : Z) (req : Request) (body : Body) :
  Verify.status (Verify.newSession L sid now req body) = Verify.rejected ->
  exists ua,
    hget (req_headers req) "user-agent" = Some ua
    /\ (includes ua "Selenium" || includes ua "selenium"
        || includes ua "HeadlessChrome" || includes ua "Playwright") = true.
Proof.
  unfold Verify.newSession. cbv zeta. cbn [Verify.status].
  destruct (_ && _) eqn:E; [|discriminate]. intros _.
  apply andb_true_iff in E as [_ E]. apply Z.ltb_lt in E.
  rewrite detectAutomation_score in E.
  pose proof (signalSteps_server L req body) as Hs.
  destruct (hget (req_headers req) "user-agent") as [ua|] eqn:Hua.
  - exists ua. split; [reflexivity|].
    destruct (Inv.toolKeyword ua) eqn:Hk; [exact Hk|].
    rewrite (toolSteps_quiet L req body) in Hs by now rewrite Hua.
    cbn in Hs. lia.
  - rewrite (toolSteps_quiet L req body) in Hs by now rewrite Hua.
    cbn in Hs. lia.
Qed.

(** The headless request of [Demo], rejected at creation. *)
Lemma creation_rejects_on_user_agent_keywords_witness :
  exists ua,
    hget (req_headers Demo.headlessRequest) "user-agent" = Some ua
    /\ (includes ua "Selenium" || includes ua "selenium"
        || includes ua "HeadlessChrome" || includes ua "Playwright") = true.
Proof.
  apply (creation_rejects_on_user_agent_keywords Demo.libs Demo.sid 1000
           Demo.headlessRequest (Demo.snapshot true)).
  vm_compute. reflexivity.
Defined.

(** X9: the automation verdict of the init route depends on the request
    headers and on the reported screen resolution and time zone only: two
    snapshots that agree on these two fields get the same result from the
    same request, whatever webdriver flag, automation flags, plugins or
    other fields they report. *)
Theorem creation_verdict_ignores_client_flags
    (L : Libs) (req : Request) (b1 b2 : Body) :
  b_screenResolution b1 = b_screenResolution b2 ->
  b_timezone b1 = b_timezone b2 ->
  Automation.detectAutomation L (Verify.makeClientInfo L req b1)
  = Automation.detectAutomation L (Verify.makeClientInfo L req b2).
Proof.
  intros Hr Ht.
  unfold Automation.detectAutomation, Automation.signalSteps, Automation.toolSteps,
    Automation.detectAbnormalScreenSize, Automation.detectAbnormalTimezone.
  cbn [Verify.makeClientInfo userAgent headers navigator window screenResolution timezone].
  now rewrite Hr, Ht.
Qed.

(** The snapshots of [Demo] with and without the webdriver flag. *)
Lemma creation_verdict_ignores_client_flags_witness :
  Automation.detectAutomation Demo.libs
    (Verify.makeClientInfo Demo.libs Demo.request (Demo.snapshot false))
  = Automation.detectAutomation Demo.libs
      (Verify.makeClientInfo Demo.libs Demo.request (Demo.snapshot true)).
Proof.
  apply (creation_verdict_ignores_client_flags Demo.libs Demo.request
           (Demo.snapshot false) (Demo.snapshot true)); reflexivity.
Defined.

(** ** The behaviour sub-analyses *)
Section ClickFacts.
Import Behavior.

Lemma fold_sumZ l a : fold_left Z.add l a = a + sumZ l.
Proof.
  unfold sumZ. revert a. induction l as [|x l IH]; intros a; cbn; [lia|].
  rewrite IH, (IH (0 + x)). lia.
Qed.

Lemma last_cons {A} (u d : A) l : List.last (u :: l) d = List.last l u.
Proof.
  revert u d. induction l as [|v l IH]; intros u d; [reflexivity|].
  change (List.last (u :: v :: l) d) with (List.last (v :: l) d).
  now rewrite (IH v d), (IH v u).
Qed.

(** The gaps of a list add up to the distance from its first to its last
    element. *)
Lemma sumZ_diffsZ t ts : sumZ (diffsZ (t :: ts)) = List.last ts t - t.
Proof.
  revert t. induction ts as [|u ts IH]; intros t; [unfold sumZ; cbn; lia|].
  change (diffsZ (t :: u :: ts)) with ((u - t) :: diffsZ (u :: ts)).
  unfold sumZ. cbn [fold_left]. rewrite fold_sumZ, IH, last_cons. lia.
Qed.

Lemma strictTimes_length now evs ts :
  strictTimes now evs = Some ts -> length ts = length evs.
Proof.
  revert ts. induction evs as [|e evs IH]; intros ts; cbn; [now intros [= <-]|].
  destruct (timeOfStrict now e); [|discriminate].
  destruct (strictTimes now evs) as [ts'|]; [|discriminate].
  intros [= <-]. cbn. now rewrite (IH ts').
Qed.

Lemma Qltb_lt a b : Qltb a b = true <-> (a < b)%Q.
Proof.
  unfold Qltb. rewrite Qlt_alt. destruct (a ?= b)%Q; split; intros; congruence.
Qed.

Lemma avg_above (c total n : Z) :
  0 < n -> (Qmake c 1 < Qmake total 1 / Qmake n 1)%Q -> c * n < total.
Proof.
  intros Hn. destruct n as [|p|p]; try lia.
  unfold Qlt, Qdiv, Qmult, Qinv. cbn. lia.
Qed.

Lemma precision_above (cwm len : Z) :
  0 < len -> (7 # 10 < 1 - Qmake cwm 1 / Qmake len 1)%Q -> 10 * cwm < 3 * len.
Proof.
  intros Hn. destruct len as [|p|p]; try lia.
  unfold Qlt, Qminus, Qplus, Qopp, Qdiv, Qmult, Qinv. cbn. lia.
Qed.

Lemma sumR_IZR l : sumR (List.map IZR l) = IZR (sumZ l).
Proof.
  induction l as [|x l IH]; [reflexivity|].
  unfold sumR, sumZ in *. cbn [List.map fold_left].
  rewrite fold_sumR, fold_sumZ. unfold sumR, sumZ. rewrite IH, !plus_IZR. reflexivity.
Qed.

Lemma diffsZ_length t ts : length (diffsZ (t :: ts)) = length ts.
Proof.
  revert t. induction ts as [|u ts IH]; intros t; [reflexivity|].
  change (diffsZ (t :: u :: ts)) with ((u - t) :: diffsZ (u :: ts)).
  cbn [length]. now rewrite IH.
Qed.

End ClickFacts.

(** X10: the click pattern is judged natural only if there are at least two
    clicks, the last click comes more than 500 ms times the number of gaps
    after the first one (the average gap is the whole span divided by the
    number of gaps), and at most 30 percent of the clicks lack a pointer move
    in the second before them. *)
Theorem natural_clicks_are_spaced
    (now : Z) (clickEvents allEvents : list Event) :
  Behavior.analyzeClickPattern now clickEvents allEvents = Some true ->
  exists t ts cwm,
    Behavior.strictTimes now clickEvents = Some (t :: ts)
    /\ Behavior.clicksWithoutMovement now (t :: ts) allEvents = Some cwm
    /\ (2 <= length clickEvents)%nat
    /\ 500 * (Z.of_nat (length clickEvents) - 1) < List.last ts t - t
    /\ 10 * Z.of_nat cwm <= 3 * Z.of_nat (length clickEvents).
Proof.
  unfold Behavior.analyzeClickPattern.
  destruct (length clickEvents <? 2)%nat eqn:Hlen; [discriminate|].
  apply Nat.ltb_ge in Hlen.
  destruct (Behavior.strictTimes now clickEvents) as [ts0|] eqn:Hts; [|discriminate].
  pose proof (strictTimes_length now clickEvents ts0 Hts) as Hl.
  destruct ts0 as [|t ts]; [cbn in Hl; lia|].
  destruct (Behavior.clicksWithoutMovement now (t :: ts) allEvents) as [cwm|] eqn:Hc;
    [|discriminate].
  cbv zeta. intros H. apply (inj Some) in H. apply andb_true_iff in H as [H1 H2].
  apply Qltb_lt in H1, H2.
  exists t, ts, cwm. split; [reflexivity|]. split; [exact Hc|]. split; [exact Hlen|].
  rewrite sumZ_diffsZ, Hl in H1.
  apply avg_above in H1; [|lia]. apply precision_above in H2; [|lia]. lia.
Qed.

(** Two clicks 1.1 s apart, each after a pointer move. *)
Lemma natural_clicks_are_spaced_witness :
  exists t ts cwm,
    Behavior.strictTimes 0 (List.filter (Behavior.isType "click") Scenario.pointAndClick)
    = Some (t :: ts)
    /\ Behavior.clicksWithoutMovement 0 (t :: ts) Scenario.pointAndClick = Some cwm
    /\ (2 <= length (List.filter (Behavior.isType "click") Scenario.pointAndClick))%nat
    /\ 500 * (Z.of_nat (length (List.filter (Behavior.isType "click")
                                  Scenario.pointAndClick)) - 1)
       < List.last ts t - t
    /\ 10 * Z.of_nat cwm
       <= 3 * Z.of_nat (length (List.filter (Behavior.isType "click")
                                  Scenario.pointAndClick)).
Proof.
  apply (natural_clicks_are_spaced 0
           (List.filter (Behavior.isType "click") Scenario.pointAndClick)
           Scenario.pointAndClick).
  vm_compute. reflexivity.
Defined.

(** X11: a key press pattern is judged natural only if it holds at least
    five key presses and the last one comes more than 100 ms times the
    number of gaps after the first one: a burst typed at ten keys per second
    or faster on average is never natural. *)
Theorem natural_typing_is_slow (now : Z) (keypressEvents : list Event) :
  Behavior.analyzeKeyPressPattern now keypressEvents = true ->
  exists t ts,
    List.map (Behavior.timeOf now) keypressEvents = t :: ts
    /\ (5 <= length keypressEvents)%nat
    /\ 100 * (Z.of_nat (length keypressEvents) - 1) < List.last ts t - t.
Proof.
  unfold Behavior.analyzeKeyPressPattern.
  destruct (length keypressEvents <? 5)%nat eqn:Hlen; [discriminate|].
  apply Nat.ltb_ge in Hlen. cbv zeta. intros H. apply andb_true_iff in H as [H _].
  unfold Behavior.intervalsOf in H.
  destruct (List.map (Behavior.timeOf now) keypressEvents) as [|t ts] eqn:Ht.
  { apply (f_equal (@length _)) in Ht. rewrite length_map in Ht. cbn in Ht. lia. }
  exists t, ts. split; [reflexivity|]. split; [exact Hlen|].
  assert (Hl : length ts = (length keypressEvents - 1)%nat).
  { apply (f_equal (@length _)) in Ht. rewrite length_map in Ht. cbn in Ht. lia. }
  rewrite sumR_IZR, sumZ_diffsZ in H.
  unfold Behavior.lenR in H. rewrite length_map, diffsZ_length, Hl in H.
  unfold Behavior.Rltb in H.
  destruct (Rlt_dec 100 _) as [Hlt|]; [|discriminate H].
  assert (Hpos : (0 < INR (length keypressEvents - 1))%R) by (apply lt_0_INR; lia).
  apply (Rmult_lt_compat_r _ _ _ Hpos) in Hlt.
  replace (IZR (List.last ts t - t) / INR (length keypressEvents - 1)
           * INR (length keypressEvents - 1))%R
    with (IZR (List.last ts t - t)) in Hlt by (field; lra).
  rewrite INR_IZR_INZ, <- mult_IZR in Hlt. apply lt_IZR in Hlt. lia.
Qed.

(** Five key presses over 1.2 s, with uneven gaps. *)
Lemma scenario_typing_natural : Behavior.analyzeKeyPressPattern 0 Scenario.typing = true.
Proof.
  unfold Behavior.analyzeKeyPressPattern, Behavior.intervalsOf, Behavior.spread,
    Behavior.stddev, Behavior.lenR, Behavior.sumR.
  cbn [Scenario.typing length Nat.ltb Nat.leb List.map Behavior.timeOf Demo.bare ev_data
       Behavior.serverTime ev_timestamp Z.eqb Behavior.diffsZ fold_left INR].
  replace (IZR (1200 - 1000)) with 200%R by (rewrite minus_IZR; lra).
  replace (IZR (1600 - 1200)) with 400%R by (rewrite minus_IZR; lra).
  replace (IZR (1800 - 1600)) with 200%R by (rewrite minus_IZR; lra).
  replace (IZR (2200 - 1800)) with 400%R by (rewrite minus_IZR; lra).
  replace ((0 + 200 + 400 + 200 + 400) / (1 + 1 + 1 + 1))%R with 300%R by lra.
  replace ((0 + (200 - 300) ^ 2 + (400 - 300) ^ 2 + (200 - 300) ^ 2 + (400 - 300) ^ 2)
           / (1 + 1 + 1 + 1))%R with (100 * 100)%R by lra.
  rewrite sqrt_square by lra.
  unfold Behavior.Rltb.
  destruct (Rlt_dec 100 300); [|lra]. destruct (Rlt_dec 50 100); [reflexivity|lra].
Qed.

Lemma natural_typing_is_slow_witness :
  exists t ts,
    List.map (Behavior.timeOf 0) Scenario.typing = t :: ts
    /\ (5 <= length Scenario.typing)%nat
    /\ 100 * (Z.of_nat (length Scenario.typing) - 1) < List.last ts t - t.
Proof.
  apply (natural_typing_is_slow 0 Scenario.typing). exact scenario_typing_natural.
Defined.

Section Payloads.
Import Behavior Inv.
Context (now : Z).

Lemma strictTimes_clicks evs :
  Forall carriesPayload evs ->
  exists ts, strictTimes now (List.filter (isType "click") evs) = Some ts.
Proof.
  induction 1 as [|e evs He _ [ts IH]]; [now exists []|].
  cbn [List.filter]. destruct (isType "click" e) eqn:Hc; [|eauto].
  cbn [strictTimes]. unfold timeOfStrict.
  destruct (ev_data e) eqn:Hd; [|exfalso; apply He; [now rewrite Hc|exact Hd]].
  rewrite IH. eauto.
Qed.

Lemma foundMovement_moves t evs :
  Forall carriesPayload evs -> exists b, foundMovement now t evs = Some b.
Proof.
  induction 1 as [|e evs He _ [b IH]]; [now exists false|].
  cbn [foundMovement]. destruct (isType "mousemove" e) eqn:Hm; [|eauto].
  unfold timeOfStrict.
  destruct (ev_data e) eqn:Hd;
    [|exfalso; apply He; [now rewrite Hm, orb_true_r|exact Hd]].
  destruct (_ && _); eauto.
Qed.

Lemma clicksWithoutMovement_moves ts evs :
  Forall carriesPayload evs -> exists n, clicksWithoutMovement now ts evs = Some n.
Proof.
  intros H. induction ts as [|t ts [n IH]]; [now exists O|].
  cbn [clicksWithoutMovement].
  destruct (foundMovement_moves t (rev evs)) as [b Hb]; [now apply Forall_rev|].
  rewrite Hb, IH. eauto.
Qed.

End Payloads.

(** X12: when every click and every pointer move of the log carries a
    payload (as the events sent by the SDK do), the behaviour analysis
    returns a result; its score lies between 0 and 100 and its verdict is
    "human" exactly when the score is at least 50. *)
Theorem analyzeBehavior_returns_on_payloads (L : Libs) (now : Z) (evs : list Event) :
  Forall (fun e => Behavior.isType "click" e || Behavior.isType "mousemove" e = true ->
                   ev_data e <> None) evs ->
  exists r,
    Behavior.analyzeBehavior L now evs = Some r
    /\ 0 <= Behavior.score r <= 100
    /\ Behavior.isHuman r = (50 <=? Behavior.score r).
Proof.
  intros H.
  assert (Hr : exists r, Behavior.analyzeBehavior L now evs = Some r
                         /\ Behavior.isHuman r = (50 <=? Behavior.score r)).
  { unfold Behavior.analyzeBehavior.
    destruct evs as [|e evs]; [eexists; split; reflexivity|].
    revert H. generalize (e :: evs). clear e evs. intros evs H.
    destruct (_ <? 5)%nat; [eexists; split; reflexivity|].
    unfold Behavior.analyzeClickPattern.
    destruct (_ <? 2)%nat; [eexists; split; reflexivity|].
    destruct (strictTimes_clicks now evs H) as [ts Hts]. rewrite Hts.
    destruct (clicksWithoutMovement_moves now ts evs H) as [n Hn]. rewrite Hn.
    eexists. split; reflexivity. }
  destruct Hr as (r & Hr & Hh). exists r. split; [exact Hr|]. split; [|exact Hh].
  exact (analyzeBehavior_range L now evs r Hr).
Qed.

(** The ten pointer moves of [Demo], each with its payload. *)
Lemma analyzeBehavior_returns_on_payloads_witness :
  exists r,
    Behavior.analyzeBehavior Demo.libs 0 Demo.tenMoves = Some r
    /\ 0 <= Behavior.score r <= 100
    /\ Behavior.isHuman r = (50 <=? Behavior.score r).
Proof.
  apply (analyzeBehavior_returns_on_payloads Demo.libs 0 Demo.tenMoves).
  repeat constructor; intros _; discriminate.
Defined.

Section StraightPath.
Import Behavior Path.
#[local] Open Scope R_scope.

Lemma norm_scaled a dx dy :
  0 <= a -> sqrt (a * dx * (a * dx) + a * dy * (a * dy)) = a * sqrt (dx * dx + dy * dy).
Proof.
  intros Ha. replace (a * dx * (a * dx) + a * dy * (a * dy))
    with (a * a * (dx * dx + dy * dy)) by ring.
  rewrite sqrt_mult; [|nra|nra]. now rewrite sqrt_square.
Qed.

(** Two displacements along the same direction make no direction change. *)
Lemma same_direction a b dx dy :
  0 <= a -> 0 <= b ->
  let v1x := a * dx in let v1y := a * dy in
  let v2x := b * dx in let v2y := b * dy in
  let dot := v1x * v2x + v1y * v2y in
  let m1 := sqrt (v1x * v1x + v1y * v1y) in
  let m2 := sqrt (v2x * v2x + v2y * v2y) in
  Rltb 0 m1 && Rltb 0 m2 && Rltb (dot / (m1 * m2)) (9 / 10) = false.
Proof.
  intros Ha Hb v1x v1y v2x v2y dot m1 m2. subst v1x v1y v2x v2y dot m1 m2.
  rewrite !norm_scaled by assumption.
  set (n := dx * dx + dy * dy).
  assert (Hn : 0 <= n) by (unfold n; nra).
  unfold Rltb.
  destruct (Rlt_dec 0 (a * sqrt n)) as [H1|]; [|reflexivity].
  destruct (Rlt_dec 0 (b * sqrt n)) as [H2|]; [|reflexivity].
  cbn [andb].
  replace (a * dx * (b * dx) + a * dy * (b * dy)) with (a * b * n) by (unfold n; ring).
  replace (a * sqrt n * (b * sqrt n)) with (a * b * (sqrt n * sqrt n)) by ring.
  rewrite sqrt_sqrt by exact Hn.
  assert (Hs : 0 < sqrt n).
  { destruct (Rle_lt_or_eq_dec 0 (sqrt n) (sqrt_pos n)) as [H|H]; [exact H|].
    rewrite <- H in H1. lra. }
  assert (Ha0 : 0 < a) by nra. assert (Hb0 : 0 < b) by nra.
  assert (Hn0 : 0 < n) by (rewrite <- (sqrt_sqrt n Hn); nra).
  replace (a * b * n / (a * b * n)) with 1 by (field; repeat split; lra).
  destruct (Rlt_dec 1 (9 / 10)); [lra|reflexivity].
Qed.

Lemma directionChangesOf_onLine x0 y0 dx dy ks ps :
  List.map fst ps = onLine x0 y0 dx dy ks -> ascending ks ->
  directionChangesOf ps = O.
Proof.
  revert ps. induction ks as [|k0 ks IH]; intros ps Hp Ha.
  { destruct ps; [reflexivity|discriminate]. }
  destruct ps as [|[[px0 py0] t0] ps]; [discriminate|].
  destruct ks as [|k1 ks]; [destruct ps; [reflexivity|discriminate]|].
  destruct ps as [|[[px1 py1] t1] ps]; [discriminate|].
  destruct ks as [|k2 ks]; [destruct ps; [reflexivity|discriminate]|].
  destruct ps as [|[[px2 py2] t2] ps]; [discriminate|].
  assert (IH' : directionChangesOf ((px1, py1, t1) :: (px2, py2, t2) :: ps) = O).
  { apply IH; [|exact (proj2 Ha)]. exact (f_equal (@List.tl _) Hp). }
  change (directionChangesOf ((px0, py0, t0) :: (px1, py1, t1) :: (px2, py2, t2) :: ps))
    with ((if Rltb 0 (sqrt (IZR (px1 - px0) * IZR (px1 - px0)
                            + IZR (py1 - py0) * IZR (py1 - py0)))
              && Rltb 0 (sqrt (IZR (px2 - px1) * IZR (px2 - px1)
                               + IZR (py2 - py1) * IZR (py2 - py1)))
              && Rltb ((IZR (px1 - px0) * IZR (px2 - px1)
                        + IZR (py1 - py0) * IZR (py2 - py1))
                       / (sqrt (IZR (px1 - px0) * IZR (px1 - px0)
                                + IZR (py1 - py0) * IZR (py1 - py0))
                          * sqrt (IZR (px2 - px1) * IZR (px2 - px1)
                                  + IZR (py2 - py1) * IZR (py2 - py1))))
                   (9 / 10)
           then 1 else 0)
          + directionChangesOf ((px1, py1, t1) :: (px2, py2, t2) :: ps))%nat.
  rewrite IH'.
  unfold onLine in Hp. cbn [List.map fst] in Hp.
  injection Hp as Hx0 Hy0 Hx1 Hy1 Hx2 Hy2 _. subst.
  destruct Ha as (H01 & H12 & _).
  replace (x0 + k1 * dx - (x0 + k0 * dx))%Z with ((k1 - k0) * dx)%Z by ring.
  replace (y0 + k1 * dy - (y0 + k0 * dy))%Z with ((k1 - k0) * dy)%Z by ring.
  replace (x0 + k2 * dx - (x0 + k1 * dx))%Z with ((k2 - k1) * dx)%Z by ring.
  replace (y0 + k2 * dy - (y0 + k1 * dy))%Z with ((k2 - k1) * dy)%Z by ring.
  rewrite !mult_IZR.
  pose proof (same_direction (IZR (k1 - k0)) (IZR (k2 - k1)) (IZR dx) (IZR dy)) as Hs.
  cbv zeta in Hs. rewrite Hs; [reflexivity| |]; apply IZR_le; lia.
Qed.

End StraightPath.

(** X13: pointer moves whose positions lie on one straight line and never
    turn back (any speeds, any timing) make no direction change, so the
    trajectory is never judged natural. *)
Theorem straight_path_is_not_natural
    (L : Libs) (now : Z) (mouseEvents : list Event) (x0 y0 dx dy : Z) (ks : list Z) :
  List.map fst (Behavior.samples now mouseEvents) = Path.onLine x0 y0 dx dy ks ->
  Path.ascending ks ->
  Behavior.analyzeMouseTrajectory L now mouseEvents = false.
Proof.
  intros Hp Ha. unfold Behavior.analyzeMouseTrajectory.
  destruct (_ <? 5)%nat; [reflexivity|].
  destruct (_ <? 5)%nat; [reflexivity|].
  unfold Behavior.trajectoryOf. cbv zeta.
  cbn [Behavior.speedVariation Behavior.accelerationChanges Behavior.directionChanges
       Behavior.lineRatio].
  rewrite (directionChangesOf_onLine x0 y0 dx dy ks _ Hp Ha).
  cbn [Nat.leb]. now rewrite andb_false_r.
Qed.

(** The ten pointer moves of [Demo], along the x axis. *)
Lemma straight_path_is_not_natural_witness :
  Behavior.analyzeMouseTrajectory Demo.libs 0 Demo.tenMoves = false.
Proof.
  apply (straight_path_is_not_natural Demo.libs 0 Demo.tenMoves 0 0 10 0
           [0; 1; 2; 3; 4; 5; 6; 7; 8; 9]).
  - reflexivity.
  - cbn. lia.
Defined.

(** ** verifySession *)
Section VerifyFacts.
Import Verify Inv.
#[local] Open Scope Q_scope.

Lemma finalScore_range x : 0 <= finalScore x <= 100.
Proof.
  unfold finalScore. split; [apply Q.le_max_l|].
  apply Q.max_lub; [discriminate|apply Q.le_min_l].
Qed.

Lemma Qleb_le a b : Qleb a b = true <-> a <= b.
Proof.
  unfold Qleb. rewrite Qle_alt. destruct (a ?= b); split; intros; congruence.
Qed.

Lemma QofZ_half_nonneg z : (0 <= z)%Z -> 0 <= QofZ z / 2.
Proof. intros H. unfold QofZ, Qdiv, Qmult, Qinv, Qle. cbn. lia. Qed.

Lemma QofZ_half_le z : (z <= 50)%Z -> QofZ z / 2 <= 25.
Proof. intros H. unfold QofZ, Qdiv, Qmult, Qinv, Qle. cbn. lia. Qed.

Lemma runClean_penalty d msg r : runClean (penalty d msg r).
Proof. unfold runClean. cbn. destruct (r_reasons r); discriminate. Qed.

Lemma runClean_remark msg r : runClean (remark msg r).
Proof. unfold runClean. cbn. destruct (r_reasons r); discriminate. Qed.

Lemma runClean_adjust d r : 0 <= d -> runClean r -> runClean (adjust d r).
Proof.
  unfold runClean, adjust. cbn [r_reasons r_score]. intros Hd Hr H. specialize (Hr H). lra.
Qed.

Lemma runClean_stepAutomation s a :
  automation (analysis s) = Some a ->
  runClean (stepAutomation s {| r_score := 0; r_reasons := []; r_details := noDetails |}).
Proof.
  intros Ha. unfold stepAutomation. rewrite Ha.
  destruct (Automation.isAutomated a); [apply runClean_penalty|].
  intros _. unfold adjust. cbn [r_score]. lra.
Qed.

Lemma runClean_stepBehavior s r : runClean r -> runClean (stepBehavior s r).
Proof.
  intros Hr. unfold stepBehavior.
  destruct (behavior (analysis s)) as [b|].
  - destruct (Behavior.isHuman b); [|apply runClean_penalty].
    apply runClean_adjust; [lra|]. exact Hr.
  - destruct (_ <? 5)%nat; [apply runClean_penalty|exact Hr].
Qed.

Lemma runClean_stepFingerprint s r :
  (forall f, fingerprint (analysis s) = Some f ->
             Fingerprint.anomalies f = [] -> (50 <= Fingerprint.score f)%Z) ->
  runClean r -> runClean (stepFingerprint s r).
Proof.
  intros Hf Hr. unfold stepFingerprint.
  destruct (fingerprint (analysis s)) as [f|]; [|exact Hr].
  specialize (Hf f eq_refl).
  destruct (Fingerprint.anomalies f); [|apply runClean_remark].
  intros H. cbn [r_reasons r_score] in *. specialize (Hr H).
  pose proof (QofZ_half_nonneg (Fingerprint.score f - 50)) as Hh.
  specialize (Hf eq_refl). lapply Hh; [|lia]. intros. lra.
Qed.

Lemma runClean_stepNetwork s r :
  (forall n, network (analysis s) = Some n ->
             Network.reasons n = [] -> (50 <= Network.score n)%Z) ->
  runClean r -> runClean (stepNetwork s r).
Proof.
  intros Hn Hr. unfold stepNetwork.
  destruct (network (analysis s)) as [n|]; [|exact Hr].
  specialize (Hn n eq_refl).
  destruct (Network.reasons n); [|apply runClean_remark].
  intros H. cbn [r_reasons r_score] in *. specialize (Hr H).
  pose proof (QofZ_half_nonneg (Network.score n - 50)) as Hh.
  specialize (Hn eq_refl). lapply Hh; [|lia]. intros. lra.
Qed.

Lemma runClean_stepAge now s r : runClean r -> runClean (stepAge now s r).
Proof.
  intros Hr. unfold stepAge. cbv zeta.
  destruct (_ <? 1000)%Z; [apply runClean_penalty|].
  destruct (_ && _); [apply runClean_penalty|exact Hr].
Qed.

Lemma runClean_stepEventCount s r : runClean r -> runClean (stepEventCount s r).
Proof. intros Hr. unfold stepEventCount. destruct (events s); [apply runClean_penalty|exact Hr]. Qed.

Lemma runClean_stepDeviceInfo s r : runClean r -> runClean (stepDeviceInfo s r).
Proof. intros Hr. unfold stepDeviceInfo. destruct (_ && _); [exact Hr|apply runClean_penalty]. Qed.

Lemma runClean_stepUserAgent s r : runClean r -> runClean (stepUserAgent s r).
Proof.
  intros Hr. unfold stepUserAgent. cbv zeta.
  destruct (_ && _); [exact Hr|apply runClean_penalty].
Qed.

Lemma runClean_stepHeaders req r : runClean r -> runClean (stepHeaders req r).
Proof.
  intros Hr. unfold stepHeaders.
  destruct (checkSuspiciousHeaders _); [exact Hr|apply runClean_penalty].
Qed.

Lemma runClean_stepPattern s r : runClean r -> runClean (stepPattern s r).
Proof.
  intros Hr. unfold stepPattern. cbv zeta.
  destruct (suspicious _); [apply runClean_penalty|exact Hr].
Qed.

Lemma verifySession_clean now s req a :
  automation (analysis s) = Some a ->
  (forall f, fingerprint (analysis s) = Some f ->
             Fingerprint.anomalies f = [] -> (50 <= Fingerprint.score f)%Z) ->
  (forall n, network (analysis s) = Some n ->
             Network.reasons n = [] -> (50 <= Network.score n)%Z) ->
  isHuman (verifySession now s req) = false ->
  reasons (verifySession now s req) <> [].
Proof.
  intros Ha Hf Hn Hh Hr.
  assert (Hc : runClean (stepPattern s (beforePattern now s req))).
  { apply runClean_stepPattern. unfold beforePattern. cbv zeta.
    apply runClean_stepHeaders, runClean_stepUserAgent, runClean_stepDeviceInfo,
      runClean_stepEventCount, runClean_stepAge, runClean_stepNetwork; [exact Hn|].
    apply runClean_stepFingerprint; [exact Hf|].
    apply runClean_stepBehavior. eapply runClean_stepAutomation; eauto. }
  unfold verifySession in Hh, Hr. cbn [isHuman reasons] in Hh, Hr.
  specialize (Hc Hr).
  assert (Hle : 60 <= finalScore (r_score (stepPattern s (beforePattern now s req)))).
  { unfold finalScore. apply Q.max_le_iff. right. apply Q.min_glb; [discriminate|]. lra. }
  apply Qleb_le in Hle. congruence.
Qed.

Lemma stepAutomation_le s r : r_score (stepAutomation s r) <= r_score r + 20.
Proof.
  unfold stepAutomation. destruct (automation (analysis s)) as [a|]; [|lra].
  destruct (Automation.isAutomated a); unfold penalty, adjust; cbn [r_score]; lra.
Qed.

Lemma stepBehavior_none s r :
  behavior (analysis s) = None -> events s = [] ->
  r_score (stepBehavior s r) <= r_score r - 20.
Proof.
  intros Hb He. unfold stepBehavior. rewrite Hb, He. unfold penalty. cbn [r_score length Nat.ltb Nat.leb]. lra.
Qed.

Lemma stepFingerprint_le s r :
  (forall f, fingerprint (analysis s) = Some f -> (Fingerprint.score f <= 100)%Z) ->
  r_score (stepFingerprint s r) <= r_score r + 25.
Proof.
  intros Hf. unfold stepFingerprint.
  destruct (fingerprint (analysis s)) as [f|]; [|lra].
  specialize (Hf f eq_refl).
  pose proof (QofZ_half_le (Fingerprint.score f - 50)) as Hh.
  lapply Hh; [|lia]. intros.
  destruct (Fingerprint.anomalies f); unfold remark; cbn [r_score]; lra.
Qed.

Lemma stepNetwork_le s r :
  (forall n, network (analysis s) = Some n -> (Network.score n <= 100)%Z) ->
  r_score (stepNetwork s r) <= r_score r + 25.
Proof.
  intros Hn. unfold stepNetwork.
  destruct (network (analysis s)) as [n|]; [|lra].
  specialize (Hn n eq_refl).
  pose proof (QofZ_half_le (Network.score n - 50)) as Hh.
  lapply Hh; [|lia]. intros.
  destruct (Network.reasons n); unfold remark; cbn [r_score]; lra.
Qed.

Lemma stepAge_quick now s r :
  (now - createdAt s < 1000)%Z -> r_score (stepAge now s r) <= r_score r - 30.
Proof.
  intros H. unfold stepAge. cbv zeta. apply Z.ltb_lt in H. rewrite H.
  unfold penalty. cbn [r_score]. lra.
Qed.

Lemma stepEventCount_none s r :
  events s = [] -> r_score (stepEventCount s r) <= r_score r - 30.
Proof. intros H. unfold stepEventCount. rewrite H. unfold penalty. cbn [r_score]. lra. Qed.

Lemma stepDeviceInfo_le s r : r_score (stepDeviceInfo s r) <= r_score r.
Proof. unfold stepDeviceInfo. destruct (_ && _); unfold penalty; cbn [r_score]; lra. Qed.

Lemma stepUserAgent_le s r : r_score (stepUserAgent s r) <= r_score r.
Proof.
  unfold stepUserAgent. cbv zeta. destruct (_ && _); unfold penalty; cbn [r_score]; lra.
Qed.

Lemma stepHeaders_le req r : r_score (stepHeaders req r) <= r_score r.
Proof.
  unfold stepHeaders. destruct (checkSuspiciousHeaders _); unfold penalty; cbn [r_score]; lra.
Qed.

Lemma stepPattern_le s r : r_score (stepPattern s r) <= r_score r.
Proof.
  unfold stepPattern. cbv zeta. destruct (suspicious _); unfold penalty; cbn [r_score]; lra.
Qed.

(** Without any event, less than a second after creation: at most 40. *)
Lemma verifySession_quick now s req :
  (forall f, fingerprint (analysis s) = Some f -> (Fingerprint.score f <= 100)%Z) ->
  (forall n, network (analysis s) = Some n -> (Network.score n <= 100)%Z) ->
  behavior (analysis s) = None -> events s = [] ->
  (now - createdAt s < 1000)%Z ->
  score (verifySession now s req) <= 40.
Proof.
  intros Hf Hn Hb He Ha. unfold verifySession. cbn [score].
  set (r0 := {| r_score := 0; r_reasons := []; r_details := noDetails |}).
  pose proof (stepAutomation_le s r0) as H1.
  pose proof (stepBehavior_none s (stepAutomation s r0) Hb He) as H2.
  pose proof (stepFingerprint_le s (stepBehavior s (stepAutomation s r0)) Hf) as H3.
  pose proof (stepNetwork_le s (stepFingerprint s (stepBehavior s (stepAutomation s r0))) Hn)
    as H4.
  pose proof (stepAge_quick now s
                (stepNetwork s (stepFingerprint s (stepBehavior s (stepAutomation s r0)))) Ha)
    as H5.
  unfold beforePattern. cbv zeta. fold r0.
  set (r5 := stepAge now s _) in *.
  pose proof (stepEventCount_none s r5 He) as H6.
  pose proof (stepDeviceInfo_le s (stepEventCount s r5)) as H7.
  pose proof (stepUserAgent_le s (stepDeviceInfo s (stepEventCount s r5))) as H8.
  pose proof (stepHeaders_le req (stepUserAgent s (stepDeviceInfo s (stepEventCount s r5))))
    as H9.
  pose proof (stepPattern_le s
                (stepHeaders req (stepUserAgent s (stepDeviceInfo s (stepEventCount s r5)))))
    as H10.
  set (x := r_score (stepPattern s _)) in *.
  change (r_score r0) with 0 in H1.
  unfold finalScore. apply Q.max_lub; [discriminate|].
  eapply Qle_trans; [apply Q.le_min_r|]. lra.
Qed.

End VerifyFacts.

(** X14: the evaluation always yields a score between 0 and 100, and the
    verdict is "human" exactly when the score is at least 60. *)
Theorem verifySession_verdict (now : Z) (s : Verify.Session) (req : Request) :
  (0 <= Verify.score (Verify.verifySession now s req) <= 100)%Q
  /\ (Verify.isHuman (Verify.verifySession now s req) = true
      <-> (60 <= Verify.score (Verify.verifySession now s req))%Q).
Proof.
  unfold Verify.verifySession. cbn [Verify.isHuman Verify.score].
  split; [apply finalScore_range|apply Qleb_le].
Qed.

Section RegularArrival.
Import Behavior.

Lemma diffsZ_arithmetic t0 g a n :
  diffsZ (List.map (fun i => t0 + g * Z.of_nat i) (seq a (S n))) = repeat g n.
Proof.
  revert a. induction n as [|n IH]; intros a; [reflexivity|].
  specialize (IH (S a)).
  cbn [seq List.map] in *. cbn [diffsZ] in *. cbn [repeat]. rewrite IH.
  f_equal. lia.
Qed.

Lemma variation_of_equal_gaps g n :
  g <> 0 ->
  let intervals := List.map IZR (repeat g (S n)) in
  rlt (rdiv (spread intervals) (sumR intervals / lenR intervals)) (1 / 10) = true.
Proof.
  intros Hg intervals. subst intervals. rewrite map_repeat.
  unfold spread. rewrite stddev_repeat.
  unfold lenR. rewrite repeat_length, sumR_repeat.
  assert (Hn : INR (S n) <> 0%R) by (apply not_0_INR; discriminate).
  replace (INR (S n) * IZR g / INR (S n))%R with (IZR g) by (field; exact Hn).
  assert (Hz : IZR g <> 0%R) by (apply not_0_IZR; exact Hg).
  unfold rdiv, Reqb. destruct (Req_dec_T (IZR g) 0) as [E|_]; [contradiction|].
  unfold rlt, Rltb. replace (0 / IZR g)%R with 0%R by (field; exact Hz).
  destruct (Rlt_dec 0 (1 / 10)); [reflexivity|lra].
Qed.

End RegularArrival.

(** X15: a session of at least five events whose server timestamps are
    equally spaced (by any gap other than 0) has a suspicious request
    pattern, and the evaluation subtracts 20 for it before the final
    clamp. *)
Theorem regular_arrival_is_suspicious
    (s : Verify.Session) (now : Z) (req : Request) (t0 g : Z) :
  g <> 0 ->
  (5 <= length (Verify.events s))%nat ->
  List.map ev_timestamp (Verify.events s)
  = List.map (fun i => t0 + g * Z.of_nat i) (seq 0 (length (Verify.events s))) ->
  Verify.suspicious (Verify.analyzeRequestPattern s) = true
  /\ Verify.score (Verify.verifySession now s req)
     = Verify.finalScore (Verify.r_score (Verify.beforePattern now s req) + -20).
Proof.
  intros Hg Hlen Ht.
  assert (Hs : Verify.suspicious (Verify.analyzeRequestPattern s) = true).
  { unfold Verify.analyzeRequestPattern.
    assert (H5 : (5 <=? length (Verify.events s))%nat = true) by now apply Nat.leb_le.
    assert (H3 : (3 <=? length (Verify.events s))%nat = true) by (apply Nat.leb_le; lia).
    rewrite H5, H3. unfold Verify.variationCoefficient. rewrite Ht.
    destruct (length (Verify.events s)) as [|[|n]]; [lia|lia|].
    rewrite diffsZ_arithmetic.
    pose proof (variation_of_equal_gaps g n Hg) as Hv. cbv zeta in Hv. rewrite Hv.
    now destruct (Verify.hasClickWithoutMove _). }
  split; [exact Hs|].
  unfold Verify.verifySession, Verify.stepPattern. rewrite Hs. reflexivity.
Qed.

(** Five events received 100 ms apart. *)
Lemma regular_arrival_is_suspicious_witness :
  Verify.suspicious (Verify.analyzeRequestPattern Scenario.regular) = true
  /\ Verify.score (Verify.verifySession 6000 Scenario.regular Demo.request)
     = Verify.finalScore
         (Verify.r_score (Verify.beforePattern 6000 Scenario.regular Demo.request) + -20).
Proof.
  apply (regular_arrival_is_suspicious Scenario.regular 6000 Demo.request 2000 100).
  - discriminate.
  - cbn. lia.
  - reflexivity.
Defined.

(** ** The store over sequences of requests *)
Section ReachFacts.
Import Verify Inv.
Context (L : Libs).

Lemma Wf_mono hist o sid s : Wf L hist sid s -> Wf L (hist ++ [o]) sid s.
Proof.
  intros [H1 (now & req & body & Hin & H2) H3 H4]. split; auto.
  exists now, req, body. split; [|exact H2]. apply in_or_app. now left.
Qed.

Lemma append_nonempty (a b : string) : a <> EmptyString -> (a ++ b)%string <> EmptyString.
Proof. destruct a; [easy|]. intros _. discriminate. Qed.

Lemma worded_snoc l x : worded l -> x <> EmptyString -> worded (l ++ [x]).
Proof. intros Hl Hx. apply Forall_app. split; [exact Hl|]. now constructor. Qed.

Lemma join_truthy sep l :
  l <> [] -> worded l -> truthyS (Some (join sep l)) = true.
Proof.
  destruct l as [|x l]; [easy|]. intros _ H. inversion H as [|? ? Hx Hl]; subst.
  destruct x as [|c x]; [easy|]. destruct l; reflexivity.
Qed.

Lemma runWorded_penalty d msg r : msg <> EmptyString -> runWorded r -> runWorded (penalty d msg r).
Proof. intros Hm Hr. unfold runWorded. cbn. now apply worded_snoc. Qed.

Lemma runWorded_remark msg r : msg <> EmptyString -> runWorded r -> runWorded (remark msg r).
Proof. intros Hm Hr. unfold runWorded. cbn. now apply worded_snoc. Qed.

Ltac worded_step :=
  repeat match goal with
         | |- runWorded (penalty _ _ _) =>
             apply runWorded_penalty; [first [discriminate | apply append_nonempty; discriminate]|]
         | |- runWorded (remark _ _) =>
             apply runWorded_remark; [first [discriminate | apply append_nonempty; discriminate]|]
         | |- runWorded (adjust _ _) => unfold adjust, runWorded; cbn [r_reasons]
         | |- runWorded (if ?b then _ else _) => destruct b
         | |- runWorded (match ?x with _ => _ end) => destruct x
         | H : runWorded ?r |- runWorded ?r => exact H
         | H : runWorded ?r |- worded (r_reasons ?r) => exact H
         | |- runWorded (Build_Run _ (r_reasons ?r) _) => unfold runWorded; cbn [r_reasons]
         end.

Lemma runWorded_stepAutomation s r : runWorded r -> runWorded (stepAutomation s r).
Proof. intros H. unfold stepAutomation. worded_step. Qed.

Lemma runWorded_stepBehavior s r : runWorded r -> runWorded (stepBehavior s r).
Proof. intros H. unfold stepBehavior. worded_step. Qed.

Lemma runWorded_stepFingerprint s r : runWorded r -> runWorded (stepFingerprint s r).
Proof. intros H. unfold stepFingerprint. worded_step. Qed.

Lemma runWorded_stepNetwork s r : runWorded r -> runWorded (stepNetwork s r).
Proof. intros H. unfold stepNetwork. worded_step. Qed.

Lemma runWorded_stepAge now s r : runWorded r -> runWorded (stepAge now s r).
Proof. intros H. unfold stepAge. cbv zeta. worded_step. Qed.

Lemma runWorded_stepEventCount s r : runWorded r -> runWorded (stepEventCount s r).
Proof. intros H. unfold stepEventCount. worded_step. Qed.

Lemma runWorded_stepDeviceInfo s r : runWorded r -> runWorded (stepDeviceInfo s r).
Proof. intros H. unfold stepDeviceInfo. worded_step. Qed.

Lemma runWorded_stepUserAgent s r : runWorded r -> runWorded (stepUserAgent s r).
Proof. intros H. unfold stepUserAgent. cbv zeta. worded_step. Qed.

Lemma runWorded_stepHeaders req r : runWorded r -> runWorded (stepHeaders req r).
Proof. intros H. unfold stepHeaders. worded_step. Qed.

Lemma runWorded_stepPattern s r : runWorded r -> runWorded (stepPattern s r).
Proof. intros H. unfold stepPattern. cbv zeta. worded_step. Qed.

Lemma verifySession_worded now s req : worded (reasons (verifySession now s req)).
Proof.
  unfold verifySession. cbn [reasons].
  apply runWorded_stepPattern. unfold beforePattern. cbv zeta.
  apply runWorded_stepHeaders, runWorded_stepUserAgent, runWorded_stepDeviceInfo,
    runWorded_stepEventCount, runWorded_stepAge, runWorded_stepNetwork,
    runWorded_stepFingerprint, runWorded_stepBehavior, runWorded_stepAutomation.
  constructor.
Qed.

Lemma Wf_newSession hist sid now req body :
  Wf L (hist ++ [CreateSession sid now req body]) sid (newSession L sid now req body).
Proof.
  split.
  - reflexivity.
  - exists now, req, body. split; [apply in_or_app; right; now left|].
    repeat split; reflexivity.
  - reflexivity.
  - unfold newSession. cbv zeta. cbn [status verifiedAt verificationScore rejectionReason].
    destruct (_ && _); [reflexivity|]. repeat split; reflexivity.
Qed.

Lemma Wf_setEvents hist sid s e :
  Wf L hist sid s -> status s <> rejected ->
  Wf L hist sid (setEvents (events s ++ [e]) s).
Proof.
  intros [H1 H2 H3 H4] _. split; cbn; auto.
  intros H. destruct (events s); discriminate H.
Qed.

Lemma Wf_setBehavior hist sid s b :
  Wf L hist sid s -> events s <> [] -> Wf L hist sid (setBehavior b s).
Proof.
  intros [H1 H2 H3 H4] He. split; cbn; auto. intros H. contradiction.
Qed.

Lemma Wf_setStatus_rejected hist sid s why :
  Wf L hist sid s -> truthyS (Some why) = true ->
  Wf L hist sid (setStatus rejected (Some why) s).
Proof. intros [H1 H2 H3 H4] Hw. split; cbn; auto. Qed.

Lemma Wf_recordEvent hist st sid now req ty data :
  StoreWf L hist st ->
  StoreWf L (hist ++ [RecordEvent sid now req ty data])
    (fst (recordEvent L st sid now req ty data)).
Proof.
  intros Hst sid' s'. destruct (decide (sid = sid')) as [<-|Hne].
  2:{ rewrite recordEvent_lookup by exact Hne. intros H. apply Wf_mono. now apply Hst. }
  unfold recordEvent. destruct (st !! sid) as [s|] eqn:Hs.
  2:{ cbn. rewrite Hs. discriminate. }
  specialize (Hst _ _ Hs).
  destruct (decide (status s = rejected)) as [E|E].
  { cbn. rewrite Hs. intros [= <-]. now apply Wf_mono. }
  set (e := {| ev_type := ty; ev_data := data; ev_timestamp := now;
               ev_headers := req_headers req |}).
  pose proof (Wf_setEvents hist sid s e Hst E) as H1.
  assert (Hne : events (setEvents (events s ++ [e]) s) <> []).
  { cbn. destruct (events s); discriminate. }
  cbv zeta. fold e.
  destruct (_ && _).
  - destruct (Behavior.analyzeBehavior L now _) as [b|].
    + destruct (_ && _); cbn [fst]; rewrite lookup_insert_eq; intros [= <-]; apply Wf_mono.
      * apply Wf_setStatus_rejected; [|reflexivity]. now apply Wf_setBehavior.
      * now apply Wf_setBehavior.
    + cbn [fst]. rewrite lookup_insert_eq. intros [= <-]. now apply Wf_mono.
  - cbn [fst]. rewrite lookup_insert_eq. intros [= <-]. now apply Wf_mono.
Qed.

Lemma firstn_nil_inv {A} n (l : list A) : firstn (S n) l = [] -> l = [].
Proof. destruct l; [reflexivity|discriminate]. Qed.

Lemma Wf_verifySession_reason hist sid s now req :
  Wf L hist sid s ->
  isHuman (verifySession now s req) = false ->
  truthyS (Some (join ", " (reasons (verifySession now s req)))) = true.
Proof.
  intros [H1 (t & rq & body & _ & _ & _ & Ha & Hf & Hn) H3 H4] Hh.
  apply join_truthy; [|apply verifySession_worded].
  eapply verifySession_clean; eauto.
  - intros f Ef. rewrite Hf in Ef. apply (inj Some) in Ef. subst f.
    apply analyzeFingerprint_clean.
  - intros n En. rewrite Hn in En. apply (inj Some) in En. subst n.
    apply analyzeNetwork_clean.
Qed.

Lemma Wf_decided hist sid s now req :
  Wf L hist sid s -> status s = pending ->
  Wf L hist sid (decided now (verifySession now s req) s).
Proof.
  intros Hw Hp. pose proof (Wf_verifySession_reason hist sid s now req Hw) as Hr.
  destruct Hw as [H1 H2 H3 H4]. rewrite Hp in H4. destruct H4 as (_ & _ & H4).
  split.
  - exact H1.
  - exact H2.
  - cbn [decided events analysis]. intros H. apply H3.
    destruct (_ <? _)%nat; [|exact H]. now apply firstn_nil_inv in H.
  - cbn [decided status rejectionReason verificationScore verifiedAt].
    destruct (isHuman (verifySession now s req)) eqn:Hh.
    + split; [exact H4|]. eexists. eexists. split; [reflexivity|]. split; [reflexivity|].
      unfold verifySession in Hh |- *. cbn [isHuman score] in Hh |- *.
      apply Qleb_le in Hh. split; [exact Hh|apply finalScore_range].
    + now apply Hr.
Qed.

Lemma Wf_verify hist st sid now req :
  StoreWf L hist st ->
  StoreWf L (hist ++ [Evaluate sid now req]) (fst (verify L st sid now req)).
Proof.
  intros Hst sid' s'. destruct (decide (sid = sid')) as [<-|Hne].
  2:{ rewrite verify_lookup by exact Hne. intros H. apply Wf_mono. now apply Hst. }
  unfold verify. destruct (st !! sid) as [s|] eqn:Hs.
  2:{ cbn. rewrite Hs. discriminate. }
  specialize (Hst _ _ Hs).
  destruct (bool_decide (status s = pending)) eqn:E; cbn [negb].
  2:{ cbn. rewrite Hs. intros [= <-]. now apply Wf_mono. }
  apply bool_decide_eq_true in E.
  destruct (behavior (analysis s)) as [b0|] eqn:Hb.
  - cbn [fst]. rewrite lookup_insert_eq. intros [= <-]. apply Wf_mono. now apply Wf_decided.
  - destruct (events s) as [|e evs] eqn:He.
    + cbn [fst]. rewrite lookup_insert_eq. intros [= <-]. apply Wf_mono. now apply Wf_decided.
    + destruct (Behavior.analyzeBehavior L now (e :: evs)) as [b|].
      * cbn [fst]. rewrite lookup_insert_eq. intros [= <-]. apply Wf_mono.
        apply Wf_decided; [|exact E]. apply Wf_setBehavior; [exact Hst|]. now rewrite He.
      * cbn. rewrite Hs. intros [= <-]. now apply Wf_mono.
Qed.

Lemma Wf_run hist st o : StoreWf L hist st -> StoreWf L (hist ++ [o]) (run L st o).
Proof.
  intros Hst.
  destruct o as [sid' now req body|sid' now req ty data|sid' now req|sid'|now]; cbn [run].
  - intros sid s. cbn [init fst]. destruct (decide (sid' = sid)) as [<-|Hne].
    + rewrite lookup_insert_eq. intros [= <-]. apply Wf_newSession.
    + rewrite lookup_insert_ne by exact Hne. intros H. apply Wf_mono. now apply Hst.
  - now apply Wf_recordEvent.
  - now apply Wf_verify.
  - intros sid s H. apply Wf_mono. now apply Hst.
  - intros sid s H. apply cleanupSessions_lookup in H. apply Wf_mono. now apply Hst.
Qed.

Lemma Wf_runAll hist st ops :
  StoreWf L hist st -> StoreWf L (hist ++ ops) (runAll L st ops).
Proof.
  revert hist st. induction ops as [|o ops IH]; intros hist st Hst.
  - now rewrite app_nil_r.
  - change (runAll L st (o :: ops)) with (runAll L (run L st o) ops).
    replace (hist ++ o :: ops)%list with ((hist ++ [o]) ++ ops)%list
      by now rewrite <- List.app_assoc.
    apply IH. now apply Wf_run.
Qed.

(** The invariant holds in every store reached from the empty one. *)
Lemma Wf_reachable ops sid s : runAll L ∅ ops !! sid = Some s -> Wf L ops sid s.
Proof.
  intros H. apply (Wf_runAll [] ∅ ops); [|exact H].
  intros sid' s' H'. rewrite lookup_empty in H'. discriminate.
Qed.

Lemma recordEvent_behavior st sid now req ty data s s' b :
  st !! sid = Some s ->
  fst (recordEvent L st sid now req ty data) !! sid = Some s' ->
  behavior (analysis s) = Some b -> behavior (analysis s') = Some b.
Proof.
  intros Hs. unfold recordEvent. rewrite Hs.
  destruct (decide (status s = rejected)) as [E|E].
  { cbn. rewrite Hs. intros [= <-]. auto. }
  intros H Hb. revert H. cbv zeta. cbn [analysis setEvents behavior].
  rewrite Hb. rewrite bool_decide_eq_true_2 by eauto.
  rewrite andb_false_r. cbn [fst]. rewrite lookup_insert_eq. intros [= <-]. exact Hb.
Qed.

Lemma verify_behavior st sid now req s s' b :
  st !! sid = Some s ->
  fst (verify L st sid now req) !! sid = Some s' ->
  behavior (analysis s) = Some b -> behavior (analysis s') = Some b.
Proof.
  intros Hs. unfold verify. rewrite Hs.
  destruct (bool_decide (status s = pending)); cbn [negb].
  - intros H Hb. revert H. rewrite Hb. cbn [fst]. rewrite lookup_insert_eq.
    intros [= <-]. exact Hb.
  - cbn. rewrite Hs. intros [= <-]. auto.
Qed.

Lemma run_behavior st o sid s s' b :
  reissues sid o = false ->
  st !! sid = Some s -> run L st o !! sid = Some s' ->
  behavior (analysis s) = Some b -> behavior (analysis s') = Some b.
Proof.
  intros Hf Hs. apply reissues_false in Hf.
  destruct o as [sid' now req body|sid' now req ty data|sid' now req|sid'|now];
    cbn [run].
  - rewrite init_lookup_ne by exact Hf. rewrite Hs. intros [= <-]. auto.
  - destruct (decide (sid' = sid)) as [->|Hne].
    + now apply recordEvent_behavior.
    + rewrite recordEvent_lookup by exact Hne. rewrite Hs. intros [= <-]. auto.
  - destruct (decide (sid' = sid)) as [->|Hne].
    + now apply verify_behavior.
    + rewrite verify_lookup by exact Hne. rewrite Hs. intros [= <-]. auto.
  - rewrite Hs. intros [= <-]. auto.
  - intros H. apply cleanupSessions_lookup in H. rewrite Hs in H.
    injection H as <-. auto.
Qed.

End ReachFacts.

Lemma scenario_fresh : Verify.runAll Demo.libs ∅ Scenario.createOps !! Demo.sid
                       = Some Scenario.fresh.
Proof. apply lookup_insert_eq. Qed.

Lemma scenario_fresh_pending : Verify.status Scenario.fresh = Verify.pending.
Proof. vm_compute. reflexivity. Qed.

(** X16: every session of a store reached from the empty one was issued by a
    CreateSession of the sequence, is stored under its own identifier, and
    still carries the creation time, the snapshot and the automation,
    fingerprint and network analyses of that request: no route alters them. *)
Theorem session_keeps_its_origin
    (L : Libs) (ops : list Verify.Op) (sid : string) (s : Verify.Session) :
  Verify.runAll L ∅ ops !! sid = Some s ->
  Verify.id s = sid
  /\ exists now req body,
       In (Verify.CreateSession sid now req body) ops
       /\ Verify.createdAt s = now
       /\ Verify.clientInfo s = Verify.makeClientInfo L req body
       /\ Verify.automation (Verify.analysis s)
          = Some (Automation.detectAutomation L (Verify.makeClientInfo L req body))
       /\ Verify.fingerprint (Verify.analysis s)
          = Some (Fingerprint.analyzeFingerprint (Some (Verify.makeClientInfo L req body)))
       /\ Verify.network (Verify.analysis s)
          = Some (Network.analyzeNetwork L (Verify.makeClientInfo L req body) req).
Proof.
  intros H. destruct (Wf_reachable L ops sid s H) as [H1 H2 _ _]. split; assumption.
Qed.

(** The session of [Demo] right after its creation. *)
Lemma session_keeps_its_origin_witness :
  Verify.id Scenario.fresh = Demo.sid
  /\ exists now req body,
       In (Verify.CreateSession Demo.sid now req body) Scenario.createOps
       /\ Verify.createdAt Scenario.fresh = now
       /\ Verify.clientInfo Scenario.fresh = Verify.makeClientInfo Demo.libs req body
       /\ Verify.automation (Verify.analysis Scenario.fresh)
          = Some (Automation.detectAutomation Demo.libs
                    (Verify.makeClientInfo Demo.libs req body))
       /\ Verify.fingerprint (Verify.analysis Scenario.fresh)
          = Some (Fingerprint.analyzeFingerprint
                    (Some (Verify.makeClientInfo Demo.libs req body)))
       /\ Verify.network (Verify.analysis Scenario.fresh)
          = Some (Network.analyzeNetwork Demo.libs
                    (Verify.makeClientInfo Demo.libs req body) req).
Proof.
  apply (session_keeps_its_origin Demo.libs Scenario.createOps Demo.sid Scenario.fresh).
  exact scenario_fresh.
Defined.

(** X17: in every store reached from the empty one, a rejected session
    carries a rejection reason, and the reason is not the empty text. *)
Theorem rejected_session_has_reason
    (L : Libs) (ops : list Verify.Op) (sid : string) (s : Verify.Session) :
  Verify.runAll L ∅ ops !! sid = Some s ->
  Verify.status s = Verify.rejected ->
  exists why, Verify.rejectionReason s = Some why /\ why <> EmptyString.
Proof.
  intros H Hr. destruct (Wf_reachable L ops sid s H) as [_ _ _ H4].
  rewrite Hr in H4. destruct (Verify.rejectionReason s) as [[|c w]|]; try discriminate H4.
  eexists. split; [reflexivity|discriminate].
Qed.

Lemma scenario_headless_status :
  option_map Verify.status (Verify.runAll Demo.libs ∅ Scenario.headlessOps !! Demo.sid)
  = Some Verify.rejected.
Proof. vm_compute. reflexivity. Qed.

(** The session of the headless browser of [Demo]. *)
Lemma rejected_session_has_reason_witness :
  exists s why,
    Verify.runAll Demo.libs ∅ Scenario.headlessOps !! Demo.sid = Some s
    /\ Verify.rejectionReason s = Some why /\ why <> EmptyString.
Proof.
  pose proof scenario_headless_status as H.
  destruct (Verify.runAll Demo.libs ∅ Scenario.headlessOps !! Demo.sid) as [s|] eqn:E;
    [|discriminate H].
  destruct (rejected_session_has_reason Demo.libs Scenario.headlessOps Demo.sid s E)
    as (why & H1 & H2).
  - cbn [option_map] in H. now apply (inj Some) in H.
  - exists s, why. split; [reflexivity|]. split; assumption.
Defined.

(** X18: in every store reached from the empty one, a pending session has
    no verification time, score or rejection reason, and a verified session
    has a verification time, a score between 60 and 100, and no rejection
    reason. *)
Theorem verdict_fields_follow_status
    (L : Libs) (ops : list Verify.Op) (sid : string) (s : Verify.Session) :
  Verify.runAll L ∅ ops !! sid = Some s ->
  (Verify.status s = Verify.pending ->
   Verify.verifiedAt s = None /\ Verify.verificationScore s = None
   /\ Verify.rejectionReason s = None)
  /\ (Verify.status s = Verify.verified ->
      Verify.rejectionReason s = None
      /\ exists q t, Verify.verificationScore s = Some q /\ Verify.verifiedAt s = Some t
                     /\ (60 <= q <= 100)%Q).
Proof.
  intros H. destruct (Wf_reachable L ops sid s H) as [_ _ _ H4].
  split; intros Hs; rewrite Hs in H4; exact H4.
Qed.

Lemma scenario_evaluated_some :
  is_Some (Verify.runAll Demo.libs ∅ Scenario.evaluateOps !! Demo.sid).
Proof. vm_compute. eauto. Qed.

(** The session of [Demo] once evaluated. *)
Lemma verdict_fields_follow_status_witness :
  exists s,
    Verify.runAll Demo.libs ∅ Scenario.evaluateOps !! Demo.sid = Some s
    /\ (Verify.status s = Verify.pending ->
        Verify.verifiedAt s = None /\ Verify.verificationScore s = None
        /\ Verify.rejectionReason s = None)
    /\ (Verify.status s = Verify.verified ->
        Verify.rejectionReason s = None
        /\ exists q t, Verify.verificationScore s = Some q /\ Verify.verifiedAt s = Some t
                       /\ (60 <= q <= 100)%Q).
Proof.
  destruct scenario_evaluated_some as [s E]. exists s. split; [exact E|].
  exact (verdict_fields_follow_status Demo.libs Scenario.evaluateOps Demo.sid s E).
Defined.

(** X19: on a store reached from the empty one, an Evaluate call that answers
    "not human", freshly computed or cached, gives at least one reason. *)
Theorem evaluate_rejection_gives_reason
    (L : Libs) (ops : list Verify.Op) (sid : string) (now : Z) (req : Request)
    (st' : Verify.Store) (v : Verify.VResult) :
  Verify.verify L (Verify.runAll L ∅ ops) sid now req = (st', Verify.VerifyResult v) ->
  Verify.isHuman v = false ->
  Verify.reasons v <> [].
Proof.
  unfold Verify.verify.
  destruct (Verify.runAll L ∅ ops !! sid) as [s|] eqn:Hs; [|discriminate].
  pose proof (Wf_reachable L ops sid s Hs) as Hw.
  destruct (bool_decide (Verify.status s = Verify.pending)) eqn:E; cbn [negb].
  - apply bool_decide_eq_true in E.
    assert (Hgen : forall s1, Inv.Wf L ops sid s1 ->
              Verify.isHuman (Verify.verifySession now s1 req) = false ->
              Verify.reasons (Verify.verifySession now s1 req) <> []).
    { intros s1 H1 Hh Hnil.
      pose proof (Wf_verifySession_reason L ops sid s1 now req H1 Hh) as Ht.
      rewrite Hnil in Ht. discriminate Ht. }
    destruct (Verify.behavior (Verify.analysis s)) as [b0|] eqn:Hb.
    + intros [= <- <-]. now apply Hgen.
    + destruct (Verify.events s) as [|e evs] eqn:He.
      * intros [= <- <-]. now apply Hgen.
      * destruct (Behavior.analyzeBehavior L now (e :: evs)) as [b|]; [|discriminate].
        intros [= <- <-]. apply Hgen. apply Wf_setBehavior; [exact Hw|]. now rewrite He.
  - apply bool_decide_eq_false in E. intros [= <- <-].
    unfold Verify.cachedResult. cbn [Verify.isHuman Verify.reasons].
    intros Hv. apply bool_decide_eq_false in Hv.
    destruct Hw as [_ _ _ H4].
    destruct (Verify.status s); try contradiction.
    rewrite H4. destruct (Verify.rejectionReason s); [discriminate|discriminate H4].
Qed.

Lemma scenario_quick_verdict :
  option_map Verify.isHuman
    (Demo.resultOf
       (snd (Verify.verify Demo.libs (Verify.runAll Demo.libs ∅ Scenario.createOps)
               Demo.sid 1500 Demo.request)))
  = Some false.
Proof. vm_compute. reflexivity. Qed.

(** The session of [Demo] evaluated half a second after its creation. *)
Lemma evaluate_rejection_gives_reason_witness :
  exists st' v,
    Verify.verify Demo.libs (Verify.runAll Demo.libs ∅ Scenario.createOps)
      Demo.sid 1500 Demo.request
    = (st', Verify.VerifyResult v)
    /\ Verify.isHuman v = false
    /\ Verify.reasons v <> [].
Proof.
  pose proof scenario_quick_verdict as H.
  destruct (Verify.verify Demo.libs (Verify.runAll Demo.libs ∅ Scenario.createOps)
              Demo.sid 1500 Demo.request) as [st' r] eqn:E.
  cbn [snd] in H. destruct r as [|v|]; try discriminate H.
  cbn [Demo.resultOf option_map] in H. apply (inj Some) in H.
  exists st', v. split; [reflexivity|]. split; [exact H|].
  exact (evaluate_rejection_gives_reason Demo.libs Scenario.createOps Demo.sid 1500
           Demo.request st' v E H).
Defined.

(** X20: on a store reached from the empty one, a pending session without any
    event that is evaluated less than a second after its creation is
    rejected: the score is at most 40 and the stored status becomes
    rejected. *)
Theorem quick_evaluation_is_rejected
    (L : Libs) (ops : list Verify.Op) (sid : string) (s : Verify.Session)
    (now : Z) (req : Request) :
  Verify.runAll L ∅ ops !! sid = Some s ->
  Verify.status s = Verify.pending ->
  Verify.events s = [] ->
  now - Verify.createdAt s < 1000 ->
  exists v s',
    Verify.verify L (Verify.runAll L ∅ ops) sid now req
    = (<[sid := s']> (Verify.runAll L ∅ ops), Verify.VerifyResult v)
    /\ Verify.isHuman v = false
    /\ (Verify.score v <= 40)%Q
    /\ Verify.status s' = Verify.rejected.
Proof.
  intros Hs Hp He Hage.
  destruct (Wf_reachable L ops sid s Hs) as [_ (t & rq & body & _ & _ & _ & _ & Hf & Hn) Hb _].
  specialize (Hb He).
  assert (Hq : (Verify.score (Verify.verifySession now s req) <= 40)%Q).
  { apply verifySession_quick; auto.
    - intros f Ef. rewrite Hf in Ef. apply (inj Some) in Ef. subst f.
      apply analyzeFingerprint_range.
    - intros n En. rewrite Hn in En. apply (inj Some) in En. subst n.
      apply analyzeNetwork_range. }
  assert (Hh : Verify.isHuman (Verify.verifySession now s req) = false).
  { destruct (Verify.isHuman (Verify.verifySession now s req)) eqn:E; [|reflexivity].
    unfold Verify.verifySession in E, Hq. cbn [Verify.isHuman Verify.score] in E, Hq.
    apply Qleb_le in E. exfalso.
    apply (Qle_not_lt _ _ (Qle_trans _ _ _ E Hq)). reflexivity. }
  exists (Verify.verifySession now s req),
         (Verify.decided now (Verify.verifySession now s req) s).
  split.
  - unfold Verify.verify. rewrite Hs, Hp, Hb, He.
    rewrite bool_decide_eq_true_2 by reflexivity. reflexivity.
  - split; [exact Hh|]. split; [exact Hq|].
    cbn [Verify.decided Verify.status]. now rewrite Hh.
Qed.

(** The same evaluation. *)
Lemma quick_evaluation_is_rejected_witness :
  exists v s',
    Verify.verify Demo.libs (Verify.runAll Demo.libs ∅ Scenario.createOps)
      Demo.sid 1500 Demo.request
    = (<[Demo.sid := s']> (Verify.runAll Demo.libs ∅ Scenario.createOps),
       Verify.VerifyResult v)
    /\ Verify.isHuman v = false
    /\ (Verify.score v <= 40)%Q
    /\ Verify.status s' = Verify.rejected.
Proof.
  apply (quick_evaluation_is_rejected Demo.libs Scenario.createOps Demo.sid
           Scenario.fresh 1500 Demo.request).
  - exact scenario_fresh.
  - exact scenario_fresh_pending.
  - reflexivity.
  - reflexivity.
Defined.

(** X21: once a behaviour analysis is stored for a session, no sequence of
    operations that does not issue the identifier again replaces it: later
    events do not trigger a new analysis, and Evaluate uses the stored one. *)
Theorem behaviour_verdict_is_frozen
    (L : Libs) (st : Verify.Store) (ops : list Verify.Op) (sid : string)
    (s s' : Verify.Session) (b : Behavior.Result) :
  forallb (fun o => negb (Verify.reissues sid o)) ops = true ->
  st !! sid = Some s -> Verify.runAll L st ops !! sid = Some s' ->
  Verify.behavior (Verify.analysis s) = Some b ->
  Verify.behavior (Verify.analysis s') = Some b.
Proof.
  revert st s. induction ops as [|o ops IH]; intros st s Hf Hs Hs' Hb.
  - cbn in Hs'. rewrite Hs in Hs'. injection Hs' as <-. exact Hb.
  - cbn in Hf. apply andb_true_iff in Hf as [Ho Hf]. apply negb_true_iff in Ho.
    change (Verify.runAll L st (o :: ops))
      with (Verify.runAll L (Verify.run L st o) ops) in Hs'.
    destruct (Verify.run L st o !! sid) as [s1|] eqn:E.
    + apply (IH (Verify.run L st o) s1 Hf E Hs').
      apply (run_behavior L st o sid s s1 b Ho Hs E Hb).
    + rewrite (runAll_absent _ _ _ _ Hf E) in Hs'. discriminate.
Qed.

Lemma scenario_keyed_behavior :
  option_map (fun s => Verify.behavior (Verify.analysis s))
    (Verify.runAll Demo.libs ∅ Scenario.keyedOps !! Demo.sid)
  = Some (Some {| Behavior.isHuman := false; Behavior.score := 0;
                  Behavior.reasons := ["鼠标移动事件太少"] |}).
Proof. vm_compute. reflexivity. Qed.

Lemma scenario_keyed_typed :
  is_Some (Verify.runAll Demo.libs (Verify.runAll Demo.libs ∅ Scenario.keyedOps)
             Demo.keyOps !! Demo.sid).
Proof. vm_compute. eauto. Qed.

(** Ten key presses after an evaluation that stored the analysis. *)
Lemma behaviour_verdict_is_frozen_witness :
  exists s',
    Verify.runAll Demo.libs (Verify.runAll Demo.libs ∅ Scenario.keyedOps) Demo.keyOps
      !! Demo.sid = Some s'
    /\ Verify.behavior (Verify.analysis s')
       = Some {| Behavior.isHuman := false; Behavior.score := 0;
                 Behavior.reasons := ["鼠标移动事件太少"] |}.
Proof.
  pose proof scenario_keyed_behavior as H.
  destruct (Verify.runAll Demo.libs ∅ Scenario.keyedOps !! Demo.sid) as [s|] eqn:E;
    [|discriminate H].
  cbn [option_map] in H. apply (inj Some) in H.
  destruct scenario_keyed_typed as [s' E']. exists s'. split; [exact E'|].
  apply (behaviour_verdict_is_frozen Demo.libs
           (Verify.runAll Demo.libs ∅ Scenario.keyedOps) Demo.keyOps Demo.sid s s').
  - reflexivity.
  - exact E.
  - exact E'.
  - exact H.
Defined.

(** X22: when the event that brings a log without behaviour analysis to ten
    events or more leaves fewer than five pointer moves in it, the event
    route stores the score 0 and rejects the session, whatever the other
    events are. *)
Theorem sparse_pointer_log_is_rejected
    (L : Libs) (st : Verify.Store) (sid : string) (s : Verify.Session)
    (now : Z) (req : Request) (ty : string) (data : option EventData) :
  let e := {| ev_type := ty; ev_data := data; ev_timestamp := now;
              ev_headers := req_headers req |} in
  st !! sid = Some s ->
  Verify.status s <> Verify.rejected ->
  Verify.behavior (Verify.analysis s) = None ->
  (9 <= length (Verify.events s))%nat ->
  (length (List.filter (Behavior.isType "mousemove") (Verify.events s ++ [e])) < 5)%nat ->
  snd (Verify.recordEvent L st sid now req ty data)
  = Verify.EventRejected (Some "行为模式与机器人相似")
  /\ exists s',
       fst (Verify.recordEvent L st sid now req ty data) !! sid = Some s'
       /\ Verify.status s' = Verify.rejected
       /\ Verify.behavior (Verify.analysis s')
          = Some {| Behavior.isHuman := false; Behavior.score := 0;
                    Behavior.reasons := ["鼠标移动事件太少"] |}.
Proof.
  intros e Hs Hr Hb Hlen Hm.
  assert (Hbeh : Behavior.analyzeBehavior L now (Verify.events s ++ [e])
                 = Some {| Behavior.isHuman := false; Behavior.score := 0;
                           Behavior.reasons := ["鼠标移动事件太少"] |}).
  { unfold Behavior.analyzeBehavior.
    destruct (Verify.events s ++ [e])%list as [|x l] eqn:E.
    { destruct (Verify.events s); discriminate E. }
    apply Nat.ltb_lt in Hm. now rewrite Hm. }
  unfold Verify.recordEvent. rewrite Hs.
  destruct (decide (Verify.status s = Verify.rejected)) as [E|_]; [contradiction|].
  cbv zeta. fold e. cbn [Verify.setEvents Verify.events Verify.analysis Verify.behavior].
  rewrite Hb.
  assert (H10 : (10 <=? length (Verify.events s ++ [e]))%nat = true).
  { apply Nat.leb_le. rewrite length_app. cbn. lia. }
  rewrite H10. rewrite bool_decide_eq_false_2 by (intros [x Hx]; discriminate Hx).
  cbn [negb andb]. rewrite Hbeh. cbn [Behavior.isHuman Behavior.score negb andb Z.ltb Z.compare].
  split; [reflexivity|]. eexists. split; [apply lookup_insert_eq|]. split; reflexivity.
Qed.

(** A tenth key press on a log of nine key presses. *)
Lemma sparse_pointer_log_is_rejected_witness :
  snd (Verify.recordEvent Demo.libs {[ Demo.sid := Scenario.nineKeys ]} Demo.sid 2900
         Demo.request "keypress" (Some Demo.keypress))
  = Verify.EventRejected (Some "行为模式与机器人相似")
  /\ exists s',
       fst (Verify.recordEvent Demo.libs {[ Demo.sid := Scenario.nineKeys ]} Demo.sid 2900
              Demo.request "keypress" (Some Demo.keypress)) !! Demo.sid = Some s'
       /\ Verify.status s' = Verify.rejected
       /\ Verify.behavior (Verify.analysis s')
          = Some {| Behavior.isHuman := false; Behavior.score := 0;
                    Behavior.reasons := ["鼠标移动事件太少"] |}.
Proof.
  apply (sparse_pointer_log_is_rejected Demo.libs {[ Demo.sid := Scenario.nineKeys ]}
           Demo.sid Scenario.nineKeys 2900 Demo.request "keypress" (Some Demo.keypress)).
  - apply lookup_singleton_eq.
  - change (Verify.status Scenario.nineKeys) with (Verify.status Scenario.fresh).
    rewrite scenario_fresh_pending. discriminate.
  - reflexivity.
  - cbn. lia.
  - cbn. lia.
Defined.

(** X23: the answer of the event route agrees with what the status route
    reports next: after an accepted event the status route gives the same
    event count and a status other than rejected; after a refused event it
    gives the status rejected with the same reason. *)
Theorem event_answer_agrees_with_status
    (L : Libs) (st : Verify.Store) (sid : string) (now : Z) (req : Request)
    (ty : string) (data : option EventData) :
  let st' := fst (Verify.recordEvent L st sid now req ty data) in
  match snd (Verify.recordEvent L st sid now req ty data) with
  | Verify.EventAccepted n =>
      exists v, Verify.getStatus st' sid = Some v
                /\ Verify.sv_eventsCount v = n
                /\ Verify.sv_status v <> Verify.rejected
  | Verify.EventRejected why =>
      exists v, Verify.getStatus st' sid = Some v
                /\ Verify.sv_status v = Verify.rejected
                /\ Verify.sv_rejectionReason v = why
  | Verify.EventNotFound => Verify.getStatus st' sid = None
  | Verify.EventError => True
  end.
Proof.
  cbv zeta. unfold Verify.recordEvent.
  destruct (st !! sid) as [s|] eqn:Hs.
  2:{ cbn [fst snd]. unfold Verify.getStatus. now rewrite Hs. }
  destruct (decide (Verify.status s = Verify.rejected)) as [E|E].
  { cbn [fst snd]. unfold Verify.getStatus. rewrite Hs. eexists. split; [reflexivity|].
    split; [exact E|reflexivity]. }
  cbv zeta.
  destruct (_ && _).
  - destruct (Behavior.analyzeBehavior L now _) as [b|]; [|exact I].
    destruct (_ && _); cbn [fst snd]; unfold Verify.getStatus; rewrite lookup_insert_eq;
      eexists; (split; [reflexivity|]); split; try reflexivity; exact E.
  - cbn [fst snd]. unfold Verify.getStatus. rewrite lookup_insert_eq.
    eexists. split; [reflexivity|]. split; [reflexivity|exact E].
Qed.

(** X24: a session is in the store after a sweep exactly when it was there
    before and is not older than 24 hours (a session of exactly that age
    stays); the sweep leaves the sessions it keeps as they are. *)
Theorem sweep_keeps_recent_sessions
    (st : Verify.Store) (now : Z) (sid : string) (s : Verify.Session) :
  Verify.cleanupSessions st now !! sid = Some s
  <-> st !! sid = Some s /\ now - Verify.createdAt s <= 86400000.
Proof.
  unfold Verify.cleanupSessions. rewrite map_lookup_filter_Some. cbn [snd].
  rewrite negb_true_iff, Z.ltb_ge. reflexivity.
Qed.

Lemma cleanupSessions_lookup_iff (st : Verify.Store) (now : Z) (sid : string)
    (s : Verify.Session) :
  Verify.cleanupSessions st now !! sid = Some s
  <-> st !! sid = Some s /\ now - Verify.createdAt s <= 24 * 60 * 60 * 1000.
Proof.
  unfold Verify.cleanupSessions. rewrite map_lookup_filter_Some. cbn [snd].
  rewrite negb_true_iff, Z.ltb_ge. reflexivity.
Qed.

(** X25: a sweep followed by a later sweep leaves the store that the later
    sweep alone leaves; in particular sweeping twice at the same time is
    sweeping once. *)
Theorem sweep_then_later_sweep (st : Verify.Store) (t1 t2 : Z) :
  t1 <= t2 ->
  Verify.cleanupSessions (Verify.cleanupSessions st t1) t2 = Verify.cleanupSessions st t2.
Proof.
  intros Ht. apply map_eq. intros sid. apply option_eq. intros s.
  rewrite !cleanupSessions_lookup_iff. intuition lia.
Qed.

(** Two sweeps over the store of [Demo]. *)
Lemma sweep_then_later_sweep_witness :
  Verify.cleanupSessions (Verify.cleanupSessions Demo.created 2000) 3000
  = Verify.cleanupSessions Demo.created 3000.
Proof. apply (sweep_then_later_sweep Demo.created 2000 3000). lia. Defined.

(** ** The string hash of the SDK *)
Section HashFacts.
Import Sdk.

Lemma toInt32_range x : - 2 ^ 31 <= toInt32 x < 2 ^ 31.
Proof.
  unfold toInt32. pose proof (Z.mod_pos_bound (x + 2 ^ 31) (2 ^ 32)) as H.
  lapply H; [|lia]. lia.
Qed.

Lemma toInt32_mod x : toInt32 x mod 2 ^ 32 = x mod 2 ^ 32.
Proof.
  unfold toInt32. rewrite Zminus_mod, Z.mod_mod by lia.
  rewrite <- Zminus_mod. f_equal. lia.
Qed.

Lemma toInt32_congr x y : x mod 2 ^ 32 = y mod 2 ^ 32 -> toInt32 x = toInt32 y.
Proof.
  intros H. unfold toInt32. f_equal.
  rewrite (Zplus_mod x), (Zplus_mod y), H. reflexivity.
Qed.

Lemma hashStep_horner a c : hashStep (toInt32 a) c = toInt32 (31 * a + c).
Proof.
  unfold hashStep. apply toInt32_congr.
  rewrite Z.shiftl_mul_pow2 by lia.
  rewrite Zplus_mod, Zminus_mod, toInt32_mod.
  rewrite (Zmult_mod (toInt32 a)), !toInt32_mod.
  rewrite <- Zmult_mod, <- Zminus_mod, <- Zplus_mod. f_equal. lia.
Qed.

Lemma hashCode_from a codes :
  fold_left hashStep codes (toInt32 a)
  = toInt32 (fold_left (fun h c => 31 * h + c) codes a).
Proof.
  revert a. induction codes as [|c codes IH]; intros a; [reflexivity|].
  cbn [fold_left]. rewrite hashStep_horner. apply IH.
Qed.

Lemma readHex_app a d r : readHex a (d ++ r) = readHex (readHex a d) r.
Proof. revert a. induction d as [|c d IH]; intros a; cbn; [reflexivity|apply IH]. Qed.

Lemma hexVal_hexDigit d : 0 <= d < 16 -> Z.of_nat (Fingerprint.hexVal (Sha256.hexDigit d)) = d.
Proof.
  intros H. assert (E : d = 0 \/ d = 1 \/ d = 2 \/ d = 3 \/ d = 4 \/ d = 5 \/ d = 6
                        \/ d = 7 \/ d = 8 \/ d = 9 \/ d = 10 \/ d = 11 \/ d = 12
                        \/ d = 13 \/ d = 14 \/ d = 15) by lia.
  repeat destruct E as [->|E]; try subst d; reflexivity.
Qed.

(** What [hexDigits] puts before the accumulator reads back as [n]. *)
Lemma hexDigits_spec f n acc :
  0 <= n < 16 ^ Z.of_nat f -> (0 < f)%nat ->
  exists D, hexDigits f n acc = (D ++ acc)%string
            /\ forall a, readHex a D = a * 16 ^ Z.of_nat (String.length D) + n.
Proof.
  revert n acc. induction f as [|f IH]; intros n acc Hn Hf; [lia|].
  cbn [hexDigits].
  assert (Hm : 0 <= n mod 16 < 16) by (apply Z.mod_pos_bound; lia).
  pose proof (Z.div_mod n 16 ltac:(lia)) as Hd.
  destruct (n / 16 =? 0) eqn:E.
  - apply Z.eqb_eq in E. exists (String (Sha256.hexDigit (n mod 16)) EmptyString).
    split; [reflexivity|]. intros a. cbn [readHex String.length].
    rewrite hexVal_hexDigit by exact Hm. change (Z.of_nat 1) with 1. rewrite Z.pow_1_r. lia.
  - apply Z.eqb_neq in E.
    assert (Hq : 0 <= n / 16 < 16 ^ Z.of_nat f).
    { split; [apply Z.div_pos; lia|].
      apply Z.div_lt_upper_bound; [lia|].
      replace (16 * 16 ^ Z.of_nat f) with (16 ^ Z.of_nat (S f)); [lia|].
      rewrite Nat2Z.inj_succ, Z.pow_succ_r by lia. reflexivity. }
    assert (Hf' : (0 < f)%nat).
    { destruct f; [|lia]. cbn in Hq. lia. }
    destruct (IH (n / 16) (String (Sha256.hexDigit (n mod 16)) acc) Hq Hf')
      as (D & HD & Hval).
    exists (D ++ String (Sha256.hexDigit (n mod 16)) EmptyString)%string.
    split; [rewrite HD, append_assoc; reflexivity|].
    intros a. rewrite readHex_app, Hval. cbn [readHex].
    rewrite hexVal_hexDigit by exact Hm. rewrite strlength_app. cbn [String.length].
    replace (Z.of_nat (String.length D + 1)) with (Z.of_nat (String.length D) + 1) by lia.
    rewrite Z.pow_add_r, Z.pow_1_r by lia. lia.
Qed.

Lemma toString16_reads_back n : 0 <= n -> readHex 0 (toString16 n) = n.
Proof.
  intros Hn. unfold toString16.
  destruct (hexDigits_spec (S (Z.to_nat (Z.log2 n))) n EmptyString) as (D & HD & H).
  - split; [exact Hn|]. destruct (Z.eq_dec n 0) as [->|Hz]; [cbn; lia|].
    pose proof (Z.log2_spec n) as Hl. lapply Hl; [|lia]. intros [_ Hu].
    rewrite Nat2Z.inj_succ, Z2Nat.id by apply Z.log2_nonneg.
    eapply Z.lt_le_trans; [exact Hu|].
    apply Z.pow_le_mono_l. lia.
  - lia.
  - rewrite HD, append_empty_r, H. lia.
Qed.

End HashFacts.

(** X26: [_hashString] returns the hexadecimal digits of the absolute value
    of [h], the polynomial sum of the code units in base 31 (the first unit
    has the highest power) reduced to a signed 32-bit integer.  The sign of
    [h] is lost, and the number that is written lies between 0 and 2^31,
    both reached. *)
Theorem hashCode_is_polynomial (codes : list Z) :
  let h := Sdk.toInt32 (fold_left (fun h c => 31 * h + c) codes 0) in
  Sdk.hashString codes = Sdk.toString16 (Z.abs h)
  /\ Sdk.readHex 0 (Sdk.hashString codes) = Z.abs h
  /\ 0 <= Z.abs h <= 2 ^ 31.
Proof.
  intros h.
  assert (H : Sdk.hashCode codes = h).
  { unfold Sdk.hashCode. change 0 with (Sdk.toInt32 0) at 1. apply hashCode_from. }
  unfold Sdk.hashString. rewrite H. split; [reflexivity|]. split.
  - apply toString16_reads_back. lia.
  - pose proof (toInt32_range (fold_left (fun h c => 31 * h + c) codes 0)) as Hr.
    fold h in Hr. lia.
Qed.

(** The hash of "abc" is that of Java's [String.hashCode], 96354, in
    hexadecimal; the hash of the empty string is "0". *)
Example hashString_abc : Sdk.hashString (Sdk.codesOf "abc") = "17862".
Proof. vm_compute. reflexivity. Qed.

Example hashString_empty : Sdk.hashString [] = "0".
Proof. vm_compute. reflexivity. Qed.

(** A text whose 32-bit hash is -2^31: the absolute value is 2^31. *)
Example hashString_most_negative :
  Sdk.hashCode (Sdk.codesOf "polygenelubricants") = - 2 ^ 31
  /\ Sdk.hashString (Sdk.codesOf "polygenelubricants") = "80000000".
Proof. vm_compute. split; reflexivity. Qed.

(** ** The first version of the router *)
Section LegacyFacts.
Import Legacy Inv.

Lemma plus25_mono b b' n n' :
  (b = true -> b' = true) -> n <= n' -> plus25 b n <= plus25 b' n'.
Proof. unfold plus25. destruct b, b'; intros H Hn; lia. Qed.

Lemma extends_refl s : extends s s.
Proof. split; [reflexivity|]. split; [reflexivity|]. exists []. now rewrite app_nil_r. Qed.

Lemma extends_trans a b c : extends a b -> extends b c -> extends a c.
Proof.
  intros (H1 & H2 & m1 & H3) (H4 & H5 & m2 & H6). split; [congruence|].
  split; [congruence|]. exists (m1 ++ m2)%list. rewrite H6, H3. now rewrite <- List.app_assoc.
Qed.

Lemma run_extends st o sid s :
  st !! sid = Some s -> exists s', run st o !! sid = Some s' /\ extends s s'.
Proof.
  intros Hs. destruct o as [sid' now ty d|sid' now]; cbn [run].
  - unfold recordEvent. destruct (st !! sid') as [s0|] eqn:E.
    + destruct (decide (sid' = sid)) as [->|Hne].
      * rewrite lookup_insert_eq. eexists. split; [reflexivity|].
        rewrite Hs in E. injection E as <-.
        split; [reflexivity|]. split; [reflexivity|]. eexists. reflexivity.
      * rewrite lookup_insert_ne by exact Hne. exists s. split; [exact Hs|apply extends_refl].
    + exists s. split; [exact Hs|apply extends_refl].
  - unfold verify. destruct (st !! sid') as [s0|] eqn:E.
    + destruct (decide (sid' = sid)) as [->|Hne].
      * rewrite lookup_insert_eq. eexists. split; [reflexivity|].
        rewrite Hs in E. injection E as <-.
        split; [reflexivity|]. split; [reflexivity|]. exists []. cbn. now rewrite app_nil_r.
      * rewrite lookup_insert_ne by exact Hne. exists s. split; [exact Hs|apply extends_refl].
    + exists s. split; [exact Hs|apply extends_refl].
Qed.

Lemma runAll_extends st ops sid s :
  st !! sid = Some s -> exists s', runAll st ops !! sid = Some s' /\ extends s s'.
Proof.
  revert st s. induction ops as [|o ops IH]; intros st s Hs.
  - exists s. split; [exact Hs|apply extends_refl].
  - destruct (run_extends st o sid s Hs) as (s1 & H1 & E1).
    destruct (IH (run st o) s1 H1) as (s' & H' & E').
    exists s'. split; [exact H'|]. eapply extends_trans; eauto.
Qed.

Lemma verifySession_mono now now' s s' :
  now <= now' -> extends s s' ->
  score (verifySession now s) <= score (verifySession now' s').
Proof.
  intros Hn (Hc & Hi & more & He). unfold verifySession. cbv zeta. cbn [score].
  rewrite Hc, Hi, He.
  repeat apply plus25_mono; try (intros H; exact H).
  - intros H. rewrite existsb_app, H. reflexivity.
  - rewrite !negb_true_iff, !Z.ltb_ge. lia.
  - lia.
Qed.

End LegacyFacts.

(** X27: in the first version of the router, where Evaluate recomputes the
    verdict at every call, the score of a session never decreases: after
    any further events and evaluations, and at any later time, a session
    that was judged human is judged human again. *)
Theorem legacy_verdict_never_gets_worse
    (st : Legacy.Store) (ops : list Legacy.Op) (sid : string) (s : Legacy.Session)
    (now now' : Z) :
  st !! sid = Some s -> now <= now' ->
  exists s',
    Legacy.runAll st ops !! sid = Some s'
    /\ Legacy.score (Legacy.verifySession now s)
       <= Legacy.score (Legacy.verifySession now' s')
    /\ (Legacy.isHuman (Legacy.verifySession now s) = true ->
        Legacy.isHuman (Legacy.verifySession now' s') = true).
Proof.
  intros Hs Hn. destruct (runAll_extends st ops sid s Hs) as (s' & H' & E).
  exists s'. split; [exact H'|].
  pose proof (verifySession_mono now now' s s' Hn E) as Hm.
  split; [exact Hm|].
  unfold Legacy.verifySession in *. cbv zeta in *. cbn [Legacy.isHuman Legacy.score] in *.
  rewrite !Z.leb_le. lia.
Qed.

Lemma scenario_legacy : Scenario.legacyStore !! Demo.sid = Some Scenario.legacySession.
Proof. apply lookup_insert_eq. Qed.

(** A pointer move, an evaluation and a key press on a fresh session. *)
Lemma legacy_verdict_never_gets_worse_witness :
  exists s',
    Legacy.runAll Scenario.legacyStore Scenario.legacyOps !! Demo.sid = Some s'
    /\ Legacy.score (Legacy.verifySession 2100 Scenario.legacySession)
       <= Legacy.score (Legacy.verifySession 2500 s')
    /\ (Legacy.isHuman (Legacy.verifySession 2100 Scenario.legacySession) = true ->
        Legacy.isHuman (Legacy.verifySession 2500 s') = true).
Proof.
  apply (legacy_verdict_never_gets_worse Scenario.legacyStore Scenario.legacyOps Demo.sid
           Scenario.legacySession 2100 2500).
  - exact scenario_legacy.
  - lia.
Defined.
